(** * stock-track-api: authentication and tenant-scoped user management

    A shallow embedding of
      - src/users/entities/user.entity.ts        (the [User] entity and its hooks),
      - src/users/users.service.ts               ([UsersService]),
      - src/users/dto/*.ts                       (the request and response shapes),
      - src/auth/auth.service.ts, auth.controller.ts ([AuthService], [AuthController]),
    followed by the properties of the design document that concern them.

    The services are [async] code that awaits one repository call after the
    other, so they are written in a state-and-exception monad over the
    [users] table.  The external libraries (bcrypt, jsonwebtoken) are
    interfaces with the laws their documentation states; a small reference
    implementation of each is given so that every statement can be evaluated
    on concrete requests. *)

From stdpp Require Import gmap strings list fin_maps.
From Stdlib Require Import ZArith Bool Lia Ascii.

Local Open Scope Z_scope.

(* ===================================================================== *)
(** * JavaScript strings *)
(* ===================================================================== *)

Module Js.

(** [String.prototype.toLowerCase] on the ASCII range: the strings of this
    development are sequences of bytes and stand for JavaScript strings of
    ASCII characters; a character outside [A]-[Z] is left as it is. *)
Definition lower_ascii (c : ascii) : ascii :=
  let n := Ascii.N_of_ascii c in
  if ((65 <=? n) && (n <=? 90))%N then Ascii.ascii_of_N (n + 32) else c.

Fixpoint toLowerCase (s : string) : string :=
  match s with
  | EmptyString => EmptyString
  | String c s' => String (lower_ascii c) (toLowerCase s')
  end.

(** [s.startsWith(p)]. *)
Definition startsWith (s p : string) : bool := String.prefix p s.

(** Truthiness of a string: the empty string is falsy. *)
Definition truthy (s : string) : bool :=
  match s with EmptyString => false | String _ _ => true end.

(** Does some character of [s] satisfy [p]? *)
Fixpoint some_char (p : ascii -> bool) (s : string) : bool :=
  match s with
  | EmptyString => false
  | String c s' => p c || some_char p s'
  end.

Definition in_range (lo hi : N) (c : ascii) : bool :=
  ((lo <=? Ascii.N_of_ascii c) && (Ascii.N_of_ascii c <=? hi))%N.

Definition is_lower : ascii -> bool := in_range 97 122.
Definition is_upper : ascii -> bool := in_range 65 90.
Definition is_digit : ascii -> bool := in_range 48 57.

(** The class [[@$!%*?&]] of the password pattern. *)
Definition is_special (c : ascii) : bool :=
  some_char (Ascii.eqb c) "@$!%*?&".

(** The result of [Math.ceil(a / b)] and of the comparisons made with it. *)
Inductive number : Type :=
| Num (z : Z)
| Infinity
| NaN.

(** [Math.ceil(a / b)] for a non-negative integer [a] and an integer [b]. *)
Definition ceil_div (a b : Z) : number :=
  if b =? 0 then (if a =? 0 then NaN else Infinity)
  else Num (- ((- a) / b)).

(** [p < x] for an integer [p]. *)
Definition lt_number (p : Z) (x : number) : bool :=
  match x with
  | Num z => p <? z
  | Infinity => true
  | NaN => false
  end.

End Js.

(* ===================================================================== *)
(** * SQL pattern matching and ordering *)
(* ===================================================================== *)

Module Sql.

(** [s LIKE p]: [%] matches any run of characters, [_] any one character and
    a backslash makes the next pattern character literal. *)
Fixpoint like (p s : string) : bool :=
  match p with
  | EmptyString => match s with EmptyString => true | String _ _ => false end
  | String c p' =>
    if Ascii.eqb c "%"%char then
      (fix any (t : string) : bool :=
         like p' t || match t with
                      | EmptyString => false
                      | String _ t' => any t'
                      end) s
    else if Ascii.eqb c "\"%char then
      match p' with
      | EmptyString => false
      | String c' p'' =>
        match s with
        | EmptyString => false
        | String d s' => Ascii.eqb c' d && like p'' s'
        end
      end
    else
      match s with
      | EmptyString => false
      | String d s' => (Ascii.eqb c "_"%char || Ascii.eqb c d) && like p' s'
      end
  end.

(** [col ILIKE p]; a NULL column matches nothing. *)
Definition ilike (col : option string) (p : string) : bool :=
  match col with
  | None => false
  | Some s => like (Js.toLowerCase p) (Js.toLowerCase s)
  end.

(** The pattern [`%${x}%`]. *)
Definition contains_pattern (x : string) : string :=
  String "%"%char (String.append x "%").

(** [ORDER BY]: a stable insertion sort on a "less or equal" test. *)
Fixpoint insert_sorted {A} (le : A -> A -> bool) (x : A) (l : list A) : list A :=
  match l with
  | [] => [x]
  | y :: l' => if le x y then x :: l else y :: insert_sorted le x l'
  end.

Definition order_by {A} (le : A -> A -> bool) (l : list A) : list A :=
  foldr (insert_sorted le) [] l.

(** NULL sorts after every value. *)
Definition le_nulls_last {A} (le : A -> A -> bool) (x y : option A) : bool :=
  match x, y with
  | _, None => true
  | None, Some _ => false
  | Some a, Some b => le a b
  end.

End Sql.

(* ===================================================================== *)
(** * The user entity (users/entities/user.entity.ts) *)
(* ===================================================================== *)

Inductive UserRole : Type :=
| SUPER_ADMIN | ADMIN | MANAGER | EMPLOYEE | VIEWER.

Inductive UserStatus : Type :=
| ACTIVE | INACTIVE | PENDING | SUSPENDED.

Global Instance UserRole_eq_dec : EqDecision UserRole.
Proof. solve_decision. Defined.

Global Instance UserStatus_eq_dec : EqDecision UserStatus.
Proof. solve_decision. Defined.

(** The string value of a role, as the enum declares it. *)
Definition role_name (r : UserRole) : string :=
  match r with
  | SUPER_ADMIN => "super_admin"
  | ADMIN => "admin"
  | MANAGER => "manager"
  | EMPLOYEE => "employee"
  | VIEWER => "viewer"
  end.

(** The columns of a row of [users] other than its primary key, as the
    entity declares them.  [TenantBaseEntity], which the entity extends, is
    not among the sources; its columns are those the services use
    ([tenant_id], [created_at], [updated_at], [updated_by]) and the mark of
    the design document's soft deletion, [deleted_at] ("soft-deleted, not
    physical removal").  [refreshToken] is the column [AuthService] reads as
    [user.refreshToken], the design document's RefreshRecord ("one-to-one
    with Principal; a hash of the currently valid refresh token, or null").
    Timestamps are seconds. *)
Record UserRow : Type := mkRow {
  tenant_id : Z;
  email : string;
  password_hash : string;
  first_name : string;
  last_name : string;
  role : UserRole;
  status : UserStatus;
  phone : option string;
  avatar_url : option string;
  last_login_at : option Z;
  password_reset_token : option string;
  password_reset_expires_at : option Z;
  permissions : option (list string);
  department : option string;
  position : option string;
  date_of_birth : option string;
  hire_date : option string;
  employee_id : option string;
  preferences : option string;
  bio : option string;
  created_at : Z;
  updated_at : Z;
  updated_by : option Z;
  deleted_at : option Z;
  refreshToken : option string
}.

(** An entity: a row together with its primary key. *)
Record User : Type := mkUser {
  id : Z;
  cols :> UserRow
}.

Global Instance UserRow_eq_dec : EqDecision UserRow.
Proof. solve_decision. Defined.

Global Instance User_eq_dec : EqDecision User.
Proof. solve_decision. Defined.

Definition set_password_hash (v : string) (r : UserRow) : UserRow :=
  mkRow (tenant_id r) (email r) v (first_name r) (last_name r) (role r)
        (status r) (phone r) (avatar_url r) (last_login_at r)
        (password_reset_token r) (password_reset_expires_at r) (permissions r)
        (department r) (position r) (date_of_birth r) (hire_date r)
        (employee_id r) (preferences r) (bio r) (created_at r) (updated_at r)
        (updated_by r) (deleted_at r) (refreshToken r).

Definition set_status (v : UserStatus) (r : UserRow) : UserRow :=
  mkRow (tenant_id r) (email r) (password_hash r) (first_name r) (last_name r)
        (role r) v (phone r) (avatar_url r) (last_login_at r)
        (password_reset_token r) (password_reset_expires_at r) (permissions r)
        (department r) (position r) (date_of_birth r) (hire_date r)
        (employee_id r) (preferences r) (bio r) (created_at r) (updated_at r)
        (updated_by r) (deleted_at r) (refreshToken r).

Definition set_last_login_at (v : option Z) (r : UserRow) : UserRow :=
  mkRow (tenant_id r) (email r) (password_hash r) (first_name r) (last_name r)
        (role r) (status r) (phone r) (avatar_url r) v
        (password_reset_token r) (password_reset_expires_at r) (permissions r)
        (department r) (position r) (date_of_birth r) (hire_date r)
        (employee_id r) (preferences r) (bio r) (created_at r) (updated_at r)
        (updated_by r) (deleted_at r) (refreshToken r).

Definition set_created_at (v : Z) (r : UserRow) : UserRow :=
  mkRow (tenant_id r) (email r) (password_hash r) (first_name r) (last_name r)
        (role r) (status r) (phone r) (avatar_url r) (last_login_at r)
        (password_reset_token r) (password_reset_expires_at r) (permissions r)
        (department r) (position r) (date_of_birth r) (hire_date r)
        (employee_id r) (preferences r) (bio r) v (updated_at r)
        (updated_by r) (deleted_at r) (refreshToken r).

Definition set_updated_at (v : Z) (r : UserRow) : UserRow :=
  mkRow (tenant_id r) (email r) (password_hash r) (first_name r) (last_name r)
        (role r) (status r) (phone r) (avatar_url r) (last_login_at r)
        (password_reset_token r) (password_reset_expires_at r) (permissions r)
        (department r) (position r) (date_of_birth r) (hire_date r)
        (employee_id r) (preferences r) (bio r) (created_at r) v
        (updated_by r) (deleted_at r) (refreshToken r).

Definition set_updated_by (v : option Z) (r : UserRow) : UserRow :=
  mkRow (tenant_id r) (email r) (password_hash r) (first_name r) (last_name r)
        (role r) (status r) (phone r) (avatar_url r) (last_login_at r)
        (password_reset_token r) (password_reset_expires_at r) (permissions r)
        (department r) (position r) (date_of_birth r) (hire_date r)
        (employee_id r) (preferences r) (bio r) (created_at r) (updated_at r)
        v (deleted_at r) (refreshToken r).

Definition set_deleted_at (v : option Z) (r : UserRow) : UserRow :=
  mkRow (tenant_id r) (email r) (password_hash r) (first_name r) (last_name r)
        (role r) (status r) (phone r) (avatar_url r) (last_login_at r)
        (password_reset_token r) (password_reset_expires_at r) (permissions r)
        (department r) (position r) (date_of_birth r) (hire_date r)
        (employee_id r) (preferences r) (bio r) (created_at r) (updated_at r)
        (updated_by r) v (refreshToken r).

Definition set_refreshToken (v : option string) (r : UserRow) : UserRow :=
  mkRow (tenant_id r) (email r) (password_hash r) (first_name r) (last_name r)
        (role r) (status r) (phone r) (avatar_url r) (last_login_at r)
        (password_reset_token r) (password_reset_expires_at r) (permissions r)
        (department r) (position r) (date_of_birth r) (hire_date r)
        (employee_id r) (preferences r) (bio r) (created_at r) (updated_at r)
        (updated_by r) (deleted_at r) v.

(** [get is_active()]. *)
Definition is_active (r : UserRow) : bool := bool_decide (status r = ACTIVE).

(** [get full_name()]: [`${first_name} ${last_name}`]. *)
Definition full_name (r : UserRow) : string :=
  String.append (first_name r) (String " "%char (last_name r)).

(** An entity object in memory: a JavaScript object of class [User], each of
    whose properties is set or [undefined] ([None]); a property of a nullable
    column that is set holds a value or [null].  [repository.create(literal)]
    and [Object.assign(user, literal)] produce such objects, and
    [repository.save] writes the properties that are set.  The relation
    [tenant] ([@ManyToOne], [@JoinColumn tenant_id]) is a property of its own:
    a number put in it does not reach the column [tenant_id], which has its
    own property. *)
Record Partial : Type := mkPartial {
  obj_id : option Z;
  obj_tenant_id : option Z;
  obj_email : option string;
  obj_password_hash : option string;
  obj_first_name : option string;
  obj_last_name : option string;
  obj_role : option UserRole;
  obj_status : option UserStatus;
  obj_phone : option (option string);
  obj_avatar_url : option (option string);
  obj_last_login_at : option (option Z);
  obj_password_reset_token : option (option string);
  obj_password_reset_expires_at : option (option Z);
  obj_permissions : option (option (list string));
  obj_department : option (option string);
  obj_position : option (option string);
  obj_date_of_birth : option (option string);
  obj_hire_date : option (option string);
  obj_employee_id : option (option string);
  obj_preferences : option (option string);
  obj_bio : option (option string);
  obj_created_at : option Z;
  obj_updated_at : option Z;
  obj_updated_by : option (option Z);
  obj_deleted_at : option (option Z);
  obj_refreshToken : option (option string)
}.

(** The row [r] with the properties that are set in [p] written over it:
    what an [UPDATE] of the changed columns leaves. *)
Definition merge (p : Partial) (r : UserRow) : UserRow :=
  mkRow (default (tenant_id r) (obj_tenant_id p))
        (default (email r) (obj_email p))
        (default (password_hash r) (obj_password_hash p))
        (default (first_name r) (obj_first_name p))
        (default (last_name r) (obj_last_name p))
        (default (role r) (obj_role p))
        (default (status r) (obj_status p))
        (default (phone r) (obj_phone p))
        (default (avatar_url r) (obj_avatar_url p))
        (default (last_login_at r) (obj_last_login_at p))
        (default (password_reset_token r) (obj_password_reset_token p))
        (default (password_reset_expires_at r) (obj_password_reset_expires_at p))
        (default (permissions r) (obj_permissions p))
        (default (department r) (obj_department p))
        (default (position r) (obj_position p))
        (default (date_of_birth r) (obj_date_of_birth p))
        (default (hire_date r) (obj_hire_date p))
        (default (employee_id r) (obj_employee_id p))
        (default (preferences r) (obj_preferences p))
        (default (bio r) (obj_bio p))
        (default (created_at r) (obj_created_at p))
        (default (updated_at r) (obj_updated_at p))
        (default (updated_by r) (obj_updated_by p))
        (default (deleted_at r) (obj_deleted_at p))
        (default (refreshToken r) (obj_refreshToken p)).

(** The row an [INSERT] of [p] at clock [now_] makes: the columns without a
    default ([tenant_id], [email], [password_hash], [first_name],
    [last_name]) must be set, [role] and [status] have the defaults the
    entity declares, the two dates default to the clock and a nullable
    column to [NULL]. *)
Definition complete (now_ : Z) (p : Partial) : option UserRow :=
  match obj_tenant_id p, obj_email p, obj_password_hash p,
        obj_first_name p, obj_last_name p with
  | Some t, Some em, Some h, Some f, Some l =>
    Some (mkRow t em h f l
                (default EMPLOYEE (obj_role p)) (default PENDING (obj_status p))
                (default None (obj_phone p)) (default None (obj_avatar_url p))
                (default None (obj_last_login_at p))
                (default None (obj_password_reset_token p))
                (default None (obj_password_reset_expires_at p))
                (default None (obj_permissions p))
                (default None (obj_department p)) (default None (obj_position p))
                (default None (obj_date_of_birth p))
                (default None (obj_hire_date p))
                (default None (obj_employee_id p))
                (default None (obj_preferences p)) (default None (obj_bio p))
                (default now_ (obj_created_at p)) (default now_ (obj_updated_at p))
                (default None (obj_updated_by p)) (default None (obj_deleted_at p))
                (default None (obj_refreshToken p)))
  | _, _, _, _, _ => None
  end.

(* ===================================================================== *)
(** * Exceptions and the request monad *)
(* ===================================================================== *)

(** The HTTP exceptions of [@nestjs/common] the services throw; the two
    errors the JavaScript runtime raises for a name that is not bound and for
    a call of what is not a function; [Error] is any other error (a
    [QueryFailedError] of the driver, an error of a library). *)
Inductive Exception : Type :=
| UnauthorizedException (msg : string)
| ForbiddenException (msg : string)
| ConflictException (msg : string)
| BadRequestException (msg : string)
| NotFoundException (msg : string)
| ReferenceError (msg : string)
| TypeError (msg : string)
| Error (msg : string).

Inductive Result (A : Type) : Type :=
| Ok (a : A)
| Throw (e : Exception).

Arguments Ok {A} a.
Arguments Throw {A} e.

(** What a statement sent to the table touched: the rows its [WHERE] clause
    selected, or the rows it wrote. *)
Inductive Access : Type :=
| Read (u : User)
| Write (u : User).

Definition accessed (a : Access) : User :=
  match a with Read u => u | Write u => u end.

(** The persistent store: the [users] table by primary key, and the log of
    the accesses made so far (most recent first). *)
Record World : Type := mkWorld {
  db : gmap Z UserRow;
  trace : list Access
}.

(** An [async] method: it runs against the store and either returns or
    throws; what it wrote before throwing stays written. *)
Definition M (A : Type) : Type := World -> Result A * World.

Definition ret {A} (a : A) : M A := fun w => (Ok a, w).

Definition throw {A} (e : Exception) : M A := fun w => (Throw e, w).

Definition bind {A B} (m : M A) (f : A -> M B) : M B :=
  fun w =>
    match m w with
    | (Ok a, w') => f a w'
    | (Throw e, w') => (Throw e, w')
    end.

(** [try { m } catch (error) { h error }]. *)
Definition try_catch {A} (m : M A) (h : Exception -> M A) : M A :=
  fun w =>
    match m w with
    | (Ok a, w') => (Ok a, w')
    | (Throw e, w') => h e w'
    end.

Declare Scope req_scope.
Delimit Scope req_scope with req.
Notation "x <- m ;; k" := (bind m (fun x => k))
  (at level 100, m at next level, right associativity) : req_scope.
Notation "m ;;; k" := (bind m (fun _ => k))
  (at level 100, right associativity) : req_scope.
Local Open Scope req_scope.

Definition get_db : M (gmap Z UserRow) := fun w => (Ok (db w), w).

Definition put_db (m : gmap Z UserRow) : M unit :=
  fun w => (Ok tt, mkWorld m (trace w)).

Definition log (l : list Access) : M unit :=
  fun w => (Ok tt, mkWorld (db w) (l ++ trace w)).

(* ===================================================================== *)
(** * External libraries *)
(* ===================================================================== *)

(** bcrypt ([bcryptjs] in the entity, [bcrypt] in [AuthService]).
    [bcrypt_hash data rounds salt] is [bcrypt.hash(data, rounds)] with the
    salt it draws made explicit; [bcrypt_compare data encrypted] is
    [bcrypt.compare].  A digest has 60 characters, and comparing against
    anything else answers false. *)
Class BcryptLib : Type := {
  bcrypt_hash : string -> Z -> string -> string;
  bcrypt_compare : string -> string -> bool;
  bcrypt_compare_hash :
    forall data rounds salt,
      bcrypt_compare data (bcrypt_hash data rounds salt) = true;
  bcrypt_compare_malformed :
    forall data encrypted,
      String.length encrypted <> 60%nat -> bcrypt_compare data encrypted = false
}.

(** The digests of the library start with the version tag the entity's hook
    looks for. *)
Definition emits_2a (B : BcryptLib) : Prop :=
  forall data rounds salt,
    Js.startsWith (bcrypt_hash data rounds salt) "$2a$" = true.

(** [compare] reads cost and salt off the digest, hashes the data with them
    and compares the two digests: it accepts the data exactly when hashing
    them again gives the digest. *)
Definition compares_by_rehash (B : BcryptLib) : Prop :=
  forall data d rounds salt,
    bcrypt_compare data (bcrypt_hash d rounds salt) =
    String.eqb (bcrypt_hash data rounds salt) (bcrypt_hash d rounds salt).

(** The payload [AuthService] signs, and the claims of a decoded token. *)
Record JwtPayload : Type := mkPayload {
  p_sub : Z;
  p_email : string
}.

Record JwtClaims : Type := mkClaims {
  sub : Z;
  c_email : string;
  iat : Z;
  exp : Z
}.

(** [@nestjs/jwt].  [jwt_sign payload secret expiresIn now] is
    [signAsync(payload, { secret, expiresIn })] at clock [now] ([None] when it
    rejects; the options are [undefined] when the configuration lacks them,
    and signing with a non-empty secret and a lifetime succeeds);
    [jwt_decode] reads the claims without any check and answers [null] on
    what is not a token; [jwt_verify] checks signature and expiry, and
    rejects from the second [exp + clockTolerance] on. *)
Class JwtLib : Type := {
  jwt_sign : JwtPayload -> option string -> option Z -> Z -> option string;
  jwt_decode : string -> option JwtClaims;
  jwt_verify : string -> string -> Z -> option JwtClaims;
  clockTolerance : Z;
  jwt_sign_configured :
    forall p secret ttl now,
      Js.truthy secret = true ->
      is_Some (jwt_sign p (Some secret) (Some ttl) now);
  jwt_decode_sign :
    forall p secret ttl now token,
      jwt_sign p secret (Some ttl) now = Some token ->
      jwt_decode token =
      Some (mkClaims (p_sub p) (p_email p) now (now + ttl));
  jwt_decode_empty : jwt_decode EmptyString = None;
  jwt_verify_decode :
    forall token secret now c,
      jwt_verify token secret now = Some c -> jwt_decode token = Some c;
  jwt_verify_expired :
    forall token secret now c,
      jwt_decode token = Some c ->
      exp c + clockTolerance <= now ->
      jwt_verify token secret now = None
}.

(** The keys [AuthService] reads from [ConfigService]; each may be absent
    (config/validation.ts makes [JWT_SECRET] optional and does not mention
    the two lifetimes).  Lifetimes are in seconds. *)
Record Config : Type := mkConfig {
  JWT_SECRET : option string;
  JWT_ACCESS_TOKEN_EXPIRATION : option Z;
  JWT_REFRESH_TOKEN_EXPIRATION : option Z
}.

(** What a request brings besides its body: the clock, and the salts the
    two bcrypt calls draw. *)
Record Env : Type := mkEnv {
  now : Z;
  pw_salt : string;
  rt_salt : string
}.

(** The request object injected into [UsersService]. *)
Record RequestUser : Type := mkRequestUser {
  uid : Z;
  urole : option string
}.

Record Request : Type := mkRequest {
  tenantId : Z;
  user : option RequestUser
}.

(* ===================================================================== *)
(** * Entity hooks (user.entity.ts) *)
(* ===================================================================== *)

(** [@BeforeInsert() @BeforeUpdate() async hashPassword()]:
    [if (this.password_hash && !this.password_hash.startsWith('$2a$'))
       this.password_hash = await bcrypt.hash(this.password_hash, 12)]. *)
Definition hashPassword {bcryptjs : BcryptLib} (salt : string) (r : UserRow) : UserRow :=
  if Js.truthy (password_hash r)
     && negb (Js.startsWith (password_hash r) "$2a$")
  then set_password_hash (bcrypt_hash (password_hash r) 12 salt) r
  else r.

(** [async validatePassword(password)]:
    [bcrypt.compare(password, this.password_hash)]. *)
Definition validatePassword {bcryptjs : BcryptLib} (r : UserRow) (password : string) : bool :=
  bcrypt_compare password (password_hash r).

(* ===================================================================== *)
(** * The repository (TypeORM over the [users] table) *)
(* ===================================================================== *)

(** The rows of the table as entities. *)
Definition entities (m : gmap Z UserRow) : list User :=
  (fun kr => mkUser (fst kr) (snd kr)) <$> map_to_list m.

(** The conditions the service puts in a [WHERE] clause. *)
Inductive Cond : Type :=
| TenantIs (t : Z)              (* user.tenant_id = :tenantId *)
| EmailIs (e : string)          (* user.email = :email *)
| IdIs (i : Z)                  (* user.id = :id *)
| Search (pattern : string)     (* first_name, last_name, email or employee_id ILIKE :search *)
| RoleIs (r : UserRole)         (* user.role = :role *)
| StatusIs (s : UserStatus)     (* user.status = :status *)
| DepartmentLike (pattern : string). (* user.department ILIKE :department *)

Definition eval_cond (c : Cond) (u : User) : bool :=
  match c with
  | TenantIs t => tenant_id u =? t
  | EmailIs e => String.eqb (email u) e
  | IdIs i => id u =? i
  | Search p =>
    Sql.ilike (Some (first_name u)) p || Sql.ilike (Some (last_name u)) p
    || Sql.ilike (Some (email u)) p || Sql.ilike (employee_id u) p
  | RoleIs r => bool_decide (role u = r)
  | StatusIs s => bool_decide (status u = s)
  | DepartmentLike p => Sql.ilike (department u) p
  end.

Inductive SortField : Type :=
| by_first_name | by_last_name | by_email | by_created_at | by_last_login_at.

Inductive SortOrder : Type := ASC | DESC.

Definition row_le (f : SortField) (u v : User) : bool :=
  match f with
  | by_first_name => String.leb (first_name u) (first_name v)
  | by_last_name => String.leb (last_name u) (last_name v)
  | by_email => String.leb (email u) (email v)
  | by_created_at => created_at u <=? created_at v
  | by_last_login_at =>
    Sql.le_nulls_last Z.leb (last_login_at u) (last_login_at v)
  end.

Definition sort_rows (o : option (SortField * option SortOrder))
    (l : list User) : list User :=
  match o with
  | None => l
  | Some (f, Some DESC) => Sql.order_by (fun u v => row_le f v u) l
  | Some (f, _) => Sql.order_by (row_le f) l
  end.

Module Qb.

Record SelectQueryBuilder : Type := mkQuery {
  q_where : list Cond;
  q_order : option (SortField * option SortOrder);
  q_skip : option Z;
  q_take : option Z
}.

Definition createQueryBuilder : SelectQueryBuilder := mkQuery [] None None None.

Definition where_ (c : Cond) (q : SelectQueryBuilder) : SelectQueryBuilder :=
  mkQuery [c] (q_order q) (q_skip q) (q_take q).

Definition andWhere (c : Cond) (q : SelectQueryBuilder) : SelectQueryBuilder :=
  mkQuery (q_where q ++ [c]) (q_order q) (q_skip q) (q_take q).

Definition orderBy (f : SortField) (o : option SortOrder)
    (q : SelectQueryBuilder) : SelectQueryBuilder :=
  mkQuery (q_where q) (Some (f, o)) (q_skip q) (q_take q).

Definition skip (n : Z) (q : SelectQueryBuilder) : SelectQueryBuilder :=
  mkQuery (q_where q) (q_order q) (Some n) (q_take q).

Definition take (n : Z) (q : SelectQueryBuilder) : SelectQueryBuilder :=
  mkQuery (q_where q) (q_order q) (q_skip q) (Some n).

(** A row satisfies the clause; soft-deleted rows are never selected. *)
Definition matches (cs : list Cond) (u : User) : bool :=
  forallb (fun c => eval_cond c u) cs && negb (bool_decide (is_Some (deleted_at u))).

Definition selected (cs : list Cond) (m : gmap Z UserRow) : list User :=
  filter (fun u => matches cs u = true) (entities m).

(** [skip] and [take], for the numbers the validators of [UserQueryDto]
    admit ([page] and [limit] of at least 1, so an offset of at least 0).
    Outside them the database behaves otherwise: PostgreSQL refuses a
    negative OFFSET or LIMIT and TypeORM emits no LIMIT for a [take] of 0,
    where this definition gives the page of a 0. *)
Definition paginate (q : SelectQueryBuilder) (l : list User) : list User :=
  let l1 := match q_skip q with
            | Some n => skipn (Z.to_nat n) l
            | None => l
            end in
  match q_take q with
  | Some n => firstn (Z.to_nat n) l1
  | None => l1
  end.

Definition getOne (q : SelectQueryBuilder) : M (option User) :=
  (m <- get_db ;;
   let rows := selected (q_where q) m in
   log (Read <$> rows) ;;;
   ret (head (sort_rows (q_order q) rows)))%req.

Definition getCount (q : SelectQueryBuilder) : M Z :=
  (m <- get_db ;;
   let rows := selected (q_where q) m in
   log (Read <$> rows) ;;;
   ret (Z.of_nat (length rows)))%req.

Definition getMany (q : SelectQueryBuilder) : M (list User) :=
  (m <- get_db ;;
   let rows := selected (q_where q) m in
   log (Read <$> rows) ;;;
   ret (paginate q (sort_rows (q_order q) rows)))%req.

End Qb.

Module Repository.

(** The next value of the key sequence. *)
Definition next_id (m : gmap Z UserRow) : Z :=
  1 + foldr Z.max 0 (fst <$> map_to_list m).

(** [@Index(['tenant_id', 'email'], { unique: true })]: would writing [r]
    under key [k] clash with another row? *)
Definition violates_unique (m : gmap Z UserRow) (k : Z) (r : UserRow) : bool :=
  existsb (fun u => negb (id u =? k) && (tenant_id u =? tenant_id r)
                    && String.eqb (email u) (email r))
          (entities m).

Definition duplicate_key : Exception :=
  Error "QueryFailedError: duplicate key value violates unique constraint".

Definition not_null : Exception :=
  Error "QueryFailedError: null value in column violates not-null constraint".

(** The row stored under the key of the object, when the object has a key
    and the table a row under it (soft-deleted rows included). *)
Definition row_of (p : Partial) (m : gmap Z UserRow) : option (Z * UserRow) :=
  match obj_id p with
  | Some k => pair k <$> m !! k
  | None => None
  end.

(** [repository.save(object)].  When the object has the key of a stored
    row, the properties that are set and differ from the row are written
    over it with one [UPDATE], after the [@BeforeUpdate] hook, which also
    sets the update date unless the object changes it; nothing is written
    when none differs.  Otherwise the object is inserted, after the
    [@BeforeInsert] hook, under its own key or the next one of the sequence.
    The saved row is returned. *)
Definition persist {bcryptjs : BcryptLib} (e : Env) (p : Partial) : M User :=
  (m <- get_db ;;
   match row_of p m with
   | Some (k, r) =>
     if bool_decide (merge p r = r) then ret (mkUser k r)
     else
       let hooked := match obj_password_hash p with
                     | Some _ => hashPassword (pw_salt e) (merge p r)
                     | None => merge p r
                     end in
       let r' := if updated_at hooked =? updated_at r
                 then set_updated_at (now e) hooked else hooked in
       if violates_unique m k r' then throw duplicate_key
       else
         put_db (<[k := r']> m) ;;;
         log [Write (mkUser k r')] ;;;
         ret (mkUser k r')
   | None =>
     match complete (now e) p with
     | None => throw not_null
     | Some draft =>
       let r := hashPassword (pw_salt e) draft in
       let k := default (next_id m) (obj_id p) in
       if violates_unique m k r then throw duplicate_key
       else
         put_db (<[k := r]> m) ;;;
         log [Write (mkUser k r)] ;;;
         ret (mkUser k r)
     end
   end)%req.

(** [repository.save(entity)] of an entity loaded from the table, all of
    whose properties are set: nothing is written when the entity equals its
    row; otherwise the hook runs and the row is replaced. *)
Definition save {bcryptjs : BcryptLib} (e : Env) (u : User) : M User :=
  (m <- get_db ;;
   if bool_decide (m !! id u = Some (cols u)) then ret u
   else
     let r := set_updated_at (now e) (hashPassword (pw_salt e) u) in
     if violates_unique m (id u) r then throw duplicate_key
     else
       put_db (<[id u := r]> m) ;;;
       log [Write (mkUser (id u) r)] ;;;
       ret (mkUser (id u) r))%req.

(** [repository.softDelete(id)]: one [UPDATE] that sets the deletion date
    and, like every update, the update date. *)
Definition softDelete (e : Env) (k : Z) : M unit :=
  (m <- get_db ;;
   match m !! k with
   | None => ret tt
   | Some r =>
     let r' := set_updated_at (now e) (set_deleted_at (Some (now e)) r) in
     put_db (<[k := r']> m) ;;;
     log [Write (mkUser k r')]
   end)%req.

(** The [id] part of a criteria object: a value, the operator [In(ids)], or
    the object literal [{ $in: ids }], which is not an operator of the
    query language and makes the statement fail. *)
Inductive IdCriterion : Type :=
| IdEquals (k : Z)
| IdIn (ids : list Z)
| IdObjectLiteral (ids : list Z).

(** The tenant part of a criteria object: a value for the column
    [tenant_id], or a number for the relation [tenant].  A relation is
    compared through the key of the object it is given; a number has none,
    so the statement compares [tenant_id] with [NULL] and selects no row. *)
Inductive TenantCriterion : Type :=
| TenantColumn (t : Z)
| TenantRelation (t : Z).

Record Criteria : Type := mkCriteria {
  w_id : IdCriterion;
  w_tenant : TenantCriterion
}.

Definition tenant_selected (c : TenantCriterion) (r : UserRow) : bool :=
  match c with
  | TenantColumn t => tenant_id r =? t
  | TenantRelation _ => false
  end.

Definition id_selected (c : IdCriterion) (k : Z) : bool :=
  match c with
  | IdEquals i => k =? i
  | IdIn ids => bool_decide (k ∈ ids)
  | IdObjectLiteral _ => false
  end.

Definition criteria_selects (c : Criteria) (k : Z) (r : UserRow) : bool :=
  id_selected (w_id c) k && tenant_selected (w_tenant c) r.

(** The table after [UPDATE users SET ... WHERE criteria]. *)
Definition updated_rows (e : Env) (c : Criteria) (f : UserRow -> UserRow)
    (m : gmap Z UserRow) : gmap Z UserRow :=
  map_imap (fun k r => Some (if criteria_selects c k r
                             then set_updated_at (now e) (f r) else r)) m.

(** [repository.update(criteria, partialEntity)]: one [UPDATE ... WHERE];
    no entity hook runs. *)
Definition update (e : Env) (c : Criteria) (f : UserRow -> UserRow) : M unit :=
  match w_id c with
  | IdObjectLiteral _ => throw (Error "QueryFailedError: invalid criteria")
  | _ =>
    (m <- get_db ;;
     put_db (updated_rows e c f m) ;;;
     log (Write <$> filter (fun u => criteria_selects c (id u) u = true)
                      (entities (updated_rows e c f m))))%req
  end.

End Repository.

(* ===================================================================== *)
(** * Request and response shapes (users/dto) *)
(* ===================================================================== *)

Record CreateUserDto : Type := mkCreateUserDto {
  dto_email : string;
  dto_password : string;
  dto_first_name : string;
  dto_last_name : string;
  dto_role : option UserRole;
  dto_status : option UserStatus;
  dto_phone : option string;
  dto_avatar_url : option string;
  dto_permissions : option (list string);
  dto_department : option string;
  dto_position : option string;
  dto_date_of_birth : option string;
  dto_hire_date : option string;
  dto_employee_id : option string;
  dto_bio : option string
}.

(** The properties of a request body that its DTO class does not declare
    and the entity has.  The validation pipe runs without a whitelist, so
    they reach the service with the declared ones, and the services spread
    the whole body into the entity ([...userData], [{ ...updateUserDto }]).
    [None] is a property the body does not have; a property of a nullable
    column may be posted as [null]. *)
Record Undeclared : Type := mkUndeclared {
  und_id : option Z;
  und_tenant_id : option Z;
  und_password_hash : option string;
  und_last_login_at : option (option Z);
  und_password_reset_token : option (option string);
  und_password_reset_expires_at : option (option Z);
  und_preferences : option (option string);
  und_created_at : option Z;
  und_updated_at : option Z;
  und_updated_by : option (option Z);
  und_deleted_at : option (option Z);
  und_refreshToken : option (option string)
}.

(** A body with the declared properties only. *)
Definition no_undeclared : Undeclared :=
  mkUndeclared None None None None None None None None None None None None.

(** A posted body: the instance of the DTO class with the properties the
    class does not declare. *)
Record Posted (D : Type) : Type := mkPosted {
  declared : D;
  undeclared : Undeclared
}.

Arguments mkPosted {D} _ _.
Arguments declared {D} _.
Arguments undeclared {D} _.

(** The part of a string a [.] of the pattern can run over: up to the first
    line terminator. *)
Fixpoint first_line (s : string) : string :=
  match s with
  | EmptyString => EmptyString
  | String c s' =>
    if (Ascii.N_of_ascii c =? 10)%N || (Ascii.N_of_ascii c =? 13)%N
    then EmptyString else String c (first_line s')
  end.

(** The validators of [CreateUserDto.password]: [@MinLength(8)] and
    [@Matches(/^(?=.*[a-z])(?=.*[A-Z])(?=.*\d)(?=.*[@$!%*?&])[A-Za-z\d@$!%*?&]/)],
    on ASCII strings, where the bytes [String.length] counts are the
    characters [@MinLength] counts. *)
Definition valid_password (s : string) : bool :=
  (8 <=? String.length s)%nat
  && Js.some_char Js.is_lower (first_line s)
  && Js.some_char Js.is_upper (first_line s)
  && Js.some_char Js.is_digit (first_line s)
  && Js.some_char Js.is_special (first_line s)
  && match s with
     | EmptyString => false
     | String c _ =>
       Js.is_lower c || Js.is_upper c || Js.is_digit c || Js.is_special c
     end.

(** [UpdateUserDto] and [UpdateProfileDto] are not among the sources; they
    are taken to declare the column fields of [CreateUserDto], each
    optional.  [upd_undeclared] holds the other properties of the posted
    body. *)
Record UpdateUserDto : Type := mkUpdateUserDto {
  upd_undeclared : Undeclared;
  upd_email : option string;
  upd_first_name : option string;
  upd_last_name : option string;
  upd_role : option UserRole;
  upd_status : option UserStatus;
  upd_phone : option string;
  upd_avatar_url : option string;
  upd_permissions : option (list string);
  upd_department : option string;
  upd_position : option string;
  upd_date_of_birth : option string;
  upd_hire_date : option string;
  upd_employee_id : option string;
  upd_bio : option string
}.

(** [ChangePasswordDto], as [changePassword] destructures it. *)
Record ChangePasswordDto : Type := mkChangePasswordDto {
  current_password : string;
  new_password : string
}.

Record UserQueryDto : Type := mkUserQueryDto {
  page : option Z;
  limit : option Z;
  search : option string;
  qry_role : option UserRole;
  qry_status : option UserStatus;
  qry_department : option string;
  sort_by : option string;
  sort_order : option SortOrder
}.

(** The object literal [findAll] builds for each user. *)
Record UserListItem : Type := mkUserListItem {
  item_id : Z;
  item_first_name : string;
  item_last_name : string;
  item_email : string;
  item_role : UserRole;
  item_status : UserStatus;
  item_department : option string;
  item_employee_id : option string;
  item_created_at : Z;
  item_updated_at : Z;
  item_last_login_at : option Z;
  item_full_name : string;
  item_is_active : bool;
  item_password_hash : string;
  item_password_reset_token : option string;
  item_password_reset_expires_at : option Z
}.

Record PaginatedUsersResponseDto : Type := mkPaginated {
  data : list UserListItem;
  total : Z;
  res_page : Z;
  res_limit : Z;
  total_pages : Js.number;
  has_next : bool;
  has_prev : bool
}.

(* ===================================================================== *)
(** * UsersService (users/users.service.ts) *)
(* ===================================================================== *)

Module UsersService.

Section Service.

Context {bcryptjs : BcryptLib}.
Variable request : Request.
Variable e : Env.

Definition getTenantId : Z := tenantId request.

Definition getCurrentUserId : option Z := uid <$> user request.

Definition getBaseQuery : Qb.SelectQueryBuilder :=
  Qb.where_ (TenantIs getTenantId) Qb.createQueryBuilder.

(** [userRepository.create({ ...userData, email: email.toLowerCase(),
    password_hash: password, tenant: this.getTenantId() })].  [userData] is
    the body without [email] and [password]: the declared properties, of
    which the class initialises [role] and [status], and the undeclared
    ones.  The tenant of the request goes to the relation [tenant]; the
    column [tenant_id] is set only by a body that names it. *)
Definition new_user (body : Posted CreateUserDto) : Partial :=
  let dto := declared body in
  let o := undeclared body in
  mkPartial (und_id o) (und_tenant_id o)
            (Some (Js.toLowerCase (dto_email dto)))
            (Some (dto_password dto))
            (Some (dto_first_name dto)) (Some (dto_last_name dto))
            (Some (default EMPLOYEE (dto_role dto)))
            (Some (default PENDING (dto_status dto)))
            (Some <$> dto_phone dto) (Some <$> dto_avatar_url dto)
            (und_last_login_at o) (und_password_reset_token o)
            (und_password_reset_expires_at o)
            (Some <$> dto_permissions dto) (Some <$> dto_department dto)
            (Some <$> dto_position dto) (Some <$> dto_date_of_birth dto)
            (Some <$> dto_hire_date dto) (Some <$> dto_employee_id dto)
            (und_preferences o) (Some <$> dto_bio dto)
            (und_created_at o) (und_updated_at o) (und_updated_by o)
            (und_deleted_at o) (und_refreshToken o).

Definition create (createUserDto : Posted CreateUserDto) : M User :=
  (existingUser <- Qb.getOne
                     (Qb.andWhere
                        (EmailIs (Js.toLowerCase (dto_email (declared createUserDto))))
                        getBaseQuery) ;;
   match existingUser with
   | Some _ => throw (ConflictException "User with this email already exists")
   | None => Repository.persist e (new_user createUserDto)
   end)%req.

Definition sort_field_of (s : string) : option SortField :=
  if String.eqb s "first_name" then Some by_first_name
  else if String.eqb s "last_name" then Some by_last_name
  else if String.eqb s "email" then Some by_email
  else if String.eqb s "created_at" then Some by_created_at
  else if String.eqb s "last_login_at" then Some by_last_login_at
  else None.

Definition to_list_item (u : User) : UserListItem :=
  mkUserListItem (id u) (first_name u) (last_name u) (email u) (role u)
                 (status u) (department u) (employee_id u) (created_at u)
                 (updated_at u) (last_login_at u) (full_name u) (is_active u)
                 (password_hash u) (password_reset_token u)
                 (password_reset_expires_at u).

(** Add a condition when the optional filter is present and truthy. *)
Definition and_if {A} (x : option A) (truthy : A -> bool) (c : A -> Cond)
    (q : Qb.SelectQueryBuilder) : Qb.SelectQueryBuilder :=
  match x with
  | Some v => if truthy v then Qb.andWhere (c v) q else q
  | None => q
  end.

Definition findAll (queryDto : UserQueryDto) : M PaginatedUsersResponseDto :=
  let page_ := default 1 (page queryDto) in
  let limit_ := default 10 (limit queryDto) in
  let offset := (page_ - 1) * limit_ in
  let query := getBaseQuery in
  let query := and_if (search queryDto) Js.truthy
                      (fun s => Search (Sql.contains_pattern s)) query in
  let query := and_if (qry_role queryDto) (fun _ => true) RoleIs query in
  let query := and_if (qry_status queryDto) (fun _ => true) StatusIs query in
  let query := and_if (qry_department queryDto) Js.truthy
                      (fun d => DepartmentLike (Sql.contains_pattern d)) query in
  let sortField :=
    match sort_by queryDto with
    | Some s => default by_created_at (sort_field_of s)
    | None => by_created_at
    end in
  let query := Qb.orderBy sortField (sort_order queryDto) query in
  (total_ <- Qb.getCount query ;;
   users <- Qb.getMany (Qb.take limit_ (Qb.skip offset query)) ;;
   let userDtos := to_list_item <$> users in
   let total_pages_ := Js.ceil_div total_ limit_ in
   ret (mkPaginated userDtos total_ page_ limit_ total_pages_
                    (Js.lt_number page_ total_pages_) (1 <? page_)))%req.

Definition findOne (k : Z) : M User :=
  (found <- Qb.getOne (Qb.andWhere (IdIs k) getBaseQuery) ;;
   match found with
   | None => throw (NotFoundException "User not found")
   | Some u => ret u
   end)%req.

Definition findByEmail (email_ : string) : M (option User) :=
  Qb.getOne (Qb.andWhere (EmailIs (Js.toLowerCase email_)) getBaseQuery).

Definition or_else {A} (x y : option A) : option A :=
  match x with Some _ => x | None => y end.

(** [Object.assign(user, { ...updateUserDto,
                          email: updateUserDto.email?.toLowerCase(),
                          updated_by: this.getCurrentUserId() })]:
    every property of the body, declared or not, is written over the loaded
    entity, its key, tenant and password digest included; [email] and
    [updated_by] are always written, with [undefined] when the body has no
    email or the request no user. *)
Definition assign (u : User) (dto : UpdateUserDto) : Partial :=
  let o := upd_undeclared dto in
  mkPartial (Some (default (id u) (und_id o)))
            (Some (default (tenant_id u) (und_tenant_id o)))
            (Js.toLowerCase <$> upd_email dto)
            (Some (default (password_hash u) (und_password_hash o)))
            (Some (default (first_name u) (upd_first_name dto)))
            (Some (default (last_name u) (upd_last_name dto)))
            (Some (default (role u) (upd_role dto)))
            (Some (default (status u) (upd_status dto)))
            (Some (or_else (upd_phone dto) (phone u)))
            (Some (or_else (upd_avatar_url dto) (avatar_url u)))
            (Some (default (last_login_at u) (und_last_login_at o)))
            (Some (default (password_reset_token u) (und_password_reset_token o)))
            (Some (default (password_reset_expires_at u)
                           (und_password_reset_expires_at o)))
            (Some (or_else (upd_permissions dto) (permissions u)))
            (Some (or_else (upd_department dto) (department u)))
            (Some (or_else (upd_position dto) (position u)))
            (Some (or_else (upd_date_of_birth dto) (date_of_birth u)))
            (Some (or_else (upd_hire_date dto) (hire_date u)))
            (Some (or_else (upd_employee_id dto) (employee_id u)))
            (Some (default (preferences u) (und_preferences o)))
            (Some (or_else (upd_bio dto) (bio u)))
            (Some (default (created_at u) (und_created_at o)))
            (Some (default (updated_at u) (und_updated_at o)))
            (Some <$> getCurrentUserId)
            (Some (default (deleted_at u) (und_deleted_at o)))
            (Some (default (refreshToken u) (und_refreshToken o))).

(** What [update] returns: the object it assigned to, after [save] gave it
    the columns of the stored row.  [save] leaves a property that is
    [undefined] as it is, so the returned [email] and [updated_by] are the
    assigned ones, not those of the row. *)
Record UpdatedUser : Type := mkUpdatedUser {
  saved : User;
  returned_email : option string;
  returned_updated_by : option Z
}.

(** [updateUserDto.email && updateUserDto.email !== user.email]. *)
Definition email_changes (dto : UpdateUserDto) (u : User) : option string :=
  match upd_email dto with
  | Some m => if Js.truthy m && negb (String.eqb m (email u)) then Some m else None
  | None => None
  end.

Definition update (k : Z) (dto : UpdateUserDto) : M UpdatedUser :=
  (u <- findOne k ;;
   match email_changes dto u with
   | Some m =>
     existingUser <- findByEmail m ;;
     match existingUser with
     | Some _ => throw (ConflictException "User with this email already exists")
     | None => ret tt
     end
   | None => ret tt
   end ;;;
   stored <- Repository.persist e (assign u dto) ;;
   ret (mkUpdatedUser stored (Js.toLowerCase <$> upd_email dto)
                      getCurrentUserId))%req.

Definition isAdmin : bool :=
  let userRole := default EmptyString (user request ≫= urole) in
  String.eqb userRole "super_admin" || String.eqb userRole "admin".

Definition updateProfile (k : Z) (dto : UpdateUserDto) : M UpdatedUser :=
  if negb (bool_decide (Some k = getCurrentUserId)) && negb isAdmin
  then throw (ForbiddenException "You can only update your own profile")
  else update k dto.

Definition changePassword (k : Z) (dto : ChangePasswordDto) : M unit :=
  if negb (bool_decide (Some k = getCurrentUserId))
  then throw (ForbiddenException "You can only change your own password")
  else
    (u <- findOne k ;;
     if negb (validatePassword u (current_password dto))
     then throw (BadRequestException "Current password is incorrect")
     else
       Repository.save e (mkUser (id u)
                      (set_updated_by getCurrentUserId
                         (set_password_hash (new_password dto) u))) ;;;
       ret tt)%req.

Definition remove (k : Z) : M unit :=
  (u <- findOne k ;;
   if bool_decide (Some k = getCurrentUserId)
   then throw (BadRequestException "You cannot delete your own account")
   else Repository.softDelete e k)%req.

Definition activate (k : Z) : M User :=
  (u <- findOne k ;;
   Repository.save e (mkUser (id u)
                  (set_updated_by (Some (default 0 getCurrentUserId))
                     (set_status ACTIVE u))))%req.

Definition deactivate (k : Z) : M User :=
  (u <- findOne k ;;
   if bool_decide (Some k = getCurrentUserId)
   then throw (BadRequestException "You cannot deactivate your own account")
   else
     Repository.save e (mkUser (id u)
                    (set_updated_by (Some (default 0 getCurrentUserId))
                       (set_status INACTIVE u))))%req.

(** [update({ id, tenant: this.getTenantId() }, { last_login_at })]: the
    criteria name the relation. *)
Definition updateLastLogin (k : Z) : M unit :=
  Repository.update e
    (Repository.mkCriteria (Repository.IdEquals k)
                           (Repository.TenantRelation getTenantId))
    (set_last_login_at (Some (now e))).

(** The partial entity of the bulk operations:
    [{ status, updated_by: currentUserId, updated_at }]. *)
Definition bulk_change (s : UserStatus) (r : UserRow) : UserRow :=
  set_updated_at (now e)
    (set_updated_by (or_else getCurrentUserId (updated_by r)) (set_status s r)).

Definition bulkActivate (ids : list Z) : M unit :=
  Repository.update e
    (Repository.mkCriteria (Repository.IdIn ids)
                           (Repository.TenantRelation getTenantId))
    (bulk_change ACTIVE).

Definition bulkDeactivate (ids : list Z) : M unit :=
  let filteredIds :=
    List.filter (fun k => negb (bool_decide (Some k = getCurrentUserId))) ids in
  if (0 <? length filteredIds)%nat
  then Repository.update e
         (Repository.mkCriteria (Repository.IdObjectLiteral filteredIds)
                                (Repository.TenantRelation getTenantId))
         (bulk_change INACTIVE)
  else ret tt.

(** Modelled from the spec: [UsersService.findById], which [AuthService]
    calls and the sources do not contain ("read Principal by (tenant_id,
    id)"); unlike [findOne] it answers [null] for a missing principal. *)
Definition findById (k : Z) : M (option User) :=
  Qb.getOne (Qb.andWhere (IdIs k) getBaseQuery).

(** Modelled from the spec: [UsersService.updateRefreshToken], which
    [AuthService] calls and the sources do not contain (Refresh Store:
    "overwrites the stored record for principalId"; [clear] "removes the
    record"). *)
Definition updateRefreshToken (k : Z) (hashed : option string) : M unit :=
  Repository.update e
    (Repository.mkCriteria (Repository.IdEquals k)
                           (Repository.TenantColumn getTenantId))
    (set_refreshToken hashed).

End Service.

End UsersService.

(* ===================================================================== *)
(** * AuthService (auth/auth.service.ts) *)
(* ===================================================================== *)

Module AuthTokens.

(** [interface AuthTokens { accessToken: string; refreshToken: string }]. *)
Record t : Type := mk {
  accessToken : string;
  refreshToken : string
}.

End AuthTokens.

Module AuthService.

Section Service.

(** [bcryptjs] is the library of the entity and of [UsersService]; [bcrypt]
    is the one [AuthService] imports for the refresh-token fingerprint. *)
Variable bcryptjs : BcryptLib.
Variable bcrypt : BcryptLib.
Variable jwt : JwtLib.
Variable config : Config.
Variable request : Request.
Variable e : Env.

(** [UsersService.validatePassword(password, hash)], which [validateUser]
    calls: the service among the sources has no method of that name, so the
    call is a parameter of [validateUser]. *)
Variable usersService_validatePassword : string -> option string -> M bool.



(** [generateTokens(userId, email)]: both tokens are signed over the same
    payload with the same secret and differ in their lifetime; the method
    rejects when either signature does. *)
Definition generateTokens (userId : Z) (email_ : string) : M AuthTokens.t :=
  let payload := mkPayload userId email_ in
  match @jwt_sign jwt payload (JWT_SECRET config)
                  (JWT_ACCESS_TOKEN_EXPIRATION config) (now e),
        @jwt_sign jwt payload (JWT_SECRET config)
                  (JWT_REFRESH_TOKEN_EXPIRATION config) (now e) with
  | Some accessToken, Some refreshToken =>
    ret (AuthTokens.mk accessToken refreshToken)
  | _, _ => throw (Error "jwt sign failed")
  end.

(** [updateRefreshToken(userId, refreshToken)]:
    [refreshToken ? await bcrypt.hash(refreshToken, 10) : null]. *)
Definition updateRefreshToken (userId : Z) (refreshToken_ : string) : M unit :=
  let hashedRefreshToken :=
    if Js.truthy refreshToken_
    then Some (@bcrypt_hash bcrypt refreshToken_ 10 (rt_salt e))
    else None in
  @UsersService.updateRefreshToken request e userId hashedRefreshToken.

(** [register(registerDto)]; [RegisterDto] is not among the sources and is
    taken to be the declared properties of [CreateUserDto], with no others. *)
Definition register (registerDto : CreateUserDto) : M AuthTokens.t :=
  try_catch
    (u <- @UsersService.create bcryptjs request e
            (mkPosted registerDto no_undeclared) ;;
     tokens <- generateTokens (id u) (email u) ;;
     updateRefreshToken (id u) (AuthTokens.refreshToken tokens) ;;;
     ret tokens)%req
    (fun error =>
       match error with
       | ConflictException _ => throw error
       | _ => throw (ConflictException "Registration failed")
       end).

Definition login (u : User) : M AuthTokens.t :=
  (tokens <- generateTokens (id u) (email u) ;;
   updateRefreshToken (id u) (AuthTokens.refreshToken tokens) ;;;
   ret tokens)%req.

(** [!user || !user.refreshToken]: the stored fingerprint, when there is a
    user and the column is neither [null] nor empty. *)
Definition stored_fingerprint (found : option User) : option (User * string) :=
  match found with
  | Some u =>
    match refreshToken u with
    | Some h => if Js.truthy h then Some (u, h) else None
    | None => None
    end
  | None => None
  end.

Definition refreshTokens (userId : Z) (refreshToken_ : string) : M AuthTokens.t :=
  (found <- @UsersService.findById request userId ;;
   match stored_fingerprint found with
   | None => throw (UnauthorizedException "Access Denied")
   | Some (u, h) =>
     if negb (@bcrypt_compare bcrypt refreshToken_ h)
     then throw (UnauthorizedException "Access Denied")
     else
       tokens <- generateTokens (id u) (email u) ;;
       updateRefreshToken (id u) (AuthTokens.refreshToken tokens) ;;;
       ret tokens
   end)%req.

Definition logout (userId : Z) : M unit :=
  @UsersService.updateRefreshToken request e userId None.

End Service.

End AuthService.

(* ===================================================================== *)
(** * AuthController (auth/auth.controller.ts) *)
(* ===================================================================== *)

Module AuthController.

Section Controller.

Variable bcryptjs : BcryptLib.
Variable bcrypt : BcryptLib.
Variable jwt : JwtLib.
Variable config : Config.
Variable request : Request.
Variable e : Env.

(** [{ message, ...tokens }]. *)
Record TokensResponse : Type := mkTokensResponse {
  message : string;
  tokens : AuthTokens.t
}.

(** The body of a successful login, [{ message, user: { id, email, .. },
    ...tokens }]. *)
Record LoginResponse : Type := mkLoginResponse {
  login_message : string;
  login_user_id : Z;
  login_user_email : string;
  login_tokens : AuthTokens.t
}.

Definition register (registerDto : CreateUserDto) : M TokensResponse :=
  (tokens_ <- AuthService.register bcryptjs bcrypt jwt config request e registerDto ;;
   ret (mkTokensResponse "User registered successfully" tokens_))%req.

(** [@UseGuards(LocalAuthGuard) @Post('login')]: the handler reads only
    [req.user], the user the guard (not among the sources) has put on the
    request, and never the posted [loginDto]. *)
Definition login (req_user : User) : M LoginResponse :=
  (tokens_ <- AuthService.login bcrypt jwt config request e req_user ;;
   ret (mkLoginResponse "Login successful" (id req_user) (email req_user)
                        tokens_))%req.

(** [new UnauthorizedException('Invalid refresh token')] in a file that
    does not import [UnauthorizedException]: evaluating the name throws. *)
Definition new_UnauthorizedException (msg : string) : Exception :=
  ReferenceError "UnauthorizedException is not defined".

(** [@Post('refresh')]: [jwtService.decode] extracts the user id;
    [!decoded?.sub] rejects an undecodable token and a falsy [sub]. *)
Definition refreshTokens (refreshToken_ : string) : M TokensResponse :=
  match @jwt_decode jwt refreshToken_ with
  | Some decoded =>
    if sub decoded =? 0
    then throw (new_UnauthorizedException "Invalid refresh token")
    else
      (tokens_ <- AuthService.refreshTokens bcrypt jwt config request e
                    (sub decoded) refreshToken_ ;;
       ret (mkTokensResponse "Tokens refreshed successfully" tokens_))%req
  | None => throw (new_UnauthorizedException "Invalid refresh token")
  end.

(** [@UseGuards(JwtAuthGuard) @Post('logout')], for the authenticated
    [req.user.userId]. *)
Definition logout (userId : Z) : M string :=
  (AuthService.logout request e userId ;;;
   ret "Logout successful")%req.

End Controller.

End AuthController.

(* ===================================================================== *)
(** * Reference implementations of the libraries *)
(* ===================================================================== *)

(** Small executable stand-ins with the format and the laws of the real
    libraries (none of their cryptography); requests are evaluated on them. *)
Module Reference.

(** [s] cut or padded with dots to exactly [n] characters. *)
Fixpoint fit (n : nat) (s : string) : string :=
  match n with
  | O => EmptyString
  | S n' =>
    match s with
    | EmptyString => String "."%char (fit n' EmptyString)
    | String c s' => String c (fit n' s')
    end
  end.

(** The first [n] characters of [s] and the rest, when [s] is that long. *)
Fixpoint split_at (n : nat) (s : string) : option (string * string) :=
  match n with
  | O => Some (EmptyString, s)
  | S n' =>
    match s with
    | EmptyString => None
    | String c s' =>
      match split_at n' s' with
      | Some (h, t) => Some (String c h, t)
      | None => None
      end
    end
  end.

(** A checksum over every character, written out bit by bit; it stands for
    the hash function of the library. *)
Fixpoint checksum (acc : N) (s : string) : N :=
  match s with
  | EmptyString => acc
  | String c s' =>
    checksum ((acc * 131 + Ascii.N_of_ascii c + 1) mod 1000000007)%N s'
  end.

Fixpoint pos_word (p : positive) : string :=
  match p with
  | xH => "H"
  | xO p' => String "O" (pos_word p')
  | xI p' => String "I" (pos_word p')
  end.

Definition scramble (s : string) : string :=
  pos_word (N.succ_pos (checksum 7 s)).

Definition digit (d : Z) : ascii := Ascii.ascii_of_N (48 + Z.to_N (d mod 10)).

(** The first [n] characters of [s]. *)
Fixpoint first_bytes (n : nat) (s : string) : string :=
  match n, s with
  | S n', String c s' => String c (first_bytes n' s')
  | _, _ => EmptyString
  end.

(** The 31 characters that stand for the hash proper; like bcrypt, it reads
    the first 72 bytes of the data and nothing after them. *)
Definition tag (data : string) : string :=
  fit 31 (scramble (first_bytes 72 data)).

(** A digest in the layout of bcrypt: version, cost, 22 characters of salt
    and 31 of hash, 60 characters in all. *)
Definition ref_hash (data : string) (rounds : Z) (salt : string) : string :=
  String "$" (String "2" (String "a" (String "$"
    (String (digit (rounds / 10)) (String (digit rounds) (String "$"
       (String.append (fit 22 salt) (tag data)))))))).

Definition ref_compare (data encrypted : string) : bool :=
  match split_at 29 encrypted with
  | Some (header, t) =>
    Js.startsWith header "$2a$" && String.eqb t (tag data)
  | None => false
  end.

(** ** A token format: the claims in clear, then a keyed check word. *)

Definition enc_pos : positive -> string := pos_word.

Definition enc_Z (z : Z) : string :=
  match z with
  | Z0 => "0"
  | Zpos p => String "+" (enc_pos p)
  | Zneg p => String "-" (enc_pos p)
  end.

Definition enc_str (s : string) : string :=
  String.append (enc_Z (Z.of_nat (String.length s))) s.

Fixpoint parse_pos (s : string) : option (positive * string) :=
  match s with
  | EmptyString => None
  | String c s' =>
    if Ascii.eqb c "H" then Some (xH, s')
    else if Ascii.eqb c "O" then
      match parse_pos s' with Some (p, r) => Some (xO p, r) | None => None end
    else if Ascii.eqb c "I" then
      match parse_pos s' with Some (p, r) => Some (xI p, r) | None => None end
    else None
  end.

Definition parse_Z (s : string) : option (Z * string) :=
  match s with
  | EmptyString => None
  | String c s' =>
    if Ascii.eqb c "0" then Some (0, s')
    else if Ascii.eqb c "+" then
      match parse_pos s' with Some (p, r) => Some (Zpos p, r) | None => None end
    else if Ascii.eqb c "-" then
      match parse_pos s' with Some (p, r) => Some (Zneg p, r) | None => None end
    else None
  end.

Definition parse_str (s : string) : option (string * string) :=
  match parse_Z s with
  | Some (n, r) => split_at (Z.to_nat n) r
  | None => None
  end.

Definition enc_claims (c : JwtClaims) : string :=
  String.append (enc_Z (sub c))
    (String.append (enc_str (c_email c))
       (String.append (enc_Z (iat c)) (enc_Z (exp c)))).

Definition parse_claims (s : string) : option (JwtClaims * string) :=
  match parse_Z s with
  | Some (sub_, r1) =>
    match parse_str r1 with
    | Some (email_, r2) =>
      match parse_Z r2 with
      | Some (iat_, r3) =>
        match parse_Z r3 with
        | Some (exp_, r4) => Some (mkClaims sub_ email_ iat_ exp_, r4)
        | None => None
        end
      | None => None
      end
    | None => None
    end
  | None => None
  end.

Definition check_word (secret : string) (c : JwtClaims) : string :=
  fit 16 (scramble (String.append secret (enc_claims c))).

Definition render (secret : string) (c : JwtClaims) : string :=
  String "j" (String "w" (String "t" (String "."
    (String.append (enc_claims c) (String "." (check_word secret c)))))).

(** Signing needs a secret and a lifetime. *)
Definition ref_sign (p : JwtPayload) (secret : option string) (ttl : option Z)
    (now_ : Z) : option string :=
  match secret, ttl with
  | Some k, Some t =>
    if Js.truthy k
    then Some (render k (mkClaims (p_sub p) (p_email p) now_ (now_ + t)))
    else None
  | _, _ => None
  end.

Definition ref_decode (token : string) : option JwtClaims :=
  match token with
  | String a (String b (String c (String d rest))) =>
    if Ascii.eqb a "j" && Ascii.eqb b "w" && Ascii.eqb c "t" && Ascii.eqb d "."
    then fst <$> parse_claims rest
    else None
  | _ => None
  end.

Definition ref_verify (token secret : string) (now_ : Z) : option JwtClaims :=
  match ref_decode token with
  | Some c =>
    if String.eqb token (render secret c) && (now_ <? exp c)
    then Some c else None
  | None => None
  end.

End Reference.

(* ===================================================================== *)
(** * The reference libraries satisfy the interfaces *)
(* ===================================================================== *)

Module ReferenceLaws.

Import Reference.

Lemma length_fit n s : String.length (fit n s) = n.
Proof.
  revert s. induction n as [|n IH]; intros s; simpl; [reflexivity|].
  destruct s; simpl; rewrite IH; reflexivity.
Qed.

Lemma append_cons c a b :
  String.append (String c a) b = String c (String.append a b).
Proof. reflexivity. Qed.

Lemma split_at_app a b :
  split_at (String.length a) (String.append a b) = Some (a, b).
Proof.
  induction a as [|c a IH]; [reflexivity|].
  rewrite append_cons. simpl. rewrite IH. reflexivity.
Qed.

Lemma split_at_cons n c s :
  split_at (S n) (String c s) =
  match split_at n s with
  | Some (h, t) => Some (String c h, t)
  | None => None
  end.
Proof. reflexivity. Qed.

Lemma split_at_fit n s t :
  split_at n (String.append (fit n s) t) = Some (fit n s, t).
Proof.
  rewrite <- (length_fit n s) at 1. apply split_at_app.
Qed.

Lemma split_at_length n s h t :
  split_at n s = Some (h, t) ->
  String.length s = (n + String.length t)%nat.
Proof.
  revert s h. induction n as [|n IH]; intros s h; simpl.
  - intros [= <- <-]. reflexivity.
  - destruct s as [|c s]; [discriminate|].
    destruct (split_at n s) as [[h' t']|] eqn:E; [|discriminate].
    intros [= <- <-]. simpl. f_equal. eapply IH. exact E.
Qed.

Lemma append_assoc a b c :
  String.append (String.append a b) c = String.append a (String.append b c).
Proof.
  induction a as [|x a IH]; [reflexivity|].
  rewrite !append_cons, IH. reflexivity.
Qed.

Lemma ref_compare_hash data rounds salt :
  ref_compare data (ref_hash data rounds salt) = true.
Proof.
  unfold ref_compare, ref_hash.
  rewrite !split_at_cons, split_at_fit.
  cbn. apply String.eqb_refl.
Qed.

Lemma ref_compare_malformed data encrypted :
  String.length encrypted <> 60%nat -> ref_compare data encrypted = false.
Proof.
  intros Hlen. unfold ref_compare.
  destruct (split_at 29 encrypted) as [[h t]|] eqn:E; [|reflexivity].
  apply split_at_length in E.
  destruct (String.eqb t (tag data)) eqn:Et.
  - apply String.eqb_eq in Et. subst t.
    unfold tag in E. rewrite length_fit in E. contradiction.
  - apply andb_false_r.
Qed.

Lemma ref_hash_prefix data rounds salt :
  Js.startsWith (ref_hash data rounds salt) "$2a$" = true.
Proof. reflexivity. Qed.

Lemma parse_pos_enc p r :
  parse_pos (String.append (enc_pos p) r) = Some (p, r).
Proof.
  unfold enc_pos.
  induction p as [p IH|p IH|]; cbn [pos_word]; rewrite ?append_cons; simpl;
    [rewrite IH|rewrite IH|]; reflexivity.
Qed.

Lemma parse_Z_enc z r :
  parse_Z (String.append (enc_Z z) r) = Some (z, r).
Proof.
  destruct z; cbn [enc_Z]; rewrite ?append_cons; simpl;
    [reflexivity| |]; rewrite parse_pos_enc; reflexivity.
Qed.

Lemma parse_str_enc s r :
  parse_str (String.append (enc_str s) r) = Some (s, r).
Proof.
  unfold parse_str, enc_str. rewrite append_assoc, parse_Z_enc.
  rewrite Nat2Z.id. apply split_at_app.
Qed.

Lemma parse_claims_enc c r :
  parse_claims (String.append (enc_claims c) r) = Some (c, r).
Proof.
  unfold parse_claims, enc_claims.
  rewrite !append_assoc, parse_Z_enc, parse_str_enc, !parse_Z_enc.
  destruct c; reflexivity.
Qed.

Lemma ref_decode_render secret c : ref_decode (render secret c) = Some c.
Proof.
  unfold ref_decode, render. cbn [Ascii.eqb Bool.eqb andb].
  rewrite parse_claims_enc. reflexivity.
Qed.

Lemma ref_sign_configured p secret ttl now_ :
  Js.truthy secret = true -> is_Some (ref_sign p (Some secret) (Some ttl) now_).
Proof. intros H. unfold ref_sign. rewrite H. eexists. reflexivity. Qed.

Lemma ref_decode_sign p secret ttl now_ token :
  ref_sign p secret (Some ttl) now_ = Some token ->
  ref_decode token = Some (mkClaims (p_sub p) (p_email p) now_ (now_ + ttl)).
Proof.
  unfold ref_sign. destruct secret as [k|]; [|discriminate].
  destruct (Js.truthy k); [|discriminate].
  intros [= <-]. apply ref_decode_render.
Qed.

Lemma ref_verify_decode token secret now_ c :
  ref_verify token secret now_ = Some c -> ref_decode token = Some c.
Proof.
  unfold ref_verify. destruct (ref_decode token) as [c'|]; [|discriminate].
  destruct (_ && _); [|discriminate]. intros [= <-]. reflexivity.
Qed.

Lemma ref_verify_expired token secret now_ c :
  ref_decode token = Some c -> exp c + 0 <= now_ ->
  ref_verify token secret now_ = None.
Proof.
  intros Hd Hexp. unfold ref_verify. rewrite Hd.
  replace (now_ <? exp c) with false by (symmetry; apply Z.ltb_ge; lia).
  rewrite andb_false_r. reflexivity.
Qed.

End ReferenceLaws.

(** The reference bcrypt. *)
Definition ref_bcrypt : BcryptLib :=
  Build_BcryptLib Reference.ref_hash Reference.ref_compare
                  ReferenceLaws.ref_compare_hash
                  ReferenceLaws.ref_compare_malformed.

(** The reference token library, with no clock tolerance. *)
Definition ref_jwt : JwtLib :=
  Build_JwtLib Reference.ref_sign Reference.ref_decode Reference.ref_verify 0
               ReferenceLaws.ref_sign_configured
               ReferenceLaws.ref_decode_sign eq_refl
               ReferenceLaws.ref_verify_decode
               ReferenceLaws.ref_verify_expired.

(* ===================================================================== *)
(** * Facts about the repository *)
(* ===================================================================== *)

Lemma elem_of_entities (m : gmap Z UserRow) (u : User) :
  u ∈ entities m <-> m !! id u = Some (cols u).
Proof.
  unfold entities. rewrite list_elem_of_fmap. split.
  - intros [[k r] [-> Hin]]. simpl. by apply elem_of_map_to_list.
  - intros H. exists (id u, cols u). split; [by destruct u|].
    by apply elem_of_map_to_list.
Qed.

Lemma NoDup_entities (m : gmap Z UserRow) : NoDup (entities m).
Proof.
  unfold entities. apply NoDup_fmap_2; [|apply NoDup_map_to_list].
  intros [k1 r1] [k2 r2] [= -> ->]. reflexivity.
Qed.

Lemma elem_of_selected cs (m : gmap Z UserRow) (u : User) :
  u ∈ Qb.selected cs m <-> m !! id u = Some (cols u) /\ Qb.matches cs u = true.
Proof.
  unfold Qb.selected. rewrite list_elem_of_filter, elem_of_entities. tauto.
Qed.

Lemma NoDup_selected cs (m : gmap Z UserRow) : NoDup (Qb.selected cs m).
Proof. unfold Qb.selected. apply NoDup_filter, NoDup_entities. Qed.

Lemma NoDup_all_equal {A} (x : A) (l : list A) :
  NoDup l -> (forall y, y ∈ l -> y = x) -> l = [] \/ l = [x].
Proof.
  intros Hnd Hall. destruct l as [|a [|b l]]; [by left| |].
  - right. f_equal. apply Hall. by left.
  - exfalso. assert (a = x) as -> by (apply Hall; by left).
    assert (b = x) as -> by (apply Hall; right; by left).
    inversion Hnd as [|? ? Hnotin]. apply Hnotin. by left.
Qed.

(** A clause that pins the key selects at most the row stored under it. *)
Lemma selected_by_key cs (m : gmap Z UserRow) (k : Z) :
  (forall u, Qb.matches cs u = true -> id u = k) ->
  Qb.selected cs m =
  match m !! k with
  | Some r => if Qb.matches cs (mkUser k r) then [mkUser k r] else []
  | None => []
  end.
Proof.
  intros Hkey.
  assert (Hin : forall u, u ∈ Qb.selected cs m ->
                          m !! k = Some (cols u) /\ u = mkUser k (cols u)).
  { intros u [Hu Hm]%elem_of_selected. specialize (Hkey u Hm). subst k.
    split; [exact Hu|]. by destruct u. }
  destruct (m !! k) as [r|] eqn:Hk.
  - assert (Hall : forall u, u ∈ Qb.selected cs m -> u = mkUser k r).
    { intros u Hu. destruct (Hin u Hu) as [[= <-] ->]. reflexivity. }
    destruct (NoDup_all_equal _ _ (NoDup_selected cs m) Hall) as [E|E];
      rewrite E; destruct (Qb.matches cs (mkUser k r)) eqn:Hm; try reflexivity.
    + assert (mkUser k r ∈ Qb.selected cs m) as Hmem
        by (apply elem_of_selected; split; [exact Hk|exact Hm]).
      rewrite E in Hmem. by apply elem_of_nil in Hmem.
    + assert (mkUser k r ∈ Qb.selected cs m) as Hmem by (rewrite E; by left).
      apply elem_of_selected in Hmem as [_ Hm']. congruence.
  - destruct (Qb.selected cs m) as [|u l] eqn:E; [reflexivity|].
    destruct (Hin u) as [Hu _]; [try rewrite E; by left|discriminate].
Qed.

(** The clause of [findOne] and [findById]. *)
Definition visible_in (t : Z) (r : UserRow) : bool :=
  (tenant_id r =? t) && negb (bool_decide (is_Some (deleted_at r))).

Lemma matches_tenant_id t k (u : User) :
  Qb.matches [TenantIs t; IdIs k] u = (id u =? k) && visible_in t u.
Proof.
  unfold Qb.matches, visible_in. simpl.
  destruct (tenant_id u =? t), (id u =? k); simpl; try reflexivity.
  all: by rewrite ?andb_true_r.
Qed.

Lemma selected_tenant_id t k (m : gmap Z UserRow) :
  Qb.selected [TenantIs t; IdIs k] m =
  match m !! k with
  | Some r => if visible_in t r then [mkUser k r] else []
  | None => []
  end.
Proof.
  rewrite (selected_by_key _ m k).
  - destruct (m !! k) as [r|]; [|reflexivity].
    rewrite matches_tenant_id. simpl. by rewrite Z.eqb_refl.
  - intros u. rewrite matches_tenant_id.
    intros [H _]%andb_true_iff. by apply Z.eqb_eq.
Qed.

Lemma matches_tenant cs t (u : User) :
  Qb.matches (TenantIs t :: cs) u = true -> tenant_id u = t.
Proof.
  unfold Qb.matches. simpl. intros H.
  apply andb_true_iff in H as [H _]. apply andb_true_iff in H as [H _].
  by apply Z.eqb_eq.
Qed.

Lemma matches_not_deleted cs (u : User) :
  Qb.matches cs u = true -> deleted_at u = None.
Proof.
  unfold Qb.matches. intros [_ H]%andb_true_iff.
  apply negb_true_iff, bool_decide_eq_false in H.
  destruct (deleted_at u); [|reflexivity]. exfalso. apply H. by eexists.
Qed.

(** The sequence value is a key no row has. *)
Lemma next_id_fresh (m : gmap Z UserRow) : m !! Repository.next_id m = None.
Proof.
  destruct (m !! Repository.next_id m) as [r|] eqn:E; [|reflexivity]. exfalso.
  apply elem_of_map_to_list in E.
  assert (Hle : forall (l : list (Z * UserRow)) k x,
             (k, x) ∈ l -> k <= foldr Z.max 0 (fst <$> l)).
  { induction l as [|[k' x'] l IH]; intros k x Hin.
    - by apply elem_of_nil in Hin.
    - apply elem_of_cons in Hin as [[= -> ->]|Hin]; cbn [fmap list_fmap foldr fst].
      + apply Z.le_max_l.
      + specialize (IH _ _ Hin). etrans; [exact IH|apply Z.le_max_r]. }
  specialize (Hle _ _ _ E). unfold Repository.next_id in Hle.
  revert Hle. generalize (foldr Z.max 0 (map_to_list m).*1). intros; lia.
Qed.

Lemma In_insert_sorted {A} (le : A -> A -> bool) x y (l : list A) :
  y ∈ Sql.insert_sorted le x l <-> y = x \/ y ∈ l.
Proof.
  induction l as [|z l IH]; simpl.
  - rewrite list_elem_of_singleton, elem_of_nil. tauto.
  - destruct (le x z).
    + by rewrite elem_of_cons.
    + rewrite !elem_of_cons, IH. tauto.
Qed.

Lemma In_order_by {A} (le : A -> A -> bool) y (l : list A) :
  y ∈ Sql.order_by le l <-> y ∈ l.
Proof.
  unfold Sql.order_by. induction l as [|x l IH]; simpl; [reflexivity|].
  by rewrite In_insert_sorted, IH, elem_of_cons.
Qed.

Lemma In_sort_rows o y (l : list User) : y ∈ sort_rows o l <-> y ∈ l.
Proof.
  unfold sort_rows. destruct o as [[f [[|]|]]|];
    try reflexivity; apply In_order_by.
Qed.

Lemma In_paginate q y (l : list User) : y ∈ Qb.paginate q l -> y ∈ l.
Proof.
  unfold Qb.paginate. intros H.
  assert (Hskip : y ∈ match Qb.q_skip q with
                      | Some n => skipn (Z.to_nat n) l
                      | None => l
                      end).
  { destruct (Qb.q_take q); [|exact H].
    eapply elem_of_sublist; [exact H|apply sublist_take]. }
  destruct (Qb.q_skip q); [|exact Hskip].
  eapply elem_of_sublist; [exact Hskip|apply sublist_drop].
Qed.

(* ===================================================================== *)
(** * UsersService.findAll *)
(* ===================================================================== *)

Lemma and_if_where {A} (x : option A) truthy c q t cs :
  Qb.q_where q = TenantIs t :: cs ->
  exists cs', Qb.q_where (UsersService.and_if x truthy c q) = TenantIs t :: cs'.
Proof.
  intros H. unfold UsersService.and_if.
  destruct x as [v|]; [destruct (truthy v)|]; simpl; rewrite ?H; eauto.
Qed.

(** The statement [findAll] builds always carries the tenant predicate
    first; it is run twice, for the count and for the page. *)
Lemma findAll_run request queryDto w :
  exists q cs,
    Qb.q_where q = TenantIs (tenantId request) :: cs /\
    UsersService.findAll request queryDto w =
    (Ok (let rows := Qb.selected (Qb.q_where q) (db w) in
         let limit_ := default 10 (limit queryDto) in
         let page_ := default 1 (page queryDto) in
         let total_ := Z.of_nat (length rows) in
         mkPaginated
           (UsersService.to_list_item <$>
              Qb.paginate q (sort_rows (Qb.q_order q) rows))
           total_ page_ limit_ (Js.ceil_div total_ limit_)
           (Js.lt_number page_ (Js.ceil_div total_ limit_)) (1 <? page_)),
     mkWorld (db w)
             ((Read <$> Qb.selected (Qb.q_where q) (db w))
              ++ (Read <$> Qb.selected (Qb.q_where q) (db w))
              ++ trace w)).
Proof.
  unfold UsersService.findAll.
  set (q0 := UsersService.getBaseQuery request).
  assert (H0 : Qb.q_where q0 = TenantIs (tenantId request) :: []) by reflexivity.
  destruct (and_if_where (search queryDto) Js.truthy
              (fun s => Search (Sql.contains_pattern s)) q0 _ _ H0) as [cs1 H1].
  set (q1 := UsersService.and_if (search queryDto) _ _ q0) in *.
  destruct (and_if_where (qry_role queryDto) (fun _ => true) RoleIs q1 _ _ H1)
    as [cs2 H2].
  set (q2 := UsersService.and_if (qry_role queryDto) _ _ q1) in *.
  destruct (and_if_where (qry_status queryDto) (fun _ => true) StatusIs q2 _ _ H2)
    as [cs3 H3].
  set (q3 := UsersService.and_if (qry_status queryDto) _ _ q2) in *.
  destruct (and_if_where (qry_department queryDto) Js.truthy
              (fun d => DepartmentLike (Sql.contains_pattern d)) q3 _ _ H3)
    as [cs4 H4].
  set (q4 := UsersService.and_if (qry_department queryDto) _ _ q3) in *.
  eexists (Qb.take _ (Qb.skip _ (Qb.orderBy _ _ q4))), cs4.
  split; [exact H4|]. reflexivity.
Qed.

(* ===================================================================== *)
(** * Lookups by key *)
(* ===================================================================== *)

(** The principal with key [k], when tenant [t] can see it. *)
Definition found_row (t k : Z) (m : gmap Z UserRow) : option User :=
  match m !! k with
  | Some r => if visible_in t r then Some (mkUser k r) else None
  | None => None
  end.

Lemma selected_found_row t k (m : gmap Z UserRow) :
  Qb.selected [TenantIs t; IdIs k] m = option_list (found_row t k m).
Proof.
  rewrite selected_tenant_id. unfold found_row.
  destruct (m !! k) as [r|]; [destruct (visible_in t r)|]; reflexivity.
Qed.

Lemma found_row_Some t k (m : gmap Z UserRow) u :
  found_row t k m = Some u ->
  id u = k /\ m !! k = Some (cols u) /\ tenant_id u = t /\ deleted_at u = None.
Proof.
  unfold found_row. destruct (m !! k) as [r|]; [|discriminate].
  destruct (visible_in t r) eqn:V; [|discriminate]. intros [= <-]. simpl.
  apply andb_true_iff in V as [Ht Hd]. apply Z.eqb_eq in Ht.
  apply negb_true_iff, bool_decide_eq_false in Hd.
  repeat split; [exact Ht|].
  destruct (deleted_at r); [|reflexivity]. exfalso. apply Hd. by eexists.
Qed.

(** What reading the principal [k] leaves in the store: the same table, and
    the read of the row found. *)
Definition after_lookup (t k : Z) (w : World) : World :=
  mkWorld (db w) ((Read <$> option_list (found_row t k (db w))) ++ trace w).

Lemma findById_run request k w :
  UsersService.findById request k w =
  (Ok (found_row (tenantId request) k (db w)),
   after_lookup (tenantId request) k w).
Proof.
  unfold UsersService.findById, UsersService.getBaseQuery,
    UsersService.getTenantId, Qb.getOne, bind, get_db, log, ret,
    after_lookup. simpl.
  rewrite selected_found_row.
  destruct (found_row (tenantId request) k (db w)); reflexivity.
Qed.

Lemma findOne_run request k w :
  UsersService.findOne request k w =
  (match found_row (tenantId request) k (db w) with
   | Some u => Ok u
   | None => Throw (NotFoundException "User not found")
   end,
   after_lookup (tenantId request) k w).
Proof.
  unfold UsersService.findOne, bind. fold (UsersService.findById request k).
  rewrite findById_run.
  destruct (found_row (tenantId request) k (db w)); reflexivity.
Qed.

(* ===================================================================== *)
(** * The self-action guard *)
(* ===================================================================== *)

(** A concrete tenant with an administrator (key 1) and an employee (key 2),
    used to evaluate requests. *)
Module Sample.

Definition row (t : Z) (email_ hash : string) (r : UserRole) (s : UserStatus)
    (fingerprint : option string) : UserRow :=
  mkRow t email_ hash "Ann" "Lee" r s None None None None None None None None
        None None None None None 100 100 None None fingerprint.

Definition env : Env := mkEnv 1000 "salt-of-the-password" "salt-of-the-token".

Definition admin_hash : string :=
  Reference.ref_hash "Adm1n!pass" 12 "first-salt".

Definition world : World :=
  mkWorld (<[1 := row 7 "admin@acme.test" admin_hash ADMIN ACTIVE None]>
           (<[2 := row 7 "bob@acme.test"
                       (Reference.ref_hash "B0b!passw" 12 "second-salt")
                       EMPLOYEE INACTIVE None]>
            (<[3 := row 8 "eve@other.test"
                        (Reference.ref_hash "Ev3!passw" 12 "third-salt")
                        ADMIN ACTIVE None]> ∅)))
          [].

Definition as_admin : Request :=
  mkRequest 7 (Some (mkRequestUser 1 (Some "admin"))).

Definition anonymous : Request := mkRequest 7 None.

Definition config : Config := mkConfig (Some "server-secret") (Some 900) (Some 604800).

End Sample.

Lemma self_action_run `{BcryptLib} t k role_ e w :
  let request := mkRequest t (Some (mkRequestUser k role_)) in
  (UsersService.deactivate request e k w =
   (match found_row t k (db w) with
    | Some _ => Throw (BadRequestException "You cannot deactivate your own account")
    | None => Throw (NotFoundException "User not found")
    end, after_lookup t k w)) /\
  (UsersService.remove request e k w =
   (match found_row t k (db w) with
    | Some _ => Throw (BadRequestException "You cannot delete your own account")
    | None => Throw (NotFoundException "User not found")
    end, after_lookup t k w)).
Proof.
  intros request.
  unfold UsersService.deactivate, UsersService.remove, bind.
  rewrite !findOne_run. simpl.
  destruct (found_row t k (db w)); simpl.
  - unfold UsersService.getCurrentUserId. simpl.
    rewrite bool_decide_eq_true_2 by reflexivity. split; reflexivity.
  - split; reflexivity.
Qed.

(** C6, as the code has it.  A deactivate or delete whose target is the
    caller's own principal id is rejected whatever the caller's role: with
    BadRequest exactly when the caller's id is a visible principal of the
    request's tenant, with NotFound exactly when it is not, never with
    Forbidden; the call reads that principal and leaves the table as it
    was. *)
Theorem self_action_rejected_with_bad_request `{BcryptLib} (t k : Z)
    (role_ : option string) (e : Env) (w : World) :
  let request := mkRequest t (Some (mkRequestUser k role_)) in
  UsersService.deactivate request e k w =
    (match found_row t k (db w) with
     | Some _ => Throw (BadRequestException "You cannot deactivate your own account")
     | None => Throw (NotFoundException "User not found")
     end, after_lookup t k w) /\
  UsersService.remove request e k w =
    (match found_row t k (db w) with
     | Some _ => Throw (BadRequestException "You cannot delete your own account")
     | None => Throw (NotFoundException "User not found")
     end, after_lookup t k w) /\
  db (after_lookup t k w) = db w.
Proof.
  intros request. subst request.
  destruct (self_action_run t k role_ e w) as [-> ->]. auto.
Qed.

(** C6, as stated, fails: the administrator of the sample tenant deactivates
    their own id and gets BadRequest, not Forbidden. *)
Lemma self_deactivate_is_not_forbidden :
  fst (UsersService.deactivate (bcryptjs := ref_bcrypt) Sample.as_admin
         Sample.env 1 Sample.world) =
    Throw (BadRequestException "You cannot deactivate your own account") /\
  ~ (exists msg,
       fst (UsersService.deactivate (bcryptjs := ref_bcrypt) Sample.as_admin
              Sample.env 1 Sample.world) =
       Throw (ForbiddenException msg)).
Proof.
  assert (E : fst (UsersService.deactivate (bcryptjs := ref_bcrypt)
                     Sample.as_admin Sample.env 1 Sample.world) =
              Throw (BadRequestException "You cannot deactivate your own account"))
    by (vm_compute; reflexivity).
  split; [exact E|]. rewrite E. intros [msg Hmsg]. discriminate.
Qed.

(* ===================================================================== *)
(** * The password hook *)
(* ===================================================================== *)

Section PasswordHook.

Context {bcryptjs : BcryptLib}.

Lemma hashPassword_digest salt (r : UserRow) :
  Js.truthy (password_hash r) = true ->
  Js.startsWith (password_hash r) "$2a$" = false ->
  hashPassword salt r =
  set_password_hash (bcrypt_hash (password_hash r) 12 salt) r.
Proof. intros Ht Hp. unfold hashPassword. rewrite Ht, Hp. reflexivity. Qed.

Lemma hashPassword_prefixed salt (r : UserRow) :
  Js.startsWith (password_hash r) "$2a$" = true -> hashPassword salt r = r.
Proof.
  intros Hp. unfold hashPassword. rewrite Hp, andb_false_r. reflexivity.
Qed.

Lemma hashPassword_empty salt (r : UserRow) :
  password_hash r = EmptyString -> hashPassword salt r = r.
Proof. intros Hp. unfold hashPassword. rewrite Hp. reflexivity. Qed.

(** The hook changes no column but [password_hash]. *)
Lemma hashPassword_frame salt (r : UserRow) :
  exists h, hashPassword salt r = set_password_hash h r.
Proof.
  unfold hashPassword. destruct (_ && _); [eauto|].
  exists (password_hash r). by destruct r.
Qed.

(** A secret that already looks like a digest is stored as it is, and does
    not verify unless it is 60 characters long. *)
Lemma prefixed_secret_not_verified salt (r : UserRow) (s : string) :
  Js.startsWith s "$2a$" = true ->
  String.length s <> 60%nat ->
  validatePassword (hashPassword salt (set_password_hash s r)) s = false.
Proof.
  intros Hp Hlen. rewrite hashPassword_prefixed by exact Hp.
  unfold validatePassword. simpl. by apply bcrypt_compare_malformed.
Qed.

(** A secret that is the digest of another secret is stored as it is, and
    then that other secret verifies. *)
Lemma digest_as_secret_verifies salt salt0 (r : UserRow) (s : string) :
  emits_2a bcryptjs ->
  validatePassword
    (hashPassword salt (set_password_hash (bcrypt_hash s 12 salt0) r)) s = true.
Proof.
  intros Hpre. rewrite hashPassword_prefixed by apply Hpre.
  unfold validatePassword. simpl. apply bcrypt_compare_hash.
Qed.

(** C7, as the code has it, for a library that compares by hashing again.
    For a non-empty secret [s'] that does not begin with [$2a$], hashing it
    and verifying it answers true; and verifying any secret [s] against the
    hash of [s'] answers true exactly when bcrypt gives [s] the digest it
    gave [s'] under the same salt, so false whenever the two digests
    differ. *)
Theorem verify_after_hash (salt : string) (r : UserRow) (s s' : string) :
  compares_by_rehash bcryptjs ->
  Js.truthy s' = true ->
  Js.startsWith s' "$2a$" = false ->
  validatePassword (hashPassword salt (set_password_hash s' r)) s' = true /\
  (validatePassword (hashPassword salt (set_password_hash s' r)) s = true <->
   bcrypt_hash s 12 salt = bcrypt_hash s' 12 salt) /\
  (bcrypt_hash s 12 salt <> bcrypt_hash s' 12 salt ->
   validatePassword (hashPassword salt (set_password_hash s' r)) s = false).
Proof.
  intros Hre Ht Hp. rewrite hashPassword_digest by assumption.
  unfold validatePassword. simpl.
  assert (Hiff : bcrypt_compare s (bcrypt_hash s' 12 salt) = true <->
                 bcrypt_hash s 12 salt = bcrypt_hash s' 12 salt).
  { rewrite Hre. apply String.eqb_eq. }
  split; [apply bcrypt_compare_hash|]. split; [exact Hiff|].
  intros Hne. destruct (bcrypt_compare s (bcrypt_hash s' 12 salt)) eqn:E;
    [|reflexivity].
  exfalso. apply Hne, Hiff. reflexivity.
Qed.

End PasswordHook.

Lemma append_eqb (a b c : string) :
  String.eqb (String.append a b) (String.append a c) = String.eqb b c.
Proof.
  induction a as [|x a IH]; [reflexivity|].
  simpl. rewrite Ascii.eqb_refl. exact IH.
Qed.

(** The reference library compares by hashing again. *)
Lemma ref_compares_by_rehash : compares_by_rehash ref_bcrypt.
Proof.
  intros data d rounds salt.
  change (bcrypt_compare data (bcrypt_hash d rounds salt))
    with (Reference.ref_compare data (Reference.ref_hash d rounds salt)).
  change (@bcrypt_hash ref_bcrypt) with Reference.ref_hash.
  unfold Reference.ref_compare, Reference.ref_hash.
  rewrite !ReferenceLaws.split_at_cons, ReferenceLaws.split_at_fit.
  simpl. rewrite !Ascii.eqb_refl, append_eqb. apply String.eqb_sym.
Qed.

Lemma verify_after_hash_witness :
  let r := Sample.row 7 "a@b.c" "" EMPLOYEE PENDING None in
  let hashed := hashPassword (bcryptjs := ref_bcrypt) "some-salt"
                  (set_password_hash "Passw0rd!" r) in
  validatePassword (bcryptjs := ref_bcrypt) hashed "Passw0rd!" = true /\
  validatePassword (bcryptjs := ref_bcrypt) hashed "passw0rd!" = false.
Proof.
  cbv zeta.
  destruct (verify_after_hash (bcryptjs := ref_bcrypt) "some-salt"
              (Sample.row 7 "a@b.c" "" EMPLOYEE PENDING None)
              "passw0rd!" "Passw0rd!" ref_compares_by_rehash
              eq_refl eq_refl) as (Hsame & _ & Hother).
  split; [exact Hsame|]. apply Hother. vm_compute. discriminate.
Defined.

(** Seventy-two characters that satisfy the password pattern. *)
Definition seventy_two : string :=
  "Aa1!aaaaaaaaaaaaaaaaaaaaaaaaaaaaaaaaaaaaaaaaaaaaaaaaaaaaaaaaaaaaaaaaaaaa".

(** C7, as stated, fails on both halves, each by design.  The hook does not
    hash an empty secret, and an empty column verifies nothing, the empty
    secret included.  bcrypt reads the first 72 bytes of a secret: two
    different secrets that satisfy the password validators and agree on
    those bytes verify against each other's hash. *)
Lemma verify_hash_counterexample :
  let r := Sample.row 7 "a@b.c" "" EMPLOYEE PENDING None in
  let hash s := hashPassword (bcryptjs := ref_bcrypt) "some-salt"
                  (set_password_hash s r) in
  let s := String.append seventy_two "x" in
  let s' := String.append seventy_two "y" in
  validatePassword (bcryptjs := ref_bcrypt) (hash "") "" = false /\
  String.length seventy_two = 72%nat /\
  valid_password s = true /\ valid_password s' = true /\
  s <> s' /\
  validatePassword (bcryptjs := ref_bcrypt) (hash s') s = true.
Proof.
  cbv zeta. repeat split; try (vm_compute; reflexivity).
  vm_compute. discriminate.
Qed.

(* ===================================================================== *)
(** * Writing a principal: create, changePassword *)
(* ===================================================================== *)

Section Writes.

Context {bcryptjs : BcryptLib}.
Variable request : Request.
Variable e : Env.

Lemma save_run (u : User) (w : World) :
  Repository.save e u w =
  if bool_decide (db w !! id u = Some (cols u)) then (Ok u, w)
  else
    let r := set_updated_at (now e) (hashPassword (pw_salt e) u) in
    if Repository.violates_unique (db w) (id u) r then (Throw Repository.duplicate_key, w)
    else (Ok (mkUser (id u) r),
          mkWorld (<[id u := r]> (db w)) (Write (mkUser (id u) r) :: trace w)).
Proof.
  unfold Repository.save, bind, get_db. simpl.
  destruct (bool_decide _); [reflexivity|]. simpl.
  destruct (Repository.violates_unique _ _ _); reflexivity.
Qed.

(** The store after the row [r] is written under the key [k]. *)
Definition wrote (k : Z) (r : UserRow) (w : World) : World :=
  mkWorld (<[k := r]> (db w)) (Write (mkUser k r) :: trace w).

(** The row an update of the stored row [r] with the object [p] writes. *)
Definition updated_row (p : Partial) (r : UserRow) : UserRow :=
  let hooked := match obj_password_hash p with
                | Some _ => hashPassword (pw_salt e) (merge p r)
                | None => merge p r
                end in
  if updated_at hooked =? updated_at r
  then set_updated_at (now e) hooked else hooked.

Lemma persist_run (p : Partial) (w : World) :
  Repository.persist e p w =
  match Repository.row_of p (db w) with
  | Some (k, r) =>
    if bool_decide (merge p r = r) then (Ok (mkUser k r), w)
    else if Repository.violates_unique (db w) k (updated_row p r)
         then (Throw Repository.duplicate_key, w)
         else (Ok (mkUser k (updated_row p r)), wrote k (updated_row p r) w)
  | None =>
    match complete (now e) p with
    | None => (Throw Repository.not_null, w)
    | Some draft =>
      let r := hashPassword (pw_salt e) draft in
      let k := default (Repository.next_id (db w)) (obj_id p) in
      if Repository.violates_unique (db w) k r
      then (Throw Repository.duplicate_key, w)
      else (Ok (mkUser k r), wrote k r w)
    end
  end.
Proof.
  unfold Repository.persist, bind, get_db. cbn [fst snd].
  destruct (Repository.row_of p (db w)) as [[k r]|].
  - destruct (bool_decide _); [reflexivity|]. fold (updated_row p r).
    destruct (Repository.violates_unique _ _ _); reflexivity.
  - destruct (complete (now e) p) as [draft|]; [|reflexivity]. cbv zeta.
    destruct (Repository.violates_unique _ _ _); reflexivity.
Qed.

(** [persist] fails by a constraint of the table and then writes nothing;
    otherwise it returns a stored row, which it has either found as it is
    or written just now. *)
Lemma persist_cases (p : Partial) (w : World) :
  (exists err, Repository.persist e p w = (Throw err, w) /\
               (err = Repository.duplicate_key \/ err = Repository.not_null)) \/
  (exists k r, Repository.persist e p w = (Ok (mkUser k r), w) /\
               db w !! k = Some r) \/
  (exists k r, Repository.persist e p w = (Ok (mkUser k r), wrote k r w) /\
               Repository.violates_unique (db w) k r = false /\
               ((exists r0, db w !! k = Some r0 /\ obj_id p = Some k /\
                            r = updated_row p r0) \/
                (exists draft, db w !! k = None /\
                               complete (now e) p = Some draft /\
                               r = hashPassword (pw_salt e) draft))).
Proof.
  rewrite persist_run. unfold Repository.row_of.
  destruct (obj_id p) as [k|] eqn:Hid.
  - destruct (db w !! k) as [r0|] eqn:Hk; cbn [fmap option_fmap option_map].
    + destruct (bool_decide _); [right; left; eauto|].
      destruct (Repository.violates_unique _ _ _) eqn:Hv; [left; eauto|].
      right; right. eexists _, _. split; [reflexivity|]. split; [exact Hv|].
      left. eauto.
    + destruct (complete (now e) p) as [draft|] eqn:Hc; [|left; eauto].
      cbv zeta. cbn [default].
      destruct (Repository.violates_unique _ _ _) eqn:Hv; [left; eauto|].
      right; right. eexists _, _. split; [reflexivity|]. split; [exact Hv|].
      right. eauto.
  - destruct (complete (now e) p) as [draft|] eqn:Hc; [|left; eauto].
    cbv zeta. cbn [default].
    destruct (Repository.violates_unique _ _ _) eqn:Hv; [left; eauto|].
    right; right. eexists _, _. split; [reflexivity|]. split; [exact Hv|].
    right. exists draft. split; [apply next_id_fresh|]. auto.
Qed.

(** A body that does not name [tenant_id] gives an object that cannot be
    inserted. *)
Lemma complete_new_user (body : Posted CreateUserDto) :
  complete (now e) (UsersService.new_user body) =
  match und_tenant_id (undeclared body) with
  | Some t =>
    Some (merge (UsersService.new_user body)
            (mkRow t EmptyString EmptyString EmptyString EmptyString
                   EMPLOYEE PENDING None None None None None None None None
                   None None None None None (now e) (now e) None None None))
  | None => None
  end.
Proof.
  unfold complete, UsersService.new_user. cbn.
  destruct (und_tenant_id (undeclared body)); reflexivity.
Qed.

(** The row [changePassword] asks [save] to write for the principal [u]. *)
Definition password_change (dto : ChangePasswordDto) (u : User) : User :=
  mkUser (id u)
         (set_updated_by (UsersService.getCurrentUserId request)
            (set_password_hash (new_password dto) u)).

Lemma changePassword_inv (k : Z) (dto : ChangePasswordDto) (w w' : World) :
  UsersService.changePassword request e k dto w = (Ok tt, w') ->
  exists u,
    UsersService.getCurrentUserId request = Some k /\
    found_row (tenantId request) k (db w) = Some u /\
    validatePassword u (current_password dto) = true /\
    exists saved,
      Repository.save e (password_change dto u) (after_lookup (tenantId request) k w) =
      (Ok saved, w').
Proof.
  unfold UsersService.changePassword.
  destruct (bool_decide (Some k = UsersService.getCurrentUserId request)) eqn:Hme;
    simpl; [|discriminate].
  apply bool_decide_eq_true in Hme.
  unfold bind. rewrite findOne_run.
  destruct (found_row (tenantId request) k (db w)) as [u|]; [|discriminate].
  destruct (validatePassword u (current_password dto)) eqn:Hv; simpl;
    [|discriminate].
  fold (password_change dto u).
  destruct (Repository.save e (password_change dto u) _) as [[saved|err] w1] eqn:Hs;
    [|discriminate].
  unfold ret. intros [= <-]. exists u. repeat split; eauto.
Qed.

End Writes.

(** C8 fails on the code.  The string [$2a$Abcdef1!] satisfies the password
    validators; the hook, which is all that stands between a posted
    password and the column, leaves a value that begins with [$2a$] as it
    is, whatever the library, the salt and the row; and when the
    administrator changes their own password to it, the row is stored with
    that very string in [password_hash]. *)
Theorem plaintext_password_stored :
  valid_password "$2a$Abcdef1!" = true /\
  (forall (B : BcryptLib) (salt : string) (r : UserRow),
     password_hash
       (hashPassword (bcryptjs := B) salt (set_password_hash "$2a$Abcdef1!" r)) =
     "$2a$Abcdef1!") /\
  (exists w' r,
     UsersService.changePassword (bcryptjs := ref_bcrypt) Sample.as_admin
       Sample.env 1 (mkChangePasswordDto "Adm1n!pass" "$2a$Abcdef1!")
       Sample.world = (Ok tt, w') /\
     db w' !! 1 = Some r /\
     password_hash r = "$2a$Abcdef1!").
Proof.
  split; [vm_compute; reflexivity|]. split.
  - intros B salt r. by rewrite hashPassword_prefixed.
  - eexists _, _. split; [vm_compute; reflexivity|].
    split; vm_compute; reflexivity.
Qed.

(* ===================================================================== *)
(** * Facts about AuthService *)
(* ===================================================================== *)

Lemma lookup_updated_rows e c f (m : gmap Z UserRow) k :
  Repository.updated_rows e c f m !! k =
  (fun r => if Repository.criteria_selects c k r then set_updated_at (now e) (f r) else r)
    <$> m !! k.
Proof.
  unfold Repository.updated_rows. rewrite map_lookup_imap.
  destruct (m !! k); reflexivity.
Qed.

Section AuthFacts.

Variable bcryptjs : BcryptLib.
Variable bcrypt : BcryptLib.
Variable jwt : JwtLib.
Variable config : Config.
Variable request : Request.
Variable e : Env.

(** The two tokens [generateTokens] signs, when both signatures succeed. *)
Definition sign_pair (userId : Z) (email_ : string) : option AuthTokens.t :=
  match @jwt_sign jwt (mkPayload userId email_) (JWT_SECRET config)
                  (JWT_ACCESS_TOKEN_EXPIRATION config) (now e),
        @jwt_sign jwt (mkPayload userId email_) (JWT_SECRET config)
                  (JWT_REFRESH_TOKEN_EXPIRATION config) (now e) with
  | Some a, Some r => Some (AuthTokens.mk a r)
  | _, _ => None
  end.

Definition signed (userId : Z) (email_ : string) : Result AuthTokens.t :=
  match sign_pair userId email_ with
  | Some t => Ok t
  | None => Throw (Error "jwt sign failed")
  end.

Lemma generateTokens_run userId email_ w :
  AuthService.generateTokens jwt config e userId email_ w =
  (signed userId email_, w).
Proof.
  unfold AuthService.generateTokens, signed, sign_pair.
  repeat case_match; reflexivity.
Qed.

(** The fingerprint [updateRefreshToken] stores for a token. *)
Definition fingerprint (token : string) : option string :=
  if Js.truthy token
  then Some (@bcrypt_hash bcrypt token 10 (rt_salt e)) else None.

(** The store after the fingerprint column of principal [k] is set. *)
Definition rotated (k : Z) (h : option string) (w : World) : World :=
  let c := Repository.mkCriteria (Repository.IdEquals k)
                                  (Repository.TenantColumn (tenantId request)) in
  let m := Repository.updated_rows e c (set_refreshToken h) (db w) in
  mkWorld m
    ((Write <$> filter (fun u => Repository.criteria_selects c (id u) u = true)
                       (entities m)) ++ trace w).

Lemma usersUpdateRefreshToken_run k h w :
  UsersService.updateRefreshToken request e k h w = (Ok tt, rotated k h w).
Proof. reflexivity. Qed.

Lemma updateRefreshToken_run k token w :
  AuthService.updateRefreshToken bcrypt request e k token w =
  (Ok tt, rotated k (fingerprint token) w).
Proof. reflexivity. Qed.

(** The row of principal [k] after a rotation. *)
Lemma lookup_rotated k h w k' :
  db (rotated k h w) !! k' =
  (fun r => if (k' =? k) && (tenant_id r =? tenantId request)
            then set_updated_at (now e) (set_refreshToken h r) else r)
    <$> db w !! k'.
Proof. unfold rotated. simpl. by rewrite lookup_updated_rows. Qed.

(** The outcome of a refresh for the principal the lookup found. *)
Definition refresh_outcome (found : option User) (token : string) :
    Result AuthTokens.t :=
  match AuthService.stored_fingerprint found with
  | None => Throw (UnauthorizedException "Access Denied")
  | Some (u, h) =>
    if @bcrypt_compare bcrypt token h
    then signed (id u) (email u)
    else Throw (UnauthorizedException "Access Denied")
  end.

Lemma refreshTokens_run userId token w :
  AuthService.refreshTokens bcrypt jwt config request e userId token w =
  let found := found_row (tenantId request) userId (db w) in
  let w1 := after_lookup (tenantId request) userId w in
  match refresh_outcome found token with
  | Ok tokens_ => (Ok tokens_, rotated userId
                                (fingerprint (AuthTokens.refreshToken tokens_)) w1)
  | Throw err => (Throw err, w1)
  end.
Proof.
  unfold AuthService.refreshTokens, bind, refresh_outcome.
  rewrite findById_run. cbv zeta.
  destruct (found_row (tenantId request) userId (db w)) as [u|] eqn:Hf;
    [|reflexivity].
  destruct (AuthService.stored_fingerprint (Some u)) as [[u' h]|] eqn:Hs;
    [|reflexivity].
  assert (u' = u) as ->.
  { unfold AuthService.stored_fingerprint in Hs.
    destruct (refreshToken u) as [h'|]; [|discriminate].
    destruct (Js.truthy h'); [|discriminate]. by inversion Hs. }
  apply found_row_Some in Hf as [Hid _].
  destruct (@bcrypt_compare bcrypt token h); cbn [negb]; [|reflexivity].
  rewrite generateTokens_run.
  destruct (signed (id u) (email u)) as [tk|err]; [|reflexivity].
  rewrite updateRefreshToken_run, Hid. reflexivity.
Qed.

Lemma refreshTokens_fst userId token w :
  fst (AuthService.refreshTokens bcrypt jwt config request e userId token w) =
  refresh_outcome (found_row (tenantId request) userId (db w)) token.
Proof.
  rewrite refreshTokens_run. cbv zeta.
  destruct (refresh_outcome _ _); reflexivity.
Qed.

(** The controller adds the decoding of the presented token, and nothing
    else: no signature or expiry check is made on the way. *)
Lemma controller_refresh_fst token w :
  fst (AuthController.refreshTokens bcrypt jwt config request e token w) =
  match @jwt_decode jwt token with
  | Some decoded =>
    if sub decoded =? 0
    then Throw (ReferenceError "UnauthorizedException is not defined")
    else
      match refresh_outcome
              (found_row (tenantId request) (sub decoded) (db w)) token with
      | Ok tokens_ =>
        Ok (AuthController.mkTokensResponse "Tokens refreshed successfully"
                                            tokens_)
      | Throw err => Throw err
      end
  | None => Throw (ReferenceError "UnauthorizedException is not defined")
  end.
Proof.
  unfold AuthController.refreshTokens.
  destruct (@jwt_decode jwt token) as [c|]; [|reflexivity].
  destruct (sub c =? 0); [reflexivity|].
  unfold bind. rewrite refreshTokens_run. cbv zeta.
  destruct (refresh_outcome _ _); reflexivity.
Qed.

(** The outcome looks at the key, the email and the fingerprint of the
    principal found, and at nothing else. *)
Definition refresh_view (found : option User) :
    option (Z * string * option string) :=
  (fun u : User => (id u, email u, refreshToken u)) <$> found.

Lemma refresh_outcome_view f1 f2 token :
  refresh_view f1 = refresh_view f2 ->
  refresh_outcome f1 token = refresh_outcome f2 token.
Proof.
  unfold refresh_view, refresh_outcome, AuthService.stored_fingerprint.
  destruct f1 as [u1|], f2 as [u2|]; simpl; try discriminate; [|reflexivity].
  intros [= Hid Hem Hrt]. rewrite Hrt.
  destruct (refreshToken u2) as [h|]; [|reflexivity].
  destruct (Js.truthy h); [|reflexivity]. by rewrite Hid, Hem.
Qed.

End AuthFacts.

(* ===================================================================== *)
(** * changePassword and the refresh session *)
(* ===================================================================== *)

(** [r'] is [r] except, possibly, for the columns [password_hash],
    [updated_by] and [updated_at]. *)
Definition differs_in_password_columns (r r' : UserRow) : Prop :=
  exists h by_ at_,
    r' = set_updated_at at_ (set_updated_by by_ (set_password_hash h r)).

Lemma differs_refl (r : UserRow) : differs_in_password_columns r r.
Proof.
  exists (password_hash r), (updated_by r), (updated_at r). by destruct r.
Qed.

Lemma differs_keeps (r r' : UserRow) :
  differs_in_password_columns r r' ->
  tenant_id r' = tenant_id r /\ email r' = email r /\
  deleted_at r' = deleted_at r /\ refreshToken r' = refreshToken r /\
  status r' = status r /\ role r' = role r.
Proof. intros (h & b & a & ->). by destruct r. Qed.

Lemma found_row_view_stable t k (m m' : gmap Z UserRow) :
  (m' !! k = m !! k \/
   exists r r', m !! k = Some r /\ m' !! k = Some r' /\
                differs_in_password_columns r r') ->
  refresh_view (found_row t k m') = refresh_view (found_row t k m).
Proof.
  unfold found_row. intros [->|(r & r' & -> & -> & Hd)]; [reflexivity|].
  apply differs_keeps in Hd as (Ht & He & Hdel & Hrt & _).
  unfold visible_in. rewrite Ht, Hdel.
  destruct (_ && _); [|reflexivity]. simpl. by rewrite He, Hrt.
Qed.

Section ChangePassword.

Context {bcryptjs : BcryptLib}.
Variable request : Request.
Variable e : Env.

Lemma changePassword_db (k : Z) (dto : ChangePasswordDto) (w w' : World) :
  UsersService.changePassword request e k dto w = (Ok tt, w') ->
  exists r r',
    db w !! k = Some r /\ db w' = <[k := r']> (db w) /\
    differs_in_password_columns r r'.
Proof.
  intros (u & Hme & Hf & Hv & saved & Hs)%changePassword_inv.
  apply found_row_Some in Hf as (Hid & Hk & _).
  exists (cols u). rewrite save_run in Hs.
  change (id (password_change request dto u)) with (id u) in Hs.
  rewrite Hid in Hs.
  destruct (bool_decide _) in Hs.
  - injection Hs as _ <-. exists (cols u). simpl.
    split; [exact Hk|]. split; [by rewrite insert_id|apply differs_refl].
  - cbv zeta in Hs. destruct (Repository.violates_unique _ _ _) in Hs; [discriminate|].
    injection Hs as _ <-. eexists. simpl. split; [exact Hk|].
    split; [reflexivity|].
    match goal with
    | |- context [hashPassword ?s ?x] =>
      destruct (hashPassword_frame s x) as [h ->]
    end.
    exists h, (UsersService.getCurrentUserId request), (now e).
    by destruct u as [i []].
Qed.

(** C9. A successful [changePassword] replaces the row of the principal by
    one that differs from it in [password_hash], [updated_by] and
    [updated_at] only, and leaves every other row alone; the stored
    refresh-token fingerprint is the same, and any refresh request has the
    same outcome on the store after the change as on the store before it. *)
Theorem changePassword_keeps_refresh_session (k : Z) (dto : ChangePasswordDto)
    (w w' : World) (bcrypt : BcryptLib) (jwt : JwtLib) (config : Config)
    (request' : Request) (e' : Env) (token : string) :
  UsersService.changePassword (bcryptjs := bcryptjs) request e k dto w
  = (Ok tt, w') ->
  (exists r r',
     db w !! k = Some r /\ db w' !! k = Some r' /\
     differs_in_password_columns r r' /\
     refreshToken r' = refreshToken r) /\
  (forall k', k' <> k -> db w' !! k' = db w !! k') /\
  fst (AuthController.refreshTokens bcrypt jwt config request' e' token w') =
  fst (AuthController.refreshTokens bcrypt jwt config request' e' token w).
Proof.
  intros (r & r' & Hk & Hdb & Hd)%changePassword_db.
  split; [|split].
  - exists r, r'. rewrite Hdb, lookup_insert_eq.
    split; [exact Hk|]. split; [reflexivity|]. split; [exact Hd|].
    apply differs_keeps in Hd as (_ & _ & _ & Hrt & _). exact Hrt.
  - intros k' Hne. rewrite Hdb. by apply lookup_insert_ne.
  - rewrite !controller_refresh_fst.
    destruct (@jwt_decode jwt token) as [c|]; [|reflexivity].
    destruct (sub c =? 0); [reflexivity|].
    rewrite (refresh_outcome_view bcrypt jwt config e'
               (found_row (tenantId request') (sub c) (db w'))
               (found_row (tenantId request') (sub c) (db w))); [reflexivity|].
    apply found_row_view_stable. rewrite Hdb.
    destruct (decide (sub c = k)) as [->|Hne].
    + right. exists r, r'. by rewrite lookup_insert_eq.
    + left. by apply lookup_insert_ne.
Qed.

End ChangePassword.

(* ===================================================================== *)
(** * Refresh sessions *)
(* ===================================================================== *)

Lemma bcrypt_hash_length (B : BcryptLib) data rounds salt :
  String.length (@bcrypt_hash B data rounds salt) = 60%nat.
Proof.
  destruct (decide (String.length (@bcrypt_hash B data rounds salt) = 60%nat))
    as [E|E]; [exact E|].
  pose proof (@bcrypt_compare_malformed B data _ E) as Hf.
  rewrite bcrypt_compare_hash in Hf. discriminate.
Qed.

Lemma bcrypt_hash_truthy (B : BcryptLib) data rounds salt :
  Js.truthy (@bcrypt_hash B data rounds salt) = true.
Proof.
  pose proof (bcrypt_hash_length B data rounds salt) as H.
  destruct (bcrypt_hash data rounds salt); [discriminate|reflexivity].
Qed.

Lemma decoded_token_truthy (J : JwtLib) token c :
  @jwt_decode J token = Some c -> Js.truthy token = true.
Proof.
  destruct token; [|reflexivity]. rewrite jwt_decode_empty. discriminate.
Qed.

(** The signing part of the configuration is complete. *)
Definition configured (config : Config) (secret : string) (a_ttl r_ttl : Z) : Prop :=
  JWT_SECRET config = Some secret /\ Js.truthy secret = true /\
  JWT_ACCESS_TOKEN_EXPIRATION config = Some a_ttl /\
  JWT_REFRESH_TOKEN_EXPIRATION config = Some r_ttl.

Section Sessions.

Variable bcrypt : BcryptLib.
Variable jwt : JwtLib.
Variable config : Config.
Variable request : Request.
Variable secret : string.
Variable a_ttl r_ttl : Z.
Hypothesis Hconfig : configured config secret a_ttl r_ttl.

Lemma signed_configured e k em :
  exists tk,
    signed jwt config e k em = Ok tk /\
    @jwt_decode jwt (AuthTokens.refreshToken tk) =
    Some (mkClaims k em (now e) (now e + r_ttl)).
Proof.
  destruct Hconfig as (Hs & Ht & Ha & Hr).
  unfold signed, sign_pair. rewrite Hs, Ha, Hr.
  destruct (@jwt_sign_configured jwt (mkPayload k em) secret a_ttl (now e) Ht)
    as [a Ea].
  destruct (@jwt_sign_configured jwt (mkPayload k em) secret r_ttl (now e) Ht)
    as [r Er].
  rewrite Ea, Er. eexists. split; [reflexivity|]. simpl.
  apply (jwt_decode_sign _ _ _ _ _ Er).
Qed.

Lemma login_run e (u : User) w :
  AuthService.login bcrypt jwt config request e u w =
  match signed jwt config e (id u) (email u) with
  | Ok tk => (Ok tk, rotated request e (id u)
                       (fingerprint bcrypt e (AuthTokens.refreshToken tk)) w)
  | Throw err => (Throw err, w)
  end.
Proof.
  unfold AuthService.login, bind. rewrite generateTokens_run.
  destruct (signed _ _ _ _ _); [|reflexivity].
  rewrite updateRefreshToken_run. reflexivity.
Qed.

(** Rotation writes the fingerprint of the principal it is asked for, when
    the tenant of the request owns it. *)
Lemma found_row_rotated e k h w (u : User) :
  found_row (tenantId request) k (db w) = Some u ->
  found_row (tenantId request) k (db (rotated request e k h w)) =
  Some (mkUser k (set_updated_at (now e) (set_refreshToken h u))).
Proof.
  intros Hf. pose proof (found_row_Some _ _ _ _ Hf) as (Hid & Hk & Ht & Hd).
  unfold found_row. rewrite lookup_rotated, Hk. simpl.
  rewrite Z.eqb_refl, Ht, Z.eqb_refl. simpl.
  unfold visible_in. simpl. rewrite Ht, Z.eqb_refl, Hd. reflexivity.
Qed.

(** Presenting the token whose fingerprint is stored succeeds at any clock:
    the flow decodes the token and compares fingerprints, and never asks
    whether the token verifies. *)
Lemma refresh_of_stored_token e' token c w (u : User) salt :
  @jwt_decode jwt token = Some c ->
  sub c <> 0 ->
  found_row (tenantId request) (sub c) (db w) = Some u ->
  refreshToken u = Some (@bcrypt_hash bcrypt token 10 salt) ->
  exists tk,
    signed jwt config e' (sub c) (email u) = Ok tk /\
    AuthController.refreshTokens bcrypt jwt config request e' token w =
    (Ok (AuthController.mkTokensResponse "Tokens refreshed successfully" tk),
     rotated request e' (sub c)
             (fingerprint bcrypt e' (AuthTokens.refreshToken tk))
             (after_lookup (tenantId request) (sub c) w)).
Proof.
  intros Hdec Hsub Hf Hrt.
  destruct (signed_configured e' (sub c) (email u)) as (tk & Htk & _).
  exists tk. split; [exact Htk|].
  unfold AuthController.refreshTokens. rewrite Hdec.
  apply Z.eqb_neq in Hsub. rewrite Hsub.
  unfold bind. rewrite refreshTokens_run. cbv zeta.
  unfold refresh_outcome, AuthService.stored_fingerprint.
  rewrite Hf, Hrt, bcrypt_hash_truthy, bcrypt_compare_hash.
  apply found_row_Some in Hf as (Hid & _). rewrite Hid, Htk. reflexivity.
Qed.

(** The store right after the login of [u] at [e]: the fingerprint of the
    refresh token just issued is the stored one. *)
Lemma login_stores_fingerprint e (u u0 : User) w :
  found_row (tenantId request) (id u) (db w) = Some u0 ->
  exists tk,
    AuthService.login bcrypt jwt config request e u w =
    (Ok tk, rotated request e (id u)
              (Some (@bcrypt_hash bcrypt (AuthTokens.refreshToken tk) 10 (rt_salt e)))
              w) /\
    signed jwt config e (id u) (email u) = Ok tk /\
    @jwt_decode jwt (AuthTokens.refreshToken tk) =
    Some (mkClaims (id u) (email u) (now e) (now e + r_ttl)) /\
    found_row (tenantId request) (id u)
      (db (rotated request e (id u)
             (Some (@bcrypt_hash bcrypt (AuthTokens.refreshToken tk) 10 (rt_salt e)))
             w)) =
    Some (mkUser (id u)
            (set_updated_at (now e)
               (set_refreshToken
                  (Some (@bcrypt_hash bcrypt (AuthTokens.refreshToken tk) 10
                                      (rt_salt e))) u0))).
Proof.
  intros Hf.
  destruct (signed_configured e (id u) (email u)) as (tk & Htk & Hdec).
  exists tk. rewrite login_run, Htk. unfold fingerprint.
  rewrite (decoded_token_truthy _ _ _ Hdec).
  repeat split; [exact Hdec|]. by apply found_row_rotated.
Qed.

(** After a login, the refresh token is accepted at every later clock, also
    when its [exp] claim lies in the past and [jwt_verify] rejects it. *)
Lemma refresh_never_expires e e' (u u0 : User) w tk w1 :
  found_row (tenantId request) (id u) (db w) = Some u0 ->
  id u <> 0 ->
  AuthService.login bcrypt jwt config request e u w = (Ok tk, w1) ->
  now e + r_ttl + @clockTolerance jwt <= now e' ->
  @jwt_verify jwt (AuthTokens.refreshToken tk) secret (now e') = None /\
  exists resp w2,
    AuthController.refreshTokens bcrypt jwt config request e'
      (AuthTokens.refreshToken tk) w1 = (Ok resp, w2).
Proof.
  intros Hf Hid Hlogin Hlate.
  destruct (login_stores_fingerprint e u u0 w Hf)
    as (tk' & Hrun & _ & Hdec & Hfound).
  rewrite Hrun in Hlogin. injection Hlogin as <- <-. split.
  - eapply jwt_verify_expired; [exact Hdec|]. simpl. lia.
  - destruct (refresh_of_stored_token e' _ _ _ _ (rt_salt e) Hdec Hid Hfound)
      as (tk2 & _ & Hr); [reflexivity|].
    eauto.
Qed.

(** A refresh in the second of the login signs the very token it was given,
    so that token's fingerprint is stored again and the token is accepted
    once more, at any later clock. *)
Lemma refresh_same_second_replay e e' (u u0 : User) w tk w1 :
  found_row (tenantId request) (id u) (db w) = Some u0 ->
  email u0 = email u ->
  id u <> 0 ->
  AuthService.login bcrypt jwt config request e u w = (Ok tk, w1) ->
  exists w2,
    AuthController.refreshTokens bcrypt jwt config request e
      (AuthTokens.refreshToken tk) w1 =
    (Ok (AuthController.mkTokensResponse "Tokens refreshed successfully" tk),
     w2) /\
    exists resp w3,
      AuthController.refreshTokens bcrypt jwt config request e'
        (AuthTokens.refreshToken tk) w2 = (Ok resp, w3).
Proof.
  intros Hf Hem Hid Hlogin.
  destruct (login_stores_fingerprint e u u0 w Hf)
    as (tk' & Hrun & Hsigned & Hdec & Hfound).
  rewrite Hrun in Hlogin. injection Hlogin as <- <-.
  destruct (refresh_of_stored_token e _ _ _ _ (rt_salt e) Hdec Hid Hfound)
    as (tk2 & Htk2 & Hr); [reflexivity|].
  simpl in Htk2. rewrite Hem, Hsigned in Htk2. injection Htk2 as <-.
  simpl in Hr. eexists. split; [exact Hr|].
  set (w1 := rotated request e (id u) _ w) in *.
  assert (Hfound2 :
    found_row (tenantId request) (id u)
      (db (rotated request e (id u)
             (fingerprint bcrypt e (AuthTokens.refreshToken tk'))
             (after_lookup (tenantId request) (id u) w1))) =
    Some (mkUser (id u)
            (set_updated_at (now e)
               (set_refreshToken
                  (fingerprint bcrypt e (AuthTokens.refreshToken tk'))
                  (mkUser (id u)
                     (set_updated_at (now e)
                        (set_refreshToken
                           (Some (@bcrypt_hash bcrypt
                                    (AuthTokens.refreshToken tk') 10 (rt_salt e)))
                           u0))))))).
  { apply found_row_rotated. exact Hfound. }
  destruct (refresh_of_stored_token e' _ _ _ _ (rt_salt e) Hdec Hid Hfound2)
    as (tk3 & _ & Hr3).
  - simpl. unfold fingerprint.
    by rewrite (decoded_token_truthy _ _ _ Hdec).
  - eauto.
Qed.

(** A token whose fingerprint is not the stored one is refused. *)
Lemma stale_token_rejected e' token c w (u : User) h :
  @jwt_decode jwt token = Some c ->
  sub c <> 0 ->
  found_row (tenantId request) (sub c) (db w) = Some u ->
  refreshToken u = Some h ->
  @bcrypt_compare bcrypt token h = false ->
  AuthController.refreshTokens bcrypt jwt config request e' token w =
  (Throw (UnauthorizedException "Access Denied"),
   after_lookup (tenantId request) (sub c) w).
Proof.
  intros Hdec Hsub Hf Hrt Hcmp.
  unfold AuthController.refreshTokens. rewrite Hdec.
  apply Z.eqb_neq in Hsub. rewrite Hsub.
  unfold bind. rewrite refreshTokens_run. cbv zeta.
  unfold refresh_outcome, AuthService.stored_fingerprint.
  rewrite Hf, Hrt. destruct (Js.truthy h); [|reflexivity].
  rewrite Hcmp. reflexivity.
Qed.

(** After a logout no token is accepted for the principal. *)
Lemma refresh_after_logout e e' token c w (u : User) :
  @jwt_decode jwt token = Some c ->
  found_row (tenantId request) (sub c) (db w) = Some u ->
  fst (AuthController.refreshTokens bcrypt jwt config request e' token
         (snd (AuthService.logout request e (sub c) w))) =
  Throw (if sub c =? 0
         then ReferenceError "UnauthorizedException is not defined"
         else UnauthorizedException "Access Denied").
Proof.
  intros Hdec Hf.
  rewrite controller_refresh_fst, Hdec.
  destruct (sub c =? 0); [reflexivity|].
  unfold AuthService.logout. rewrite usersUpdateRefreshToken_run. cbn [snd].
  rewrite (found_row_rotated e _ None w u Hf). reflexivity.
Qed.

End Sessions.

(* ===================================================================== *)
(** * Requests evaluated on the sample tenant *)
(* ===================================================================== *)

Module Scenario.

(** The administrator of the sample tenant, as the guard of the login
    endpoint puts them on the request. *)
Definition admin : User :=
  mkUser 1 (Sample.row 7 "admin@acme.test" Sample.admin_hash ADMIN ACTIVE None).

(** The administrator logs in at clock 1000; refresh tokens live 604800
    seconds. *)
Definition after_login : Result AuthController.LoginResponse * World :=
  AuthController.login ref_bcrypt ref_jwt Sample.config
                       Sample.anonymous Sample.env admin Sample.world.

Definition t1 : string :=
  match fst after_login with
  | Ok resp => AuthTokens.refreshToken (AuthController.login_tokens resp)
  | Throw _ => EmptyString
  end.

Definition w1 : World := snd after_login.

(** A second past the expiry of [t1]. *)
Definition late : Env := mkEnv 605801 "later-salt" "later-token-salt".

(** Some minutes after the login. *)
Definition later : Env := mkEnv 1500 "later-salt" "later-token-salt".

Definition refresh (e : Env) (token : string) (w : World) :
    Result AuthController.TokensResponse * World :=
  AuthController.refreshTokens ref_bcrypt ref_jwt Sample.config
                               Sample.anonymous e token w.

End Scenario.

(** C2 fails on the code.  The refresh token issued at clock 1000 expires at
    605800; presented at 605801 it does not verify, and the refresh flow
    still answers with a fresh token pair. *)
Theorem expired_refresh_token_accepted :
  @jwt_decode ref_jwt Scenario.t1 =
    Some (mkClaims 1 "admin@acme.test" 1000 605800) /\
  @jwt_verify ref_jwt Scenario.t1 "server-secret" (now Scenario.late) = None /\
  exists resp w2,
    Scenario.refresh Scenario.late Scenario.t1 Scenario.w1 = (Ok resp, w2).
Proof.
  split; [vm_compute; reflexivity|]. split; [vm_compute; reflexivity|].
  eexists _, _. vm_compute. reflexivity.
Qed.

(** C4 fails on the code.  A refresh in the second of the login answers with
    the token it was given, and that token is then accepted again. *)
Theorem rotated_refresh_token_accepted_again :
  exists resp1 w2 resp2 w3,
    Scenario.refresh Sample.env Scenario.t1 Scenario.w1 = (Ok resp1, w2) /\
    AuthTokens.refreshToken (AuthController.tokens resp1) = Scenario.t1 /\
    Scenario.refresh Scenario.later Scenario.t1 w2 = (Ok resp2, w3).
Proof.
  eexists _, _, _, _. split; [vm_compute; reflexivity|].
  split; vm_compute; reflexivity.
Qed.

(* ===================================================================== *)
(** * Lookups by email: login and register *)
(* ===================================================================== *)

(** The principal [findByEmail] answers with. *)
Definition principal_by_email (t : Z) (email_ : string) (m : gmap Z UserRow) : option User :=
  head (Qb.selected [TenantIs t; EmailIs (Js.toLowerCase email_)] m).

Definition after_email_lookup (t : Z) (email_ : string) (w : World) : World :=
  mkWorld (db w)
          ((Read <$> Qb.selected [TenantIs t; EmailIs (Js.toLowerCase email_)]
                                 (db w)) ++ trace w).

Lemma findByEmail_run request email_ w :
  UsersService.findByEmail request email_ w =
  (Ok (principal_by_email (tenantId request) email_ (db w)),
   after_email_lookup (tenantId request) email_ w).
Proof. reflexivity. Qed.

Lemma matches_tenant_email t em (u : User) :
  Qb.matches [TenantIs t; EmailIs em] u = true <->
  tenant_id u = t /\ email u = em /\ deleted_at u = None.
Proof.
  unfold Qb.matches. simpl.
  rewrite !andb_true_iff, Z.eqb_eq, String.eqb_eq, negb_true_iff,
    bool_decide_eq_false.
  destruct (deleted_at u) as [d|]; split.
  - intros [_ H]. exfalso. apply H. by eexists.
  - intros (_ & _ & ?). discriminate.
  - intros [(? & ? & _) _]. auto.
  - intros (? & ? & _). repeat split; auto; by intros [? ?].
Qed.



Section Login.

Variable bcrypt : BcryptLib.
Variable jwt : JwtLib.
Variable config : Config.
Variable request : Request.
Variable e : Env.

(** Whatever stands for the password check that the service lacks. *)
Variable check : string -> option string -> M bool.



End Login.






(* ===================================================================== *)
(** * Register *)
(* ===================================================================== *)

Section Register.

Variable bcryptjs : BcryptLib.
Variable bcrypt : BcryptLib.
Variable jwt : JwtLib.
Variable config : Config.
Variable request : Request.
Variable e : Env.

Lemma create_run (body : Posted CreateUserDto) (w : World) :
  UsersService.create (bcryptjs := bcryptjs) request e body w =
  let w0 := after_email_lookup (tenantId request) (dto_email (declared body)) w in
  match principal_by_email (tenantId request) (dto_email (declared body))
                           (db w) with
  | Some _ =>
    (Throw (ConflictException "User with this email already exists"), w0)
  | None =>
    Repository.persist (bcryptjs := bcryptjs) e (UsersService.new_user body) w0
  end.
Proof.
  unfold UsersService.create, bind. cbv zeta.
  change (Qb.getOne _ w) with
    (UsersService.findByEmail request (dto_email (declared body)) w).
  rewrite findByEmail_run.
  destruct (principal_by_email _ _ _); reflexivity.
Qed.

(** A body with the declared properties only is never stored: the lookup
    finds the email, or the insertion is refused because nothing has set
    the column [tenant_id]. *)
Lemma create_declared_only (dto : CreateUserDto) (w : World) :
  UsersService.create (bcryptjs := bcryptjs) request e
    (mkPosted dto no_undeclared) w =
  (Throw (match principal_by_email (tenantId request) (dto_email dto) (db w) with
          | Some _ => ConflictException "User with this email already exists"
          | None => Repository.not_null
          end),
   after_email_lookup (tenantId request) (dto_email dto) w).
Proof.
  rewrite create_run. cbv zeta. cbn [declared].
  destruct (principal_by_email _ _ _); [reflexivity|].
  rewrite persist_run. reflexivity.
Qed.


Lemma register_run (dto : CreateUserDto) (w : World) :
  AuthService.register bcryptjs bcrypt jwt config request e dto w =
  (Throw (ConflictException
            (match principal_by_email (tenantId request) (dto_email dto) (db w) with
             | Some _ => "User with this email already exists"
             | None => "Registration failed"
             end)),
   after_email_lookup (tenantId request) (dto_email dto) w).
Proof.
  unfold AuthService.register, try_catch, bind.
  rewrite create_declared_only.
  destruct (principal_by_email _ _ _); reflexivity.
Qed.


End Register.

Definition new_user : CreateUserDto :=
  mkCreateUserDto "new@acme.test" "Passw0rd!" "New" "User"
                  None None None None None None None None None None None.


Definition duplicate_user : CreateUserDto :=
  mkCreateUserDto "Bob@ACME.test" "Passw0rd!" "Bob" "Again"
                  None None None None None None None None None None None.


Example duplicate_registration_conflicts :
  fst (AuthService.register ref_bcrypt ref_bcrypt ref_jwt Sample.config
         Sample.anonymous Sample.env duplicate_user Sample.world) =
  Throw (ConflictException "User with this email already exists").
Proof. vm_compute. reflexivity. Qed.

(* ===================================================================== *)
(** * Tenant isolation of UsersService *)
(* ===================================================================== *)

(** The operations of the service a request can reach. *)
Inductive Operation : Type :=
| OpCreate (createUserDto : Posted CreateUserDto)
| OpFindAll (queryDto : UserQueryDto)
| OpFindOne (k : Z)
| OpFindByEmail (email_ : string)
| OpUpdate (k : Z) (dto : UpdateUserDto)
| OpUpdateProfile (k : Z) (dto : UpdateUserDto)
| OpChangePassword (k : Z) (dto : ChangePasswordDto)
| OpRemove (k : Z)
| OpActivate (k : Z)
| OpDeactivate (k : Z)
| OpUpdateLastLogin (k : Z)
| OpBulkActivate (ids : list Z)
| OpBulkDeactivate (ids : list Z).

(** The operations that spread a posted body into an entity. *)
Definition takes_body (op : Operation) : bool :=
  match op with
  | OpCreate _ | OpUpdate _ _ | OpUpdateProfile _ _ => true
  | _ => false
  end.

(** The store after an operation (whether it returned or threw). *)
Definition run {bcryptjs : BcryptLib} (request : Request) (e : Env)
    (op : Operation) (w : World) : World :=
  match op with
  | OpCreate createUserDto => snd (UsersService.create request e createUserDto w)
  | OpFindAll queryDto => snd (UsersService.findAll request queryDto w)
  | OpFindOne k => snd (UsersService.findOne request k w)
  | OpFindByEmail email_ => snd (UsersService.findByEmail request email_ w)
  | OpUpdate k dto => snd (UsersService.update request e k dto w)
  | OpUpdateProfile k dto => snd (UsersService.updateProfile request e k dto w)
  | OpChangePassword k dto => snd (UsersService.changePassword request e k dto w)
  | OpRemove k => snd (UsersService.remove request e k w)
  | OpActivate k => snd (UsersService.activate request e k w)
  | OpDeactivate k => snd (UsersService.deactivate request e k w)
  | OpUpdateLastLogin k => snd (UsersService.updateLastLogin request e k w)
  | OpBulkActivate ids => snd (UsersService.bulkActivate request e ids w)
  | OpBulkDeactivate ids => snd (UsersService.bulkDeactivate request e ids w)
  end.

(** From [w] to [w'] only rows of tenant [t] were touched: the rows of the
    other tenants are the same in both tables, and every access logged in
    between is to a row of tenant [t]. *)
Definition tenant_scoped (t : Z) (w w' : World) : Prop :=
  (forall k r, tenant_id r <> t ->
               (db w' !! k = Some r <-> db w !! k = Some r)) /\
  exists l, trace w' = l ++ trace w /\
            forall a, a ∈ l -> tenant_id (accessed a) = t.

Lemma tenant_scoped_refl t w : tenant_scoped t w w.
Proof.
  split; [tauto|]. exists []. split; [reflexivity|].
  intros a Ha. by apply elem_of_nil in Ha.
Qed.

Lemma tenant_scoped_trans t w1 w2 w3 :
  tenant_scoped t w1 w2 -> tenant_scoped t w2 w3 -> tenant_scoped t w1 w3.
Proof.
  intros [F1 (l1 & T1 & A1)] [F2 (l2 & T2 & A2)]. split.
  - intros k r Hr. rewrite F2, F1 by exact Hr. tauto.
  - exists (l2 ++ l1). split; [by rewrite T2, T1, app_assoc|].
    intros a [Ha|Ha]%elem_of_app; auto.
Qed.

(** A [SELECT] whose clause starts with the tenant predicate. *)
Lemma scoped_select t cs w :
  tenant_scoped t w
    (mkWorld (db w) ((Read <$> Qb.selected (TenantIs t :: cs) (db w)) ++ trace w)).
Proof.
  split; [simpl; tauto|]. eexists. split; [reflexivity|].
  intros a (u & -> & [_ Hm]%elem_of_selected)%list_elem_of_fmap. simpl.
  eapply matches_tenant. exact Hm.
Qed.

Lemma scoped_lookup t k w : tenant_scoped t w (after_lookup t k w).
Proof.
  unfold after_lookup. rewrite <- selected_found_row. apply scoped_select.
Qed.

(** Writing a row of the tenant under a key that is free or holds a row of
    the tenant. *)
Lemma scoped_write t k (r : UserRow) w :
  tenant_id r = t ->
  (forall r0, db w !! k = Some r0 -> tenant_id r0 = t) ->
  tenant_scoped t w
    (mkWorld (<[k := r]> (db w)) (Write (mkUser k r) :: trace w)).
Proof.
  intros Hr Hold. split.
  - intros k0 r0 Hne. simpl. destruct (decide (k0 = k)) as [->|Hk].
    + rewrite lookup_insert_eq. split.
      * intros [= <-]. contradiction.
      * intros H0. specialize (Hold _ H0). contradiction.
    + by rewrite lookup_insert_ne.
  - exists [Write (mkUser k r)]. split; [reflexivity|].
    intros a ->%list_elem_of_singleton. exact Hr.
Qed.

Lemma hashPassword_tenant {bcryptjs : BcryptLib} salt (r : UserRow) :
  tenant_id (hashPassword salt r) = tenant_id r.
Proof. destruct (hashPassword_frame salt r) as [h ->]. reflexivity. Qed.

(** [save] of an entity of the tenant whose key holds a row of the tenant. *)
Lemma scoped_save {bcryptjs : BcryptLib} t e (u : User) w :
  tenant_id u = t ->
  (forall r0, db w !! id u = Some r0 -> tenant_id r0 = t) ->
  tenant_scoped t w (snd (Repository.save e u w)).
Proof.
  intros Hu Hold. rewrite save_run.
  destruct (bool_decide _); [apply tenant_scoped_refl|]. cbv zeta.
  destruct (Repository.violates_unique _ _ _); [apply tenant_scoped_refl|]. simpl.
  apply scoped_write; [|exact Hold]. simpl. by rewrite hashPassword_tenant.
Qed.

(** [UPDATE ... WHERE id .. AND tenant = t] with a change that keeps the
    tenant column. *)
Lemma updated_rows_frame t e c f (m : gmap Z UserRow) k r :
  (forall r0, Repository.tenant_selected (Repository.w_tenant c) r0 = true ->
              tenant_id r0 = t) ->
  (forall r0, tenant_id (f r0) = tenant_id r0) ->
  tenant_id r <> t ->
  Repository.updated_rows e c f m !! k = Some r <-> m !! k = Some r.
Proof.
  intros Hc Hf Hne. rewrite lookup_updated_rows.
  destruct (m !! k) as [r1|]; simpl; [|tauto].
  destruct (Repository.criteria_selects c k r1) eqn:Hsel; [|tauto].
  apply andb_true_iff in Hsel as [_ Ht]. apply Hc in Ht.
  split; intros [= <-]; exfalso; apply Hne.
  - simpl. rewrite Hf. congruence.
  - congruence.
Qed.

Lemma scoped_update_where t e c f w :
  (forall r0, Repository.tenant_selected (Repository.w_tenant c) r0 = true ->
              tenant_id r0 = t) ->
  (forall r, tenant_id (f r) = tenant_id r) ->
  tenant_scoped t w (snd (Repository.update e c f w)).
Proof.
  intros Hc Hf.
  assert (Hrun : tenant_scoped t w
            (mkWorld (Repository.updated_rows e c f (db w))
               ((Write <$> filter (fun u => Repository.criteria_selects c (id u) u = true)
                                  (entities (Repository.updated_rows e c f (db w))))
                ++ trace w))).
  { split.
    - intros k r Hne. simpl. by apply (updated_rows_frame t).
    - eexists. split; [reflexivity|].
      intros a (u & -> & [Hsel _]%list_elem_of_filter)%list_elem_of_fmap.
      apply andb_true_iff in Hsel as [_ Ht]. apply Hc in Ht.
      simpl. exact Ht. }
  unfold Repository.update.
  destruct (Repository.w_id c); [exact Hrun|exact Hrun|apply tenant_scoped_refl].
Qed.

Section Isolation.

Context {bcryptjs : BcryptLib}.
Variable request : Request.
Variable e : Env.

Local Abbreviation t := (tenantId request).

(** [save] of a changed copy of the principal a lookup has just found. *)
Lemma scoped_save_found k (u u' : User) w :
  found_row t k (db w) = Some u ->
  id u' = k -> tenant_id u' = t ->
  tenant_scoped t w (snd (Repository.save e u' (after_lookup t k w))).
Proof.
  intros Hf Hid Ht.
  eapply tenant_scoped_trans; [apply scoped_lookup|].
  apply scoped_save; [exact Ht|]. rewrite Hid. simpl.
  apply found_row_Some in Hf as (_ & Hk & Hut & _).
  intros r0. rewrite Hk. by intros [= <-].
Qed.

Lemma findAll_scoped queryDto w :
  tenant_scoped t w (snd (UsersService.findAll request queryDto w)).
Proof.
  destruct (findAll_run request queryDto w) as (q & cs & Hq & ->). simpl.
  rewrite Hq.
  eapply tenant_scoped_trans; [apply scoped_select|].
  apply (scoped_select t cs
           (mkWorld (db w)
                    ((Read <$> Qb.selected (TenantIs t :: cs) (db w)) ++ trace w))).
Qed.

Lemma findOne_scoped k w :
  tenant_scoped t w (snd (UsersService.findOne request k w)).
Proof. rewrite findOne_run. apply scoped_lookup. Qed.

Lemma findByEmail_scoped email_ w :
  tenant_scoped t w (snd (UsersService.findByEmail request email_ w)).
Proof. rewrite findByEmail_run. apply scoped_select. Qed.

Lemma changePassword_scoped k dto w :
  tenant_scoped t w (snd (UsersService.changePassword request e k dto w)).
Proof.
  unfold UsersService.changePassword.
  destruct (negb _); [apply tenant_scoped_refl|].
  unfold bind. rewrite findOne_run.
  destruct (found_row t k (db w)) as [u|] eqn:Hf; [|apply scoped_lookup].
  destruct (negb _); [apply scoped_lookup|].
  pose proof (found_row_Some _ _ _ _ Hf) as (Hid & _ & Hut & _).
  pose proof (scoped_save_found k u (password_change request dto u) w Hf Hid Hut)
    as Hs.
  unfold password_change in Hs.
  destruct (Repository.save e _ _) as [[saved|err] w2]; exact Hs.
Qed.

Lemma remove_scoped k w :
  tenant_scoped t w (snd (UsersService.remove request e k w)).
Proof.
  unfold UsersService.remove, bind. rewrite findOne_run.
  destruct (found_row t k (db w)) as [u|] eqn:Hf; [|apply scoped_lookup].
  destruct (bool_decide _); [apply scoped_lookup|].
  apply found_row_Some in Hf as (_ & Hk & Hut & _).
  unfold Repository.softDelete, bind, get_db, put_db, log, ret. simpl. rewrite Hk. simpl.
  eapply tenant_scoped_trans; [apply scoped_lookup|].
  apply (scoped_write t k (set_updated_at (now e) (set_deleted_at (Some (now e)) u))
           (after_lookup t k w)).
  - exact Hut.
  - simpl. rewrite Hk. by intros r0 [= <-].
Qed.

Lemma activate_scoped k w :
  tenant_scoped t w (snd (UsersService.activate request e k w)).
Proof.
  unfold UsersService.activate, bind. rewrite findOne_run.
  destruct (found_row t k (db w)) as [u|] eqn:Hf; [|apply scoped_lookup].
  pose proof (found_row_Some _ _ _ _ Hf) as (Hid & _ & Hut & _).
  apply (scoped_save_found k u); [exact Hf|exact Hid|exact Hut].
Qed.

Lemma deactivate_scoped k w :
  tenant_scoped t w (snd (UsersService.deactivate request e k w)).
Proof.
  unfold UsersService.deactivate, bind. rewrite findOne_run.
  destruct (found_row t k (db w)) as [u|] eqn:Hf; [|apply scoped_lookup].
  destruct (bool_decide _); [apply scoped_lookup|].
  pose proof (found_row_Some _ _ _ _ Hf) as (Hid & _ & Hut & _).
  apply (scoped_save_found k u); [exact Hf|exact Hid|exact Hut].
Qed.

Lemma bulkDeactivate_scoped ids w :
  tenant_scoped t w (snd (UsersService.bulkDeactivate request e ids w)).
Proof.
  unfold UsersService.bulkDeactivate.
  destruct (_ <? _)%nat; [|apply tenant_scoped_refl].
  apply scoped_update_where; [discriminate|]. by intros [].
Qed.

(** The operations that take no entity body touch rows of the request's
    tenant only: the rows of every other tenant are the same before and
    after, and every row a statement selected or wrote belongs to the
    request's tenant. *)
Lemma operations_without_body_are_scoped (op : Operation) (w : World) :
  takes_body op = false ->
  tenant_scoped (tenantId request) w (run request e op w).
Proof.
  destruct op; try discriminate; intros _; unfold run.
  - apply findAll_scoped.
  - apply findOne_scoped.
  - apply findByEmail_scoped.
  - apply changePassword_scoped.
  - apply remove_scoped.
  - apply activate_scoped.
  - apply deactivate_scoped.
  - apply scoped_update_where; [discriminate|]. by intros [].
  - apply scoped_update_where; [discriminate|]. by intros [].
  - apply bulkDeactivate_scoped.
Qed.

End Isolation.

(** The body [{ tenant_id: 8 }]. *)
Definition to_tenant_8 : UpdateUserDto :=
  mkUpdateUserDto
    (mkUndeclared None (Some 8) None None None None None None None None None None)
    None None None None None None None None None None None None None None.

(** C1 fails on the code.  The administrator of tenant 7 updates the
    principal 2 of their tenant with the body [{ tenant_id: 8 }];
    [Object.assign] copies the property of the body into the entity and
    [save] writes it: the one statement the call writes with is to a row
    whose [tenant_id] is 8, not the tenant of the request, and that row is
    what the table then holds under the key 2. *)
Theorem update_writes_posted_tenant_id :
  tenantId Sample.as_admin = 7 /\
  (exists r0, db Sample.world !! 2 = Some r0 /\ tenant_id r0 = 7) /\
  exists res w' r,
    UsersService.update (bcryptjs := ref_bcrypt) Sample.as_admin Sample.env 2
      to_tenant_8 Sample.world = (Ok res, w') /\
    db w' !! 2 = Some r /\ tenant_id r = 8 /\
    head (trace w') = Some (Write (mkUser 2 r)) /\
    ~ tenant_scoped (tenantId Sample.as_admin) Sample.world w'.
Proof.
  assert (Hnot : forall w' r, db w' !! 2 = Some r -> tenant_id r = 8 ->
                   ~ tenant_scoped 7 Sample.world w').
  { intros w' r Hr Ht [Hframe _].
    apply (Hframe 2 r) in Hr; [|lia].
    vm_compute in Hr. injection Hr as <-. discriminate Ht. }
  split; [reflexivity|]. split.
  - eexists. split; [vm_compute; reflexivity|reflexivity].
  - eexists _, _, _. split; [vm_compute; reflexivity|].
    split; [vm_compute; reflexivity|]. split; [reflexivity|].
    split; [vm_compute; reflexivity|].
    eapply Hnot; [vm_compute; reflexivity|reflexivity].
Qed.

(* ===================================================================== *)
(** * The session survives a password change, on the sample tenant *)
(* ===================================================================== *)

Definition admin_password_change : ChangePasswordDto :=
  mkChangePasswordDto "Adm1n!pass" "N3w!Passw0rd".

(** The store after the signed-in administrator changes their password. *)
Definition after_password_change : World :=
  snd (UsersService.changePassword (bcryptjs := ref_bcrypt) Sample.as_admin
         Scenario.later 1 admin_password_change Scenario.w1).

Lemma changePassword_keeps_refresh_session_witness :
  (exists r r',
     db Scenario.w1 !! 1 = Some r /\ db after_password_change !! 1 = Some r' /\
     differs_in_password_columns r r' /\
     refreshToken r' = refreshToken r) /\
  (forall k', k' <> 1 ->
              db after_password_change !! k' = db Scenario.w1 !! k') /\
  fst (AuthController.refreshTokens ref_bcrypt ref_jwt Sample.config
         Sample.anonymous Scenario.later Scenario.t1 after_password_change) =
  fst (AuthController.refreshTokens ref_bcrypt ref_jwt Sample.config
         Sample.anonymous Scenario.later Scenario.t1 Scenario.w1).
Proof.
  apply (changePassword_keeps_refresh_session (bcryptjs := ref_bcrypt)
           Sample.as_admin Scenario.later 1 admin_password_change
           Scenario.w1 after_password_change ref_bcrypt ref_jwt Sample.config
           Sample.anonymous Scenario.later Scenario.t1).
  vm_compute. reflexivity.
Defined.

Example refresh_after_password_change :
  (exists r, db after_password_change !! 1 = Some r /\
             password_hash r =
             Reference.ref_hash "N3w!Passw0rd" 12 "later-salt") /\
  exists resp,
    fst (Scenario.refresh Scenario.later Scenario.t1 after_password_change) =
    Ok resp.
Proof.
  split.
  - eexists. split; vm_compute; reflexivity.
  - eexists. vm_compute. reflexivity.
Qed.

(* ===================================================================== *)
(** * The general statements, on the sample tenant *)
(* ===================================================================== *)

Lemma sample_configured :
  configured Sample.config "server-secret" 900 604800.
Proof. repeat split; reflexivity. Qed.

(** [refresh_never_expires] for the administrator's login at clock 1000 and
    a refresh a second after the token's expiry. *)
Example sample_refresh_never_expires :
  forall tk w1,
    AuthService.login ref_bcrypt ref_jwt Sample.config Sample.anonymous
      Sample.env Scenario.admin Sample.world = (Ok tk, w1) ->
    @jwt_verify ref_jwt (AuthTokens.refreshToken tk) "server-secret" 605801
    = None /\
    exists resp w2,
      AuthController.refreshTokens ref_bcrypt ref_jwt Sample.config
        Sample.anonymous Scenario.late (AuthTokens.refreshToken tk) w1
      = (Ok resp, w2).
Proof.
  intros tk w1 Hlogin.
  apply (refresh_never_expires ref_bcrypt ref_jwt Sample.config
           Sample.anonymous "server-secret" 900 604800 sample_configured
           Sample.env Scenario.late Scenario.admin Scenario.admin Sample.world tk w1).
  - vm_compute. reflexivity.
  - discriminate.
  - exact Hlogin.
  - vm_compute. intros H. discriminate H.
Qed.

(** [refresh_same_second_replay] for the same login. *)
Example sample_refresh_same_second_replay :
  forall tk w1,
    AuthService.login ref_bcrypt ref_jwt Sample.config Sample.anonymous
      Sample.env Scenario.admin Sample.world = (Ok tk, w1) ->
    exists w2,
      AuthController.refreshTokens ref_bcrypt ref_jwt Sample.config
        Sample.anonymous Sample.env (AuthTokens.refreshToken tk) w1 =
      (Ok (AuthController.mkTokensResponse "Tokens refreshed successfully" tk),
       w2) /\
      exists resp w3,
        AuthController.refreshTokens ref_bcrypt ref_jwt Sample.config
          Sample.anonymous Scenario.later (AuthTokens.refreshToken tk) w2
        = (Ok resp, w3).
Proof.
  intros tk w1 Hlogin.
  apply (refresh_same_second_replay ref_bcrypt ref_jwt Sample.config
           Sample.anonymous "server-secret" 900 604800 sample_configured
           Sample.env Scenario.later Scenario.admin Scenario.admin Sample.world
           tk w1).
  - vm_compute. reflexivity.
  - reflexivity.
  - discriminate.
  - exact Hlogin.
Qed.

(** The page an administrator of the sample tenant gets: the two principals
    of the tenant, each with its stored digest. *)
Example sample_findAll_page :
  exists res,
    fst (UsersService.findAll Sample.as_admin
           (mkUserQueryDto None None None None None None (Some "email") (Some ASC))
           Sample.world) = Ok res /\
    (fun item => (item_id item, item_password_hash item)) <$> data res =
    [(1, Sample.admin_hash);
     (2, Reference.ref_hash "B0b!passw" 12 "second-salt")] /\
    total res = 2 /\ total_pages res = Js.Num 1 /\
    has_next res = false /\ has_prev res = false.
Proof.
  eexists. split; [vm_compute; reflexivity|].
  repeat split; vm_compute; reflexivity.
Qed.

Lemma Ok_inj {A} (a b : A) : Ok a = Ok b -> a = b.
Proof. by intros [= ->]. Qed.

(* ===================================================================== *)
(** * UsersService.update, case by case *)
(* ===================================================================== *)

(** The end of [update]: the assigned object is saved and returned. *)
Definition update_finish {bcryptjs : BcryptLib} (request : Request) (e : Env)
    (u : User) (dto : UpdateUserDto) (w : World) :
    Result UsersService.UpdatedUser * World :=
  match Repository.persist e (UsersService.assign request u dto) w with
  | (Ok stored, w') =>
    (Ok (UsersService.mkUpdatedUser stored (Js.toLowerCase <$> upd_email dto)
           (UsersService.getCurrentUserId request)), w')
  | (Throw err, w') => (Throw err, w')
  end.

Lemma update_run {bcryptjs : BcryptLib} request e k (dto : UpdateUserDto) w :
  UsersService.update request e k dto w =
  let t := tenantId request in
  let w0 := after_lookup t k w in
  match found_row t k (db w) with
  | None => (Throw (NotFoundException "User not found"), w0)
  | Some u =>
    match UsersService.email_changes dto u with
    | Some m =>
      match principal_by_email t m (db w) with
      | Some _ =>
        (Throw (ConflictException "User with this email already exists"),
         after_email_lookup t m w0)
      | None => update_finish request e u dto (after_email_lookup t m w0)
      end
    | None => update_finish request e u dto w0
    end
  end.
Proof.
  unfold UsersService.update, bind. rewrite findOne_run. cbv zeta.
  destruct (found_row _ k (db w)) as [u|]; [|reflexivity].
  unfold update_finish.
  destruct (UsersService.email_changes dto u) as [m|].
  - rewrite findByEmail_run.
    destruct (principal_by_email _ m _); [reflexivity|].
    unfold ret. cbv beta iota.
    destruct (Repository.persist e _ _) as [[x|err] w1]; reflexivity.
  - unfold ret. cbv beta iota.
    destruct (Repository.persist e _ _) as [[x|err] w1]; reflexivity.
Qed.

(* ===================================================================== *)
(** * How the operations change the table *)
(* ===================================================================== *)

(** The row went through the password hook on its way to the table. *)
Definition hooked {bcryptjs : BcryptLib} (r : UserRow) : Prop :=
  exists salt r0, password_hash r = password_hash (hashPassword salt r0).

(** The change leaves the columns that identify a principal and its
    password alone. *)
Definition keeps_identity (f : UserRow -> UserRow) : Prop :=
  forall r, tenant_id (f r) = tenant_id r /\ email (f r) = email r /\
            password_hash (f r) = password_hash r /\
            deleted_at (f r) = deleted_at r.

(** The four ways an operation of the service leaves the table: untouched;
    one row written by [save] (after the hook, and past the unique index);
    one row marked deleted; one [UPDATE] that keeps identities. *)
Inductive table_step {bcryptjs : BcryptLib} (e : Env)
    (m m' : gmap Z UserRow) : Prop :=
| step_same : m' = m -> table_step e m m'
| step_write (k : Z) (r : UserRow) :
    Repository.violates_unique m k r = false -> hooked r ->
    m' = <[k := r]> m -> table_step e m m'
| step_delete (k : Z) (r : UserRow) :
    m !! k = Some r ->
    m' = <[k := set_updated_at (now e) (set_deleted_at (Some (now e)) r)]> m ->
    table_step e m m'
| step_update (c : Repository.Criteria) (f : UserRow -> UserRow) :
    keeps_identity f ->
    m' = Repository.updated_rows e c f m -> table_step e m m'.

Section TableSteps.

Context {bcryptjs : BcryptLib}.
Variable request : Request.
Variable e : Env.

Lemma save_table_step (u : User) (w : World) :
  table_step e (db w) (db (snd (Repository.save e u w))).
Proof.
  rewrite save_run. destruct (bool_decide _); [by apply step_same|].
  cbv zeta. destruct (Repository.violates_unique _ _ _) eqn:Hv;
    [by apply step_same|].
  eapply step_write; [exact Hv| |reflexivity].
  exists (pw_salt e), u. reflexivity.
Qed.

Lemma update_where_table_step c f (w : World) :
  keeps_identity f ->
  table_step e (db w) (db (snd (Repository.update e c f w))).
Proof.
  intros Hf. unfold Repository.update.
  destruct (Repository.w_id c); try (by apply step_same);
    by eapply step_update.
Qed.

(** [persist] of an object whose [password_hash] is set. *)
Lemma persist_table_step (p : Partial) (w : World) :
  obj_password_hash p <> None ->
  table_step e (db w) (db (snd (Repository.persist e p w))).
Proof.
  intros Hpw.
  destruct (persist_cases e p w)
    as [(err & -> & _)|[(k & r & -> & _)|(k & r & -> & Hv & Hrow)]];
    [by apply step_same|by apply step_same|].
  eapply step_write; [exact Hv| |reflexivity].
  destruct Hrow as [(r0 & _ & _ & ->)|(draft & _ & _ & ->)].
  - exists (pw_salt e), (merge p r0). unfold updated_row.
    destruct (obj_password_hash p); [|contradiction].
    by destruct (_ =? _).
  - by exists (pw_salt e), draft.
Qed.

Lemma update_table_step k (dto : UpdateUserDto) (w : World) :
  table_step e (db w) (db (snd (UsersService.update request e k dto w))).
Proof.
  rewrite update_run. cbv zeta.
  destruct (found_row _ k (db w)) as [u|]; [|by apply step_same].
  assert (Hp : forall w0, db w0 = db w ->
            table_step e (db w) (db (snd (update_finish request e u dto w0)))).
  { intros w0 Hdb. unfold update_finish.
    pose proof (persist_table_step (UsersService.assign request u dto) w0) as Hs.
    rewrite Hdb in Hs.
    destruct (Repository.persist e _ w0) as [[x|err] w1]; apply Hs; discriminate. }
  destruct (UsersService.email_changes dto u) as [m|].
  - destruct (principal_by_email _ m _); [by apply step_same|]. by apply Hp.
  - by apply Hp.
Qed.

Lemma run_table_step (op : Operation) (w : World) :
  table_step e (db w) (db (run request e op w)).
Proof.
  destruct op; unfold run.
  - (* create *)
    rewrite create_run. cbv zeta.
    destruct (principal_by_email _ _ _); [by apply step_same|].
    apply (persist_table_step _ (after_email_lookup _ _ w)). discriminate.
  - (* findAll *)
    destruct (findAll_run request queryDto w) as (q & cs & _ & ->).
    by apply step_same.
  - rewrite findOne_run. by apply step_same.
  - rewrite findByEmail_run. by apply step_same.
  - apply update_table_step.
  - (* updateProfile *)
    unfold UsersService.updateProfile.
    destruct (_ && _); [by apply step_same|apply update_table_step].
  - (* changePassword *)
    unfold UsersService.changePassword.
    destruct (negb _); [by apply step_same|].
    unfold bind. rewrite findOne_run.
    destruct (found_row _ k (db w)) as [u|]; [|by apply step_same].
    destruct (negb _); [by apply step_same|].
    match goal with
    | |- context [Repository.save e ?x ?w0] =>
      pose proof (save_table_step x w0) as Hs;
      destruct (Repository.save e x w0) as [[?|?] ?]; exact Hs
    end.
  - (* remove *)
    unfold UsersService.remove, bind. rewrite findOne_run.
    destruct (found_row _ k (db w)) as [u|] eqn:Hf; [|by apply step_same].
    destruct (bool_decide _); [by apply step_same|].
    apply found_row_Some in Hf as (_ & Hk & _).
    unfold Repository.softDelete, bind, get_db, put_db, log, ret. simpl.
    rewrite Hk. simpl. by eapply step_delete.
  - (* activate *)
    unfold UsersService.activate, bind. rewrite findOne_run.
    destruct (found_row _ k (db w)) as [u|]; [|by apply step_same].
    apply (save_table_step _ (after_lookup (tenantId request) k w)).
  - (* deactivate *)
    unfold UsersService.deactivate, bind. rewrite findOne_run.
    destruct (found_row _ k (db w)) as [u|]; [|by apply step_same].
    destruct (bool_decide _); [by apply step_same|].
    apply (save_table_step _ (after_lookup (tenantId request) k w)).
  - apply update_where_table_step. by intros [].
  - apply update_where_table_step. by intros [].
  - unfold UsersService.bulkDeactivate.
    destruct (_ <? _)%nat; [|by apply step_same].
    apply update_where_table_step. by intros [].
Qed.

End TableSteps.

(* ===================================================================== *)
(** * Invariants of the table *)
(* ===================================================================== *)

(** Every stored [password_hash] is empty or carries the version tag the
    hook takes for "already hashed". *)
Definition password_column_tagged (m : gmap Z UserRow) : Prop :=
  forall k r, m !! k = Some r ->
              password_hash r = EmptyString \/
              Js.startsWith (password_hash r) "$2a$" = true.

Lemma hooked_tagged {bcryptjs : BcryptLib} (r : UserRow) :
  emits_2a bcryptjs -> hooked r ->
  password_hash r = EmptyString \/
  Js.startsWith (password_hash r) "$2a$" = true.
Proof.
  intros Hpre (salt & r0 & ->). unfold hashPassword.
  destruct (Js.truthy (password_hash r0)) eqn:Ht; simpl.
  - destruct (Js.startsWith (password_hash r0) "$2a$") eqn:Hp; simpl.
    + by right.
    + right. apply Hpre.
  - left. by destruct (password_hash r0).
Qed.

(** A row of the table after a step stems from a row with the same tenant,
    email, password and deletion mark, unless the step wrote it. *)
Lemma table_step_origin {bcryptjs : BcryptLib} e (m m' : gmap Z UserRow) k r :
  table_step e m m' -> m' !! k = Some r ->
  (exists r0, m !! k = Some r0 /\ tenant_id r0 = tenant_id r /\
              email r0 = email r /\ password_hash r0 = password_hash r) \/
  (Repository.violates_unique m k r = false /\ hooked r /\ m' = <[k := r]> m).
Proof.
  intros [->|k0 r0 Hv Hh ->|k0 r0 Hk0 ->|c f Hf ->] Hk.
  - left. eauto.
  - destruct (decide (k = k0)) as [->|Hne].
    + rewrite lookup_insert_eq in Hk. injection Hk as ->. by right.
    + rewrite lookup_insert_ne in Hk by done. left. eauto.
  - destruct (decide (k = k0)) as [->|Hne].
    + rewrite lookup_insert_eq in Hk. injection Hk as <-. left.
      exists r0. by destruct r0.
    + rewrite lookup_insert_ne in Hk by done. left. eauto.
  - rewrite lookup_updated_rows in Hk.
    destruct (m !! k) as [r1|]; [|discriminate]. injection Hk as <-.
    left. exists r1. split; [reflexivity|].
    destruct (Repository.criteria_selects c k r1); [|auto].
    destruct (Hf r1) as (? & ? & ? & _). by destruct (f r1).
Qed.

Lemma table_step_tagged {bcryptjs : BcryptLib} e (m m' : gmap Z UserRow) :
  emits_2a bcryptjs ->
  table_step e m m' -> password_column_tagged m -> password_column_tagged m'.
Proof.
  intros Hpre Hstep Hw k r Hk.
  destruct (table_step_origin e m m' k r Hstep Hk)
    as [(r0 & Hr0 & _ & _ & Hp)|(_ & Hh & _)].
  - rewrite <- Hp. eapply Hw. exact Hr0.
  - by apply hooked_tagged.
Qed.

(* ===================================================================== *)
(** * The whole API, request after request *)
(* ===================================================================== *)

(** A call of the API: an operation of [UsersService], or an endpoint of
    [AuthController]; the login handler is called with the user its guard
    has admitted. *)
Inductive ApiCall : Type :=
| CallUsers (op : Operation)
| CallRegister (dto : CreateUserDto)
| CallLogin (req_user : User)
| CallRefresh (token : string)
| CallLogout (userId : Z).

Section Api.

Variable bcryptjs : BcryptLib.
Variable bcrypt : BcryptLib.
Variable jwt : JwtLib.
Variable config : Config.

(** The store after one call, served for [request] at [e]. *)
Definition serve (request : Request) (e : Env) (c : ApiCall) (w : World) : World :=
  match c with
  | CallUsers op => run (bcryptjs := bcryptjs) request e op w
  | CallRegister dto =>
    snd (AuthController.register bcryptjs bcrypt jwt config request e dto w)
  | CallLogin req_user =>
    snd (AuthController.login bcrypt jwt config request e req_user w)
  | CallRefresh token =>
    snd (AuthController.refreshTokens bcrypt jwt config request e token w)
  | CallLogout userId => snd (AuthController.logout request e userId w)
  end.

(** The store after a sequence of calls, each with its own request context
    and clock. *)
Definition serve_all (calls : list (Request * Env * ApiCall)) (w : World) : World :=
  foldl (fun w0 '(request, e, c) => serve request e c w0) w calls.

Lemma rotated_step request e k h w :
  table_step (bcryptjs := bcryptjs) e (db w) (db (rotated request e k h w)).
Proof. eapply step_update; [|reflexivity]. by intros []. Qed.

Lemma login_steps request e (u : User) w :
  table_step (bcryptjs := bcryptjs) e (db w)
    (db (snd (AuthService.login bcrypt jwt config request e u w))).
Proof.
  rewrite login_run. destruct (signed _ _ _ _ _); [|by apply step_same].
  apply rotated_step.
Qed.

Lemma serve_steps request e c w :
  rtc (table_step (bcryptjs := bcryptjs) e) (db w) (db (serve request e c w)).
Proof.
  destruct c as [op|dto|dto|token|userId]; unfold serve.
  - apply rtc_once, run_table_step.
  - (* register *)
    unfold AuthController.register, bind.
    rewrite register_run. apply rtc_refl.
  - (* login *)
    unfold AuthController.login, bind.
    pose proof (login_steps request e dto w) as Hs.
    destruct (AuthService.login _ _ _ _ _ _ _) as [[tk|err] w1];
      apply rtc_once; exact Hs.
  - (* refresh *)
    unfold AuthController.refreshTokens.
    destruct (@jwt_decode jwt token) as [c|]; [|apply rtc_refl].
    destruct (sub c =? 0); [apply rtc_refl|].
    unfold bind. rewrite refreshTokens_run. cbv zeta.
    destruct (refresh_outcome _ _ _ _ _ _); [|apply rtc_refl].
    apply rtc_once.
    match goal with
    | |- context [rotated request e ?i ?h ?w1] =>
      exact (rotated_step request e i h w1)
    end.
  - (* logout *)
    unfold AuthController.logout, bind, AuthService.logout.
    rewrite usersUpdateRefreshToken_run. apply rtc_once, rotated_step.
Qed.

Lemma serve_keeps (P : gmap Z UserRow -> Prop) request e c w :
  (forall e0 m m', table_step (bcryptjs := bcryptjs) e0 m m' -> P m -> P m') ->
  P (db w) -> P (db (serve request e c w)).
Proof.
  intros Hstep. pose proof (serve_steps request e c w) as Hrtc.
  induction Hrtc as [|m1 m2 m3 H12 _ IH]; [auto|].
  intros H1. apply IH. by eapply Hstep.
Qed.

Lemma serve_all_keeps (P : gmap Z UserRow -> Prop) calls w :
  (forall e0 m m', table_step (bcryptjs := bcryptjs) e0 m m' -> P m -> P m') ->
  P (db w) -> P (db (serve_all calls w)).
Proof.
  intros Hstep. revert w. unfold serve_all.
  induction calls as [|[[request e] c] calls IH]; intros w Hw; [exact Hw|].
  simpl. apply IH. by apply serve_keeps.
Qed.

(** X4. With a library whose digests begin with [$2a$]: if every stored
    [password_hash] is empty or begins with [$2a$] before a sequence of API
    calls, the same holds after it, so the hook leaves every stored row as
    it is and never hashes a stored value again. *)
Theorem api_keeps_password_column_tagged
    (calls : list (Request * Env * ApiCall)) (w : World) :
  emits_2a bcryptjs ->
  password_column_tagged (db w) ->
  password_column_tagged (db (serve_all calls w)) /\
  forall k r salt,
    db (serve_all calls w) !! k = Some r ->
    hashPassword (bcryptjs := bcryptjs) salt r = r.
Proof.
  intros Hpre Hw.
  assert (Hafter : password_column_tagged (db (serve_all calls w))).
  { apply (serve_all_keeps password_column_tagged); [|exact Hw].
    intros e0 m m'. by apply table_step_tagged. }
  split; [exact Hafter|].
  intros k r salt Hk. destruct (Hafter k r Hk) as [Hempty|Htag].
  - by apply hashPassword_empty.
  - by apply hashPassword_prefixed.
Qed.

End Api.

(* ===================================================================== *)
(** * Further properties of UsersService: removing principals *)
(* ===================================================================== *)

Lemma found_row_deleted t k (m : gmap Z UserRow) r d a :
  found_row t k (<[k := set_updated_at a (set_deleted_at (Some d) r)]> m) = None.
Proof.
  unfold found_row. rewrite lookup_insert_eq. unfold visible_in. simpl.
  by rewrite andb_false_r.
Qed.

Section Removing.

Context {bcryptjs : BcryptLib}.
Variable request : Request.
Variable e : Env.

Lemma remove_inv (k : Z) (w w' : World) :
  UsersService.remove request e k w = (Ok tt, w') ->
  UsersService.getCurrentUserId request <> Some k /\
  exists r,
    db w !! k = Some r /\ tenant_id r = tenantId request /\
    deleted_at r = None /\
    db w' = <[k := set_updated_at (now e) (set_deleted_at (Some (now e)) r)]>
              (db w).
Proof.
  unfold UsersService.remove, bind. rewrite findOne_run.
  destruct (found_row _ k (db w)) as [u|] eqn:Hf; [|discriminate].
  destruct (bool_decide _) eqn:Hme; [discriminate|].
  apply bool_decide_eq_false in Hme.
  apply found_row_Some in Hf as (_ & Hk & Ht & Hd).
  unfold Repository.softDelete, bind, get_db, put_db, log, ret. simpl.
  rewrite Hk. simpl. intros [= <-]. split; [congruence|].
  exists (cols u). auto.
Qed.

(** X5. After a successful [remove] the row is still in the table, with its
    deletion date and its update date set to the clock and otherwise as it
    was, every other row is untouched, and [findOne] does not find the
    principal any more, whatever the tenant of the request. *)
Theorem remove_hides_principal (k : Z) (w w' : World) (request' : Request) :
  UsersService.remove request e k w = (Ok tt, w') ->
  (exists r, db w !! k = Some r /\
             db w' !! k =
             Some (set_updated_at (now e) (set_deleted_at (Some (now e)) r))) /\
  (forall k', k' <> k -> db w' !! k' = db w !! k') /\
  fst (UsersService.findOne request' k w') =
    Throw (NotFoundException "User not found").
Proof.
  intros (_ & r & Hk & _ & _ & Hdb)%remove_inv.
  rewrite findOne_run, Hdb. simpl.
  rewrite found_row_deleted. repeat split.
  - exists r. by rewrite lookup_insert_eq.
  - intros k' Hne. by rewrite lookup_insert_ne.
Qed.

End Removing.

(* ===================================================================== *)
(** * Further properties of UsersService: changing principals *)
(* ===================================================================== *)

Section Changing.

Context {bcryptjs : BcryptLib}.
Variable request : Request.
Variable e : Env.


(** X8. On a table whose password column is empty-or-tagged, a successful
    [changePassword] to a non-empty password that does not begin with
    [$2a$] stores the bcrypt digest of the new password (cost 12) for the
    caller, records the caller in [updated_by], and the new password then
    verifies against the stored row. *)
Theorem changePassword_then_validate (k : Z) (dto : ChangePasswordDto)
    (w w' : World) :
  password_column_tagged (db w) ->
  Js.truthy (new_password dto) = true ->
  Js.startsWith (new_password dto) "$2a$" = false ->
  UsersService.changePassword request e k dto w = (Ok tt, w') ->
  exists r',
    db w' !! k = Some r' /\
    password_hash r' = bcrypt_hash (new_password dto) 12 (pw_salt e) /\
    updated_by r' = Some k /\
    validatePassword r' (new_password dto) = true.
Proof.
  intros Htag Ht Hp (u & Hme & Hf & _ & saved & Hs)%changePassword_inv.
  apply found_row_Some in Hf as (Hid & Hk & _).
  rewrite save_run in Hs.
  change (id (password_change request dto u)) with (id u) in Hs.
  rewrite Hid in Hs. simpl in Hs.
  destruct (bool_decide _) eqn:Hsame in Hs.
  { exfalso. apply bool_decide_eq_true in Hsame. rewrite Hk in Hsame.
    injection Hsame as Hsame.
    assert (password_hash u = new_password dto) as Hnew
      by (rewrite Hsame at 1; reflexivity).
    destruct (Htag k _ Hk) as [Hempty|Htagged].
    - rewrite Hnew in Hempty. rewrite Hempty in Ht. discriminate.
    - rewrite Hnew in Htagged. congruence. }
  destruct (Repository.violates_unique _ _ _) in Hs; [discriminate|].
  injection Hs as _ <-. simpl. rewrite lookup_insert_eq. eexists.
  split; [reflexivity|].
  rewrite hashPassword_digest by assumption.
  cbn [password_hash set_password_hash set_updated_by set_updated_at updated_by].
  rewrite Hme. repeat split. unfold validatePassword. simpl.
  apply bcrypt_compare_hash.
Qed.

Lemma update_inv (k : Z) (dto : UpdateUserDto) (w w' : World)
    (res : UsersService.UpdatedUser) :
  UsersService.update request e k dto w = (Ok res, w') ->
  exists u w0 stored,
    found_row (tenantId request) k (db w) = Some u /\ db w0 = db w /\
    Repository.persist e (UsersService.assign request u dto) w0 = (Ok stored, w') /\
    res = UsersService.mkUpdatedUser stored (Js.toLowerCase <$> upd_email dto)
            (UsersService.getCurrentUserId request).
Proof.
  rewrite update_run. cbv zeta.
  destruct (found_row _ k (db w)) as [u|] eqn:Hf; [|discriminate].
  assert (Hfin : forall w0, db w0 = db w ->
            update_finish request e u dto w0 = (Ok res, w') ->
            exists u0 w1 stored,
              Some u = Some u0 /\ db w1 = db w /\
              Repository.persist e (UsersService.assign request u0 dto) w1 =
              (Ok stored, w') /\
              res = UsersService.mkUpdatedUser stored
                      (Js.toLowerCase <$> upd_email dto)
                      (UsersService.getCurrentUserId request)).
  { intros w0 Hdb. unfold update_finish.
    destruct (Repository.persist e _ w0) as [[x|err] w1] eqn:Hp; [|discriminate].
    intros Hres. apply pair_equal_spec in Hres as [Hres ->].
    apply Ok_inj in Hres. exists u, w0, x. auto. }
  destruct (UsersService.email_changes dto u) as [m|].
  - destruct (principal_by_email _ m _); [discriminate|]. by apply Hfin.
  - by apply Hfin.
Qed.

(** X10. [update] compares the new email with the stored one as written but
    looks it up lower-cased: asking to set a principal's email to its own
    email in another letter case is refused with Conflict, the principal
    being taken for another holder of the email; nothing is written. *)
Theorem update_own_email_in_other_case_conflicts (k : Z) (dto : UpdateUserDto)
    (w : World) (u : User) (m : string) :
  found_row (tenantId request) k (db w) = Some u ->
  upd_email dto = Some m ->
  m <> email u ->
  Js.toLowerCase m = email u ->
  fst (UsersService.update request e k dto w) =
    Throw (ConflictException "User with this email already exists") /\
  db (snd (UsersService.update request e k dto w)) = db w.
Proof.
  intros Hf Hm Hne Hlow.
  unfold UsersService.update, bind. rewrite findOne_run, Hf.
  assert (Hch : UsersService.email_changes dto u = Some m).
  { unfold UsersService.email_changes. rewrite Hm.
    assert (Js.truthy m = true) as ->.
    { destruct m; [|reflexivity]. simpl in Hlow. congruence. }
    assert (String.eqb m (email u) = false) as ->
      by (by apply String.eqb_neq).
    reflexivity. }
  rewrite Hch, findByEmail_run.
  assert (Hin : u ∈ Qb.selected [TenantIs (tenantId request);
                                 EmailIs (Js.toLowerCase m)] (db w)).
  { pose proof (found_row_Some _ _ _ _ Hf) as (Hid & Hk & Ht & Hd).
    apply elem_of_selected. split; [by rewrite Hid|].
    apply matches_tenant_email. auto. }
  unfold principal_by_email.
  change (db (after_lookup (tenantId request) k w)) with (db w).
  destruct (Qb.selected _ (db w)) as [|x l]; [by apply elem_of_nil in Hin|].
  split; reflexivity.
Qed.

End Changing.

(* ===================================================================== *)
(** * Further properties of UsersService: status changes *)
(* ===================================================================== *)

Lemma hashPassword_status {bcryptjs : BcryptLib} salt (r : UserRow) :
  status (hashPassword salt r) = status r.
Proof. destruct (hashPassword_frame salt r) as [h ->]. reflexivity. Qed.

Lemma hashPassword_updated_by {bcryptjs : BcryptLib} salt (r : UserRow) :
  updated_by (hashPassword salt r) = updated_by r.
Proof. destruct (hashPassword_frame salt r) as [h ->]. reflexivity. Qed.

Lemma hashPassword_deleted_at {bcryptjs : BcryptLib} salt (r : UserRow) :
  deleted_at (hashPassword salt r) = deleted_at r.
Proof. destruct (hashPassword_frame salt r) as [h ->]. reflexivity. Qed.

Lemma found_row_intro t k (m : gmap Z UserRow) (r : UserRow) :
  m !! k = Some r -> tenant_id r = t -> deleted_at r = None ->
  found_row t k m = Some (mkUser k r).
Proof.
  intros Hk Ht Hd. unfold found_row, visible_in.
  by rewrite Hk, Ht, Z.eqb_refl, Hd.
Qed.

Lemma updated_rows_relation e i t f (m : gmap Z UserRow) :
  Repository.updated_rows e
    (Repository.mkCriteria i (Repository.TenantRelation t)) f m = m.
Proof.
  apply map_eq. intros k. rewrite lookup_updated_rows.
  unfold Repository.criteria_selects. cbn. rewrite andb_false_r.
  by destruct (m !! k).
Qed.

Section StatusChanges.

Context {bcryptjs : BcryptLib}.
Variable request : Request.
Variable e : Env.

(** Saving a principal that was just read, after assignments that leave
    its tenant and deletion mark alone: the entity returned is the one a
    later read finds, and no other key changes. *)
Lemma save_found (f : UserRow -> UserRow) (k : Z) (u u' : User) (w0 w' : World) :
  (forall r, tenant_id (f r) = tenant_id r) ->
  (forall r, deleted_at (f r) = deleted_at r) ->
  found_row (tenantId request) k (db w0) = Some u ->
  Repository.save e (mkUser (id u) (f u)) w0 = (Ok u', w') ->
  id u' = k /\
  found_row (tenantId request) k (db w') = Some u' /\
  (forall k', k' <> k -> db w' !! k' = db w0 !! k') /\
  status u' = status (f u) /\ updated_by u' = updated_by (f u).
Proof.
  intros Hft Hfd Hf Hs.
  apply found_row_Some in Hf as (Hid & Hk & Ht & Hd).
  rewrite save_run in Hs. cbn [id cols] in Hs. rewrite Hid in Hs.
  destruct (bool_decide _) eqn:Hsame in Hs.
  - apply bool_decide_eq_true in Hsame. injection Hs as <- <-. cbn [id cols].
    split; [reflexivity|].
    split; [apply found_row_intro; [exact Hsame| |]; congruence|]. auto.
  - cbv zeta in Hs. destruct (Repository.violates_unique _ _ _) in Hs;
      [discriminate|].
    injection Hs as <- <-. cbn [id cols db].
    split; [reflexivity|]. split.
    { apply found_row_intro; [by rewrite lookup_insert_eq| |].
      - cbn. rewrite hashPassword_tenant. congruence.
      - cbn. rewrite hashPassword_deleted_at. congruence. }
    split; [intros k' Hne; by rewrite lookup_insert_ne|].
    cbn. by rewrite hashPassword_status, hashPassword_updated_by.
Qed.

(** X11. A successful [activate] returns the principal with status ACTIVE
    and the caller (or 0 when there is none) as [updated_by]; a following
    [findOne] returns exactly that entity, and no other row has changed. *)
Theorem activate_then_findOne (k : Z) (w w' : World) (u' : User) :
  UsersService.activate request e k w = (Ok u', w') ->
  id u' = k /\ status u' = ACTIVE /\
  updated_by u' = Some (default 0 (UsersService.getCurrentUserId request)) /\
  fst (UsersService.findOne request k w') = Ok u' /\
  (forall k', k' <> k -> db w' !! k' = db w !! k').
Proof.
  unfold UsersService.activate, bind. rewrite findOne_run.
  destruct (found_row _ k (db w)) as [u|] eqn:Hf; [|discriminate].
  intros Hs.
  apply (save_found
           (fun r => set_updated_by
                       (Some (default 0 (UsersService.getCurrentUserId request)))
                       (set_status ACTIVE r)) k u)
    in Hs as (Hid & Hfound & Hothers & Hst & Hby); try (intros; reflexivity);
    [|exact Hf].
  rewrite findOne_run, Hfound. auto.
Qed.

(** X12. A successful [deactivate] was not aimed at the caller; it returns
    the principal with status INACTIVE, which a following [findOne] still
    finds (the principal stays visible), and no other row has changed. *)
Theorem deactivate_then_findOne (k : Z) (w w' : World) (u' : User) :
  UsersService.deactivate request e k w = (Ok u', w') ->
  UsersService.getCurrentUserId request <> Some k /\
  id u' = k /\ status u' = INACTIVE /\ is_active u' = false /\
  fst (UsersService.findOne request k w') = Ok u' /\
  (forall k', k' <> k -> db w' !! k' = db w !! k').
Proof.
  unfold UsersService.deactivate, bind. rewrite findOne_run.
  destruct (found_row _ k (db w)) as [u|] eqn:Hf; [|discriminate].
  destruct (bool_decide _) eqn:Hme; [discriminate|].
  apply bool_decide_eq_false in Hme.
  intros Hs.
  apply (save_found
           (fun r => set_updated_by
                       (Some (default 0 (UsersService.getCurrentUserId request)))
                       (set_status INACTIVE r)) k u)
    in Hs as (Hid & Hfound & Hothers & Hst & Hby); try (intros; reflexivity);
    [|exact Hf].
  rewrite findOne_run, Hfound. split; [congruence|].
  unfold is_active. cbn in Hst. rewrite Hst. auto.
Qed.

(** X13. [bulkActivate] and [updateLastLogin] never throw and change no
    row, whatever keys they are given: their criteria name the relation
    [tenant], for which the number of the request's tenant selects
    nothing. *)
Theorem relation_criteria_change_no_row (ids : list Z) (k : Z) (w : World) :
  fst (UsersService.bulkActivate request e ids w) = Ok tt /\
  db (snd (UsersService.bulkActivate request e ids w)) = db w /\
  fst (UsersService.updateLastLogin request e k w) = Ok tt /\
  db (snd (UsersService.updateLastLogin request e k w)) = db w.
Proof.
  unfold UsersService.bulkActivate, UsersService.updateLastLogin,
    Repository.update, bind, get_db, put_db, log, ret.
  cbn [Repository.w_id fst snd db].
  rewrite !updated_rows_relation. auto.
Qed.

(** X14. [bulkDeactivate] leaves every row as it was, whatever keys it is
    given: it filters the caller out, and hands the remaining keys to the
    repository as the object literal [{ $in: ... }], which is not a query
    operator.  It returns normally exactly when every listed key is the
    caller's own. *)
Theorem bulkDeactivate_changes_no_row (ids : list Z) (w : World) :
  db (snd (UsersService.bulkDeactivate request e ids w)) = db w /\
  (fst (UsersService.bulkDeactivate request e ids w) = Ok tt <->
   forall k, k ∈ ids -> UsersService.getCurrentUserId request = Some k).
Proof.
  unfold UsersService.bulkDeactivate.
  destruct (List.filter _ ids) as [|x l] eqn:Hfl; cbn.
  - split; [reflexivity|]. split; [|reflexivity]. intros _ k Hin.
    apply list_elem_of_In in Hin.
    destruct (bool_decide (Some k = UsersService.getCurrentUserId request))
      eqn:Hme.
    + by apply bool_decide_eq_true in Hme.
    + assert (List.In k []) as [].
      rewrite <- Hfl. apply List.filter_In. by rewrite Hme.
  - split; [reflexivity|]. split; [discriminate|]. intros Hall. exfalso.
    assert (List.In x (List.filter
              (fun k => negb (bool_decide
                 (Some k = UsersService.getCurrentUserId request))) ids))
      as [Hin Hx]%List.filter_In by (rewrite Hfl; by left).
    apply negb_true_iff, bool_decide_eq_false in Hx. apply Hx.
    symmetry. apply Hall. by apply list_elem_of_In.
Qed.

End StatusChanges.

(* ===================================================================== *)
(** * Further properties of the authentication flows *)
(* ===================================================================== *)

(** Two tables with the same keys whose rows differ at most in the refresh
    fingerprint and the update time. *)
Definition session_columns_only (m m' : gmap Z UserRow) : Prop :=
  forall k,
    (m !! k = None /\ m' !! k = None) \/
    exists r h t,
      m !! k = Some r /\
      m' !! k = Some (set_updated_at t (set_refreshToken h r)).

Lemma session_columns_only_refl (m : gmap Z UserRow) :
  session_columns_only m m.
Proof.
  intros k. destruct (m !! k) as [r|] eqn:Hk; [right|by left].
  exists r, (refreshToken r), (updated_at r). split; [reflexivity|].
  by destruct r.
Qed.

Lemma session_columns_only_rotated request e k h w :
  session_columns_only (db w) (db (rotated request e k h w)).
Proof.
  intros k'. rewrite lookup_rotated.
  destruct (db w !! k') as [r|] eqn:Hk; [right|by left]. cbn.
  destruct (_ && _).
  - by exists r, h, (now e).
  - exists r, (refreshToken r), (updated_at r). split; [reflexivity|].
    by destruct r.
Qed.

Section AuthFlows.

Variable bcrypt : BcryptLib.
Variable jwt : JwtLib.
Variable config : Config.

(** X15. The login, refresh and logout endpoints create and delete no row,
    and change no column other than the refresh fingerprint and the update
    time: in particular a login does not record [last_login_at], and none
    of them touches status, email or password. *)
Theorem auth_flows_write_session_columns_only (request : Request) (e : Env)
    (w : World) :
  (forall req_user,
     session_columns_only (db w)
       (db (snd (AuthController.login bcrypt jwt config request e req_user w)))) /\
  (forall token,
     session_columns_only (db w)
       (db (snd (AuthController.refreshTokens bcrypt jwt config request e token w)))) /\
  (forall userId,
     session_columns_only (db w)
       (db (snd (AuthController.logout request e userId w)))).
Proof.
  split; [|split].
  - intros u. unfold AuthController.login, bind. rewrite login_run.
    destruct (signed _ _ _ _ _); [|apply session_columns_only_refl].
    exact (session_columns_only_rotated request e _ _ w).
  - intros token. unfold AuthController.refreshTokens.
    destruct (@jwt_decode jwt token) as [c|];
      [|apply session_columns_only_refl].
    destruct (sub c =? 0); [apply session_columns_only_refl|].
    unfold bind. rewrite refreshTokens_run. cbv zeta.
    destruct (refresh_outcome _ _ _ _ _ _);
      [|apply session_columns_only_refl].
    match goal with
    | |- context [rotated request e ?i ?h ?w1] =>
      exact (session_columns_only_rotated request e i h w1)
    end.
  - intros userId.
    exact (session_columns_only_rotated request e userId None w).
Qed.

(** X16. A refresh that throws has written nothing.  It throws the
    ReferenceError of the missing import exactly when the token does not
    decode or decodes with the subject 0; otherwise Unauthorized ("Access Denied", for
    an unknown principal, a missing fingerprint or a token that does not
    match it) or the error of a failed signature. *)
Theorem refresh_failure_writes_nothing (request : Request) (e : Env)
    (token : string) (w w' : World) (ex : Exception) :
  AuthController.refreshTokens bcrypt jwt config request e token w
  = (Throw ex, w') ->
  db w' = db w /\
  (ex = ReferenceError "UnauthorizedException is not defined" \/
   ex = UnauthorizedException "Access Denied" \/
   ex = Error "jwt sign failed") /\
  (ex = ReferenceError "UnauthorizedException is not defined" <->
   forall c, @jwt_decode jwt token = Some c -> sub c = 0).
Proof.
  unfold AuthController.refreshTokens, AuthController.new_UnauthorizedException.
  destruct (@jwt_decode jwt token) as [c|].
  2:{ intros [= <- <-]. split; [reflexivity|]. split; [auto|].
      split; [discriminate|reflexivity]. }
  destruct (sub c =? 0) eqn:Hsub.
  { apply Z.eqb_eq in Hsub. intros [= <- <-]. split; [reflexivity|].
    split; [auto|]. split; [|reflexivity]. by intros _ c' [= <-]. }
  apply Z.eqb_neq in Hsub.
  unfold bind. rewrite refreshTokens_run. cbv zeta.
  destruct (refresh_outcome _ _ _ _ _ _) as [tk|err] eqn:Ho; [discriminate|].
  intros [= <- <-]. split; [reflexivity|].
  assert (Herr : err = UnauthorizedException "Access Denied" \/
                 err = Error "jwt sign failed").
  { unfold refresh_outcome in Ho.
    destruct (AuthService.stored_fingerprint _) as [[u h]|];
      [|injection Ho as <-; auto].
    destruct (@bcrypt_compare bcrypt token h); [|injection Ho as <-; auto].
    unfold signed in Ho. destruct (sign_pair _ _ _ _ _); [discriminate|].
    injection Ho as <-. auto. }
  split; [tauto|]. split.
  - intros ->. destruct Herr; discriminate.
  - intros Hall. exfalso. apply Hsub, Hall. reflexivity.
Qed.



End AuthFlows.

(* ===================================================================== *)
(** * Further properties of UsersService.findAll *)
(* ===================================================================== *)

Lemma length_insert_sorted {A} (le : A -> A -> bool) x (l : list A) :
  length (Sql.insert_sorted le x l) = S (length l).
Proof.
  induction l as [|y l IH]; simpl; [reflexivity|].
  destruct (le x y); simpl; [reflexivity|]. by rewrite IH.
Qed.

Lemma length_order_by {A} (le : A -> A -> bool) (l : list A) :
  length (Sql.order_by le l) = length l.
Proof.
  unfold Sql.order_by. induction l as [|x l IH]; simpl; [reflexivity|].
  by rewrite length_insert_sorted, IH.
Qed.

Lemma length_sort_rows o (l : list User) :
  length (sort_rows o l) = length l.
Proof.
  unfold sort_rows. destruct o as [[f [[|]|]]|];
    try reflexivity; apply length_order_by.
Qed.

Lemma matches_andWhere c q (u : User) :
  Qb.matches (Qb.q_where (Qb.andWhere c q)) u =
  Qb.matches (Qb.q_where q) u && eval_cond c u.
Proof.
  unfold Qb.matches. cbn [Qb.q_where Qb.andWhere].
  rewrite forallb_app. cbn [forallb].
  destruct (forallb _ _), (eval_cond c u), (negb _); reflexivity.
Qed.

Lemma matches_and_if {A} (x : option A) truthy c q (u : User) :
  Qb.matches (Qb.q_where (UsersService.and_if x truthy c q)) u = true ->
  Qb.matches (Qb.q_where q) u = true /\
  (forall v, x = Some v -> truthy v = true -> eval_cond (c v) u = true).
Proof.
  unfold UsersService.and_if. destruct x as [v|].
  - destruct (truthy v) eqn:Hv.
    + rewrite matches_andWhere. intros [Hq Hc]%andb_true_iff.
      split; [exact Hq|]. by intros ? [= <-] _.
    + intros Hq. split; [exact Hq|]. intros ? [= <-]. congruence.
  - intros Hq. split; [exact Hq|]. discriminate.
Qed.

Section Listing.

Variable request : Request.

(** The statement [findAll] runs for a query. *)
Definition findAll_query (queryDto : UserQueryDto) : Qb.SelectQueryBuilder :=
  let page_ := default 1 (page queryDto) in
  let limit_ := default 10 (limit queryDto) in
  let query := UsersService.getBaseQuery request in
  let query := UsersService.and_if (search queryDto) Js.truthy
                 (fun s => Search (Sql.contains_pattern s)) query in
  let query := UsersService.and_if (qry_role queryDto) (fun _ => true)
                 RoleIs query in
  let query := UsersService.and_if (qry_status queryDto) (fun _ => true)
                 StatusIs query in
  let query := UsersService.and_if (qry_department queryDto) Js.truthy
                 (fun d => DepartmentLike (Sql.contains_pattern d)) query in
  let sortField :=
    match sort_by queryDto with
    | Some s => default by_created_at (UsersService.sort_field_of s)
    | None => by_created_at
    end in
  Qb.take limit_
    (Qb.skip ((page_ - 1) * limit_)
       (Qb.orderBy sortField (sort_order queryDto) query)).

Lemma findAll_result (queryDto : UserQueryDto) (w : World) :
  fst (UsersService.findAll request queryDto w) =
  Ok (let q := findAll_query queryDto in
      let rows := Qb.selected (Qb.q_where q) (db w) in
      let limit_ := default 10 (limit queryDto) in
      let page_ := default 1 (page queryDto) in
      let total_ := Z.of_nat (length rows) in
      mkPaginated
        (UsersService.to_list_item <$>
           Qb.paginate q (sort_rows (Qb.q_order q) rows))
        total_ page_ limit_ (Js.ceil_div total_ limit_)
        (Js.lt_number page_ (Js.ceil_div total_ limit_)) (1 <? page_)).
Proof. reflexivity. Qed.

(** X19. For a page number and a page size of at least 1 (what the
    validators of [UserQueryDto] admit), the answer of [findAll] is
    consistent: [total_pages] is the least number of pages of that size
    that hold [total] rows, [data] holds the rows of the requested page and
    no more than [limit], [has_next] says whether rows remain after this
    page, and [has_prev] whether the page is not the first. *)
Theorem findAll_pagination (queryDto : UserQueryDto) (w : World)
    (res : PaginatedUsersResponseDto) :
  1 <= default 1 (page queryDto) ->
  1 <= default 10 (limit queryDto) ->
  fst (UsersService.findAll request queryDto w) = Ok res ->
  let p := default 1 (page queryDto) in
  let l := default 10 (limit queryDto) in
  res_page res = p /\ res_limit res = l /\ 0 <= total res /\
  (exists tp, total_pages res = Js.Num tp /\
              (tp - 1) * l < total res <= tp * l) /\
  Z.of_nat (length (data res)) = Z.min l (Z.max 0 (total res - (p - 1) * l)) /\
  has_next res = (p * l <? total res) /\
  has_prev res = (1 <? p).
Proof.
  intros Hp Hl. rewrite findAll_result. intros [= <-]. cbv zeta.
  cbn [res_page res_limit total total_pages data has_next has_prev].
  set (p := default 1 (page queryDto)) in *.
  set (l := default 10 (limit queryDto)) in *.
  set (rows := Qb.selected _ (db w)).
  set (n := Z.of_nat (length rows)).
  assert (Hn : 0 <= n) by (subst n; lia).
  assert (Hceil : (- (- n / l) - 1) * l < n <= - (- n / l) * l).
  { assert (0 < l) as Hpos by lia.
    pose proof (Z.mul_div_le (- n) l Hpos).
    pose proof (Z.mul_succ_div_gt (- n) l Hpos). nia. }
  unfold Js.ceil_div. assert ((l =? 0) = false) as -> by (apply Z.eqb_neq; lia).
  split; [reflexivity|]. split; [reflexivity|]. split; [exact Hn|].
  split; [eauto|]. split; [|split; [|reflexivity]].
  - rewrite length_fmap. unfold Qb.paginate, findAll_query.
    cbn [Qb.q_skip Qb.q_take Qb.take Qb.skip Qb.q_order Qb.orderBy].
    fold p l. rewrite length_take, length_drop.
    assert (0 <= (p - 1) * l) by nia.
    destruct (sort_order queryDto) as [[|]|]; rewrite length_order_by;
      subst n; lia.
  - unfold Js.lt_number.
    destruct (Z.ltb_spec p (- (- n / l))), (Z.ltb_spec (p * l) n);
      try reflexivity; nia.
Qed.

(** X20. Every entry of the [data] array that [findAll] returns satisfies
    each filter of the query: its role and status are the ones asked for,
    a non-empty search term matches (case-insensitively, as a LIKE pattern
    between two [%]) its first name, last name, email or employee id, and a
    non-empty department term matches its department; it is a row of the
    caller's tenant that is not soft-deleted. *)
Theorem findAll_items_satisfy_filters (queryDto : UserQueryDto) (w : World) :
  exists res,
    fst (UsersService.findAll request queryDto w) = Ok res /\
    forall item, item ∈ data res ->
      (exists r, db w !! item_id item = Some r /\
                 tenant_id r = tenantId request /\ deleted_at r = None) /\
      (forall ro, qry_role queryDto = Some ro -> item_role item = ro) /\
      (forall st, qry_status queryDto = Some st ->
                  item_status item = st /\
                  item_is_active item = bool_decide (st = ACTIVE)) /\
      (forall s, search queryDto = Some s -> s <> EmptyString ->
         Sql.ilike (Some (item_first_name item)) (Sql.contains_pattern s)
         || Sql.ilike (Some (item_last_name item)) (Sql.contains_pattern s)
         || Sql.ilike (Some (item_email item)) (Sql.contains_pattern s)
         || Sql.ilike (item_employee_id item) (Sql.contains_pattern s) = true) /\
      (forall d, qry_department queryDto = Some d -> d <> EmptyString ->
         Sql.ilike (item_department item) (Sql.contains_pattern d) = true).
Proof.
  eexists. split; [apply findAll_result|]. cbv zeta. cbn [data].
  intros item (u & -> & Hu)%list_elem_of_fmap.
  apply In_paginate, In_sort_rows, elem_of_selected in Hu as [Hu Hm].
  unfold findAll_query in Hm.
  cbn [Qb.q_where Qb.take Qb.skip Qb.orderBy] in Hm.
  apply matches_and_if in Hm as [Hm Hdep].
  apply matches_and_if in Hm as [Hm Hst].
  apply matches_and_if in Hm as [Hm Hro].
  apply matches_and_if in Hm as [Hm Hse].
  cbn [UsersService.to_list_item item_id item_role item_status item_is_active
       item_first_name item_last_name item_email item_employee_id
       item_department].
  split; [|split; [|split; [|split]]].
  - exists (cols u). split; [exact Hu|].
    split; [eapply matches_tenant; exact Hm|eapply matches_not_deleted; exact Hm].
  - intros ro Hq. specialize (Hro ro Hq eq_refl). cbn in Hro.
    by apply bool_decide_eq_true in Hro.
  - intros st Hq. specialize (Hst st Hq eq_refl). cbn in Hst.
    apply bool_decide_eq_true in Hst. unfold is_active. by rewrite Hst.
  - intros s Hq Hne. apply (Hse s Hq). by destruct s.
  - intros d Hq Hne. apply (Hdep d Hq). by destruct d.
Qed.

End Listing.

Lemma matches_and_if_intro {A} (x : option A) truthy c q (u : User) :
  Qb.matches (Qb.q_where q) u = true ->
  (forall v, x = Some v -> truthy v = true -> eval_cond (c v) u = true) ->
  Qb.matches (Qb.q_where (UsersService.and_if x truthy c q)) u = true.
Proof.
  intros Hq Hc. unfold UsersService.and_if. destruct x as [v|]; [|exact Hq].
  destruct (truthy v) eqn:Hv; [|exact Hq].
  rewrite matches_andWhere, Hq. by apply Hc.
Qed.

(** The row satisfies every filter of the query. *)
Definition passes_filters (queryDto : UserQueryDto) (r : UserRow) : Prop :=
  (forall ro, qry_role queryDto = Some ro -> role r = ro) /\
  (forall st, qry_status queryDto = Some st -> status r = st) /\
  (forall s, search queryDto = Some s -> s <> EmptyString ->
     Sql.ilike (Some (first_name r)) (Sql.contains_pattern s)
     || Sql.ilike (Some (last_name r)) (Sql.contains_pattern s)
     || Sql.ilike (Some (email r)) (Sql.contains_pattern s)
     || Sql.ilike (employee_id r) (Sql.contains_pattern s) = true) /\
  (forall d, qry_department queryDto = Some d -> d <> EmptyString ->
     Sql.ilike (department r) (Sql.contains_pattern d) = true).

Lemma truthy_nonempty (s : string) : Js.truthy s = true -> s <> EmptyString.
Proof. by destruct s. Qed.

Lemma findAll_query_selects request queryDto (m : gmap Z UserRow) k r :
  m !! k = Some r -> tenant_id r = tenantId request -> deleted_at r = None ->
  passes_filters queryDto r ->
  mkUser k r ∈ Qb.selected (Qb.q_where (findAll_query request queryDto)) m.
Proof.
  intros Hk Ht Hd (Hro & Hst & Hse & Hdep).
  apply elem_of_selected. split; [exact Hk|].
  unfold findAll_query. cbn [Qb.q_where Qb.take Qb.skip Qb.orderBy].
  apply matches_and_if_intro; [apply matches_and_if_intro;
    [apply matches_and_if_intro; [apply matches_and_if_intro|]|]|].
  - unfold Qb.matches, UsersService.getBaseQuery, UsersService.getTenantId.
    cbn. rewrite Ht, Z.eqb_refl, Hd. reflexivity.
  - intros s Hs Htr. cbn. apply (Hse s Hs). by apply truthy_nonempty.
  - intros ro Hq _. cbn. apply bool_decide_eq_true. by apply Hro.
  - intros st Hq _. cbn. apply bool_decide_eq_true. by apply Hst.
  - intros d Hq Htr. cbn. apply (Hdep d Hq). by apply truthy_nonempty.
Qed.

(** C10. [findAll] never throws, and its [data] array is made of stored
    principals with their credentials in plain fields.  Every element is a
    row of the request's tenant that is not soft-deleted, under its own
    key, and carries that row's [password_hash], [password_reset_token]
    and [password_reset_expires_at].  For a page and a limit of at least 1
    the array has as many elements as the page holds of the [total]
    matching rows.  And when the first page is asked for and holds all of
    them, every stored principal of the tenant that is not soft-deleted and
    satisfies the filters of the query is in the array, credentials
    included. *)
Theorem findAll_returns_credential_fields (request : Request)
    (queryDto : UserQueryDto) (w : World) :
  exists res,
    fst (UsersService.findAll request queryDto w) = Ok res /\
    (forall item, item ∈ data res ->
       exists r, db w !! item_id item = Some r /\
                 tenant_id r = tenantId request /\ deleted_at r = None /\
                 item_password_hash item = password_hash r /\
                 item_password_reset_token item = password_reset_token r /\
                 item_password_reset_expires_at item =
                 password_reset_expires_at r) /\
    (1 <= default 1 (page queryDto) -> 1 <= default 10 (limit queryDto) ->
     Z.of_nat (length (data res)) =
     Z.min (default 10 (limit queryDto))
           (Z.max 0 (total res
                     - (default 1 (page queryDto) - 1) * default 10 (limit queryDto)))) /\
    (default 1 (page queryDto) = 1 -> total res <= default 10 (limit queryDto) ->
     forall k r,
       db w !! k = Some r -> tenant_id r = tenantId request ->
       deleted_at r = None -> passes_filters queryDto r ->
       exists item, item ∈ data res /\ item_id item = k /\
                    item_password_hash item = password_hash r /\
                    item_password_reset_token item = password_reset_token r /\
                    item_password_reset_expires_at item =
                    password_reset_expires_at r).
Proof.
  eexists. split; [apply findAll_result|]. cbv zeta. cbn [data total].
  set (q := findAll_query request queryDto).
  set (rows := Qb.selected (Qb.q_where q) (db w)).
  set (p := default 1 (page queryDto)).
  set (l := default 10 (limit queryDto)).
  assert (Hpage : Qb.paginate q (sort_rows (Qb.q_order q) rows) =
                  firstn (Z.to_nat l)
                    (skipn (Z.to_nat ((p - 1) * l))
                       (sort_rows (Qb.q_order q) rows))) by reflexivity.
  split; [|split].
  - intros item (u & -> & Hu)%list_elem_of_fmap.
    apply In_paginate, In_sort_rows, elem_of_selected in Hu as [Hu Hm].
    exists (cols u). split; [exact Hu|].
    split; [|split; [eapply matches_not_deleted; exact Hm|repeat split]].
    unfold q, findAll_query in Hm.
    cbn [Qb.q_where Qb.take Qb.skip Qb.orderBy] in Hm.
    apply matches_and_if in Hm as [Hm _].
    apply matches_and_if in Hm as [Hm _].
    apply matches_and_if in Hm as [Hm _].
    apply matches_and_if in Hm as [Hm _].
    eapply matches_tenant. exact Hm.
  - intros Hp Hl. rewrite length_fmap, Hpage, length_take, length_drop,
      length_sort_rows.
    assert (0 <= (p - 1) * l) by nia. lia.
  - intros Hp Htotal k r Hk Ht Hd Hpass.
    exists (UsersService.to_list_item (mkUser k r)).
    split; [|repeat split].
    apply list_elem_of_fmap. exists (mkUser k r). split; [reflexivity|].
    rewrite Hpage, Hp. replace ((1 - 1) * l) with 0 by lia.
    change (Z.to_nat 0) with 0%nat. rewrite drop_0.
    rewrite take_ge by (rewrite length_sort_rows; lia).
    apply In_sort_rows. by apply findAll_query_selects.
Qed.

Lemma findAll_returns_credential_fields_witness :
  exists res,
    fst (UsersService.findAll Sample.as_admin
           (mkUserQueryDto None None None None None None None None)
           Sample.world) = Ok res /\
    length (data res) = 2%nat /\
    exists item,
      item ∈ data res /\ item_id item = 2 /\
      item_password_hash item =
      Reference.ref_hash "B0b!passw" 12 "second-salt".
Proof.
  destruct (findAll_returns_credential_fields Sample.as_admin
              (mkUserQueryDto None None None None None None None None)
              Sample.world) as (res & Hres & _ & Hlen & Hall).
  exists res. split; [exact Hres|].
  assert (Htotal : total res = 2).
  { vm_compute in Hres. injection Hres as <-. reflexivity. }
  split.
  - rewrite Htotal in Hlen. cbn in Hlen. lia.
  - destruct (Hall eq_refl ltac:(rewrite Htotal; cbn; lia) 2
                (Sample.row 7 "bob@acme.test"
                   (Reference.ref_hash "B0b!passw" 12 "second-salt")
                   EMPLOYEE INACTIVE None))
      as (item & Hin & Hid & Hpw & _);
      [vm_compute; reflexivity|reflexivity|reflexivity| |].
    + repeat split; discriminate.
    + exists item. auto.
Defined.

(* ===================================================================== *)
(** * The password pattern of CreateUserDto *)
(* ===================================================================== *)

Lemma some_char_app p (s t : string) :
  Js.some_char p s = true -> Js.some_char p (String.append s t) = true.
Proof.
  induction s as [|c s IH]; [discriminate|]. cbn [Js.some_char].
  change (String.append (String c s) t) with (String c (String.append s t)).
  cbn [Js.some_char]. intros [->|H]%orb_true_iff; [reflexivity|].
  rewrite IH by exact H. apply orb_true_r.
Qed.

Lemma some_char_first_line_app p (s t : string) :
  Js.some_char p (first_line s) = true ->
  Js.some_char p (first_line (String.append s t)) = true.
Proof.
  induction s as [|c s IH]; [discriminate|].
  change (String.append (String c s) t) with (String c (String.append s t)).
  cbn [first_line]. destruct (_ || _); [discriminate|].
  cbn [Js.some_char]. intros [->|H]%orb_true_iff; [reflexivity|].
  rewrite IH by exact H. apply orb_true_r.
Qed.

Lemma length_append_le (s t : string) :
  (String.length s <= String.length (String.append s t))%nat.
Proof.
  induction s as [|c s IH]; [cbn; lia|].
  change (String.append (String c s) t) with (String c (String.append s t)).
  cbn [String.length]. lia.
Qed.

(** X21. The pattern of [CreateUserDto.password] is anchored at the start
    only and constrains one character there: whatever is appended to a
    password that passes the validators, the result passes them as well, so
    characters outside the listed class are accepted after the first. *)
Theorem valid_password_extends (s t : string) :
  valid_password s = true -> valid_password (String.append s t) = true.
Proof.
  unfold valid_password.
  rewrite !andb_true_iff.
  intros (((((Hlen & Hl) & Hu) & Hd) & Hs) & Hfirst).
  repeat split.
  - apply Nat.leb_le in Hlen. apply Nat.leb_le.
    pose proof (length_append_le s t). lia.
  - by apply some_char_first_line_app.
  - by apply some_char_first_line_app.
  - by apply some_char_first_line_app.
  - by apply some_char_first_line_app.
  - destruct s as [|c s]; [discriminate|]. exact Hfirst.
Qed.

(* ===================================================================== *)
(** * The entity hook runs once *)
(* ===================================================================== *)

(** X22. With a library whose digests carry the [$2a$] tag, the hook is
    idempotent: run again on an entity whose password it has already
    handled, with whatever salt, it changes nothing; in particular a digest
    is never hashed a second time when the entity is saved again. *)
Theorem hashPassword_idempotent {bcryptjs : BcryptLib} (salt salt' : string)
    (r : UserRow) :
  emits_2a bcryptjs ->
  hashPassword salt' (hashPassword salt r) = hashPassword salt r.
Proof.
  intros Hpre. unfold hashPassword at 2 3.
  destruct (Js.truthy (password_hash r)) eqn:Ht; cbn [andb].
  - destruct (Js.startsWith (password_hash r) "$2a$") eqn:Hp; cbn [negb].
    + by apply hashPassword_prefixed.
    + apply hashPassword_prefixed. cbn. apply Hpre.
  - apply hashPassword_empty. by destruct (password_hash r).
Qed.

(* ===================================================================== *)
(** * Authorization of profile updates *)
(* ===================================================================== *)

Section Profiles.

Context {bcryptjs : BcryptLib}.
Variable request : Request.
Variable e : Env.

(** The caller's role is exactly [admin] or [super_admin]. *)
Definition admin_role : Prop :=
  exists ru, user request = Some ru /\
             (urole ru = Some "super_admin" \/ urole ru = Some "admin").

Lemma isAdmin_admin_role : UsersService.isAdmin request = true <-> admin_role.
Proof.
  unfold UsersService.isAdmin, admin_role. cbv zeta.
  destruct (user request) as [ru|]; cbn.
  - destruct (urole ru) as [ro|] eqn:Hro; cbn.
    + rewrite orb_true_iff, !String.eqb_eq. split.
      * intros [->| ->]; exists ru; auto.
      * intros (ru' & [= <-] & [H|H]); rewrite Hro in H;
          injection H as ->; auto.
    + split; [discriminate|].
      intros (ru' & [= <-] & [H|H]); rewrite Hro in H; discriminate.
  - split; [discriminate|]. by intros (ru' & ? & _).
Qed.

(** X23. [updateProfile] is [update] for the principal itself and for a
    caller whose role is exactly [admin] or [super_admin]; for every other
    caller, an anonymous one included, it throws Forbidden before it reads
    or writes anything. *)
Theorem updateProfile_needs_self_or_admin (k : Z) (dto : UpdateUserDto)
    (w : World) :
  (UsersService.getCurrentUserId request = Some k \/ admin_role ->
   UsersService.updateProfile request e k dto w =
   UsersService.update request e k dto w) /\
  (UsersService.getCurrentUserId request <> Some k -> ~ admin_role ->
   UsersService.updateProfile request e k dto w =
   (Throw (ForbiddenException "You can only update your own profile"), w)).
Proof.
  unfold UsersService.updateProfile.
  destruct (bool_decide (Some k = UsersService.getCurrentUserId request))
    eqn:Hme; cbn [negb andb].
  { apply bool_decide_eq_true in Hme. split; [reflexivity|]. congruence. }
  apply bool_decide_eq_false in Hme.
  destruct (UsersService.isAdmin request) eqn:Hadm; cbn [negb].
  - apply isAdmin_admin_role in Hadm. split; [reflexivity|]. contradiction.
  - split; [|reflexivity]. intros [Hself|Hrole]; [congruence|].
    apply isAdmin_admin_role in Hrole. congruence.
Qed.

End Profiles.

(* ===================================================================== *)
(** * Failures write nothing *)
(* ===================================================================== *)


Lemma email_hashPassword {bcryptjs : BcryptLib} salt (r : UserRow) :
  email (hashPassword salt r) = email r.
Proof. destruct (hashPassword_frame salt r) as [h ->]. reflexivity. Qed.

Lemma email_updated_row {bcryptjs : BcryptLib} e (p : Partial) (r : UserRow) :
  email (updated_row e p r) = default (email r) (obj_email p).
Proof.
  unfold updated_row. cbv zeta.
  destruct (obj_password_hash p); destruct (_ =? _); cbn;
    rewrite ?email_hashPassword; reflexivity.
Qed.

Section Failures.

Context {bcryptjs : BcryptLib}.
Variable request : Request.
Variable e : Env.



(** X29. A [create] whose body names neither [tenant_id] nor the key of a
    stored row stores nothing and throws: Conflict when a visible principal
    of the tenant has the email, and otherwise the error of the NOT NULL
    constraint on [tenant_id], which the tenant of the request never
    reaches.  A body with the declared properties only is such a body. *)
Theorem create_without_tenant_id_stores_nothing
    (createUserDto : Posted CreateUserDto) (w : World) :
  und_tenant_id (undeclared createUserDto) = None ->
  (forall k, und_id (undeclared createUserDto) = Some k -> db w !! k = None) ->
  let email_ := dto_email (declared createUserDto) in
  UsersService.create request e createUserDto w =
  (Throw (match principal_by_email (tenantId request) email_ (db w) with
          | Some _ => ConflictException "User with this email already exists"
          | None => Repository.not_null
          end),
   after_email_lookup (tenantId request) email_ w) /\
  db (after_email_lookup (tenantId request) email_ w) = db w.
Proof.
  intros Hten Hid. cbv zeta. split; [|reflexivity].
  rewrite create_run. cbv zeta.
  destruct (principal_by_email _ _ _); [reflexivity|].
  rewrite persist_run, complete_new_user, Hten.
  change (db (after_email_lookup _ _ w)) with (db w).
  unfold Repository.row_of. cbn [obj_id UsersService.new_user].
  destruct (und_id (undeclared createUserDto)) as [k|]; [|reflexivity].
  by rewrite (Hid k eq_refl).
Qed.

(** X30. What a successful [update] returns is not the stored row: the
    returned [email] is the lower-cased email of the body, [undefined] when
    the body has none, and the returned [updated_by] the caller of the
    request, while the row that is stored keeps the old email when the body
    has none. *)
Theorem update_returns_assigned_email (k : Z) (dto : UpdateUserDto)
    (w w' : World) (res : UsersService.UpdatedUser) :
  UsersService.update request e k dto w = (Ok res, w') ->
  UsersService.returned_email res = Js.toLowerCase <$> upd_email dto /\
  UsersService.returned_updated_by res = UsersService.getCurrentUserId request /\
  db w' !! id (UsersService.saved res) = Some (cols (UsersService.saved res)) /\
  (upd_email dto = None ->
   exists r, db w !! id (UsersService.saved res) = Some r /\
             email (UsersService.saved res) = email r).
Proof.
  intros (u & w0 & stored & Hf & Hdb & Hp & ->)%update_inv.
  cbn [UsersService.returned_email UsersService.returned_updated_by
       UsersService.saved].
  split; [reflexivity|]. split; [reflexivity|].
  destruct (persist_cases e (UsersService.assign request u dto) w0)
    as [(err & Hp' & _)|[(k0 & r & Hp' & Hrow)|(k0 & r & Hp' & _ & Hrow)]];
    rewrite Hp' in Hp; [discriminate| |];
    apply pair_equal_spec in Hp as [Hs <-]; apply Ok_inj in Hs; subst stored;
    cbn [id cols].
  - split; [exact Hrow|]. intros _. rewrite Hdb in Hrow. eauto.
  - cbn [wrote db]. rewrite lookup_insert_eq. split; [reflexivity|].
    intros Hnone.
    destruct Hrow as [(r0 & Hk0 & _ & ->)|(draft & _ & Hc & _)].
    + rewrite Hdb in Hk0. exists r0. split; [exact Hk0|].
      rewrite email_updated_row. cbn [obj_email UsersService.assign].
      by rewrite Hnone.
    + unfold complete in Hc. cbn in Hc. rewrite Hnone in Hc. discriminate.
Qed.

End Failures.

(* ===================================================================== *)
(** * The further properties on the sample tenant *)
(* ===================================================================== *)

Lemma sample_emits_2a : emits_2a ref_bcrypt.
Proof. exact ReferenceLaws.ref_hash_prefix. Defined.

Lemma sample_password_column_tagged : password_column_tagged (db Sample.world).
Proof.
  intros k r. unfold Sample.world. cbn [db].
  rewrite !lookup_insert_Some, lookup_empty.
  intros [[_ <-]|[_ [[_ <-]|[_ [[_ <-]|[_ ?]]]]]]; try discriminate;
    right; apply ReferenceLaws.ref_hash_prefix.
Defined.

(** The body of [new_user] with a tenant and a digest-like password hash of
    the client's choosing. *)
Definition new_user_with_tenant : Posted CreateUserDto :=
  mkPosted new_user
    (mkUndeclared None (Some 7) (Some "$2a$chosen-by-the-client") None None
                  None None None None None None None).

(** The administrator renames the principal with key 2 and moves it to an
    email in mixed case. *)
Definition rename_bob : UpdateUserDto :=
  mkUpdateUserDto no_undeclared
                  (Some "Robert@Acme.Test") (Some "Robert") None None None
                  None None None None None None None None None.

(** A day of the sample tenant: a registration, a creation, a login, an
    update, a password change, a removal and a bulk activation. *)
Definition sample_calls : list (Request * Env * ApiCall) :=
  [ (Sample.anonymous, Sample.env, CallRegister new_user);
    (Sample.as_admin, Sample.env, CallUsers (OpCreate new_user_with_tenant));
    (Sample.anonymous, Sample.env, CallLogin Scenario.admin);
    (Sample.as_admin, Scenario.later, CallUsers (OpUpdate 2 rename_bob));
    (Sample.as_admin, Scenario.later,
     CallUsers (OpChangePassword 1 admin_password_change));
    (Sample.as_admin, Scenario.later, CallUsers (OpRemove 2));
    (Sample.as_admin, Scenario.late, CallUsers (OpBulkActivate [1; 2; 3]));
    (Sample.anonymous, Scenario.late, CallLogout 1) ].

Lemma api_keeps_password_column_tagged_witness :
  password_column_tagged
    (db (serve_all ref_bcrypt ref_bcrypt ref_jwt Sample.config sample_calls
           Sample.world)) /\
  forall k r salt,
    db (serve_all ref_bcrypt ref_bcrypt ref_jwt Sample.config sample_calls
          Sample.world) !! k = Some r ->
    hashPassword (bcryptjs := ref_bcrypt) salt r = r.
Proof.
  exact (api_keeps_password_column_tagged ref_bcrypt ref_bcrypt ref_jwt
           Sample.config sample_calls Sample.world sample_emits_2a
           sample_password_column_tagged).
Defined.

(** The store after the administrator removes the principal with key 2. *)
Definition after_remove_bob : World :=
  snd (UsersService.remove Sample.as_admin Sample.env 2 Sample.world).

Lemma remove_hides_principal_witness :
  (exists r, db Sample.world !! 2 = Some r /\
             db after_remove_bob !! 2 =
             Some (set_updated_at (now Sample.env)
                     (set_deleted_at (Some (now Sample.env)) r))) /\
  (forall k', k' <> 2 -> db after_remove_bob !! k' = db Sample.world !! k') /\
  fst (UsersService.findOne Sample.anonymous 2 after_remove_bob) =
    Throw (NotFoundException "User not found").
Proof.
  apply (remove_hides_principal Sample.as_admin Sample.env 2 Sample.world
           after_remove_bob Sample.anonymous).
  vm_compute. reflexivity.
Defined.


(** The store after the administrator changes their own password on the
    sample tenant. *)
Definition after_own_password_change : World :=
  snd (UsersService.changePassword (bcryptjs := ref_bcrypt) Sample.as_admin
         Scenario.later 1 admin_password_change Sample.world).

Lemma changePassword_then_validate_witness :
  exists r',
    db after_own_password_change !! 1 = Some r' /\
    password_hash r' =
    @bcrypt_hash ref_bcrypt (new_password admin_password_change) 12
                 (pw_salt Scenario.later) /\
    updated_by r' = Some 1 /\
    validatePassword (bcryptjs := ref_bcrypt) r'
      (new_password admin_password_change) = true.
Proof.
  apply (changePassword_then_validate (bcryptjs := ref_bcrypt) Sample.as_admin
           Scenario.later 1 admin_password_change Sample.world
           after_own_password_change sample_password_column_tagged).
  - reflexivity.
  - reflexivity.
  - vm_compute. reflexivity.
Defined.

(** The email of the principal with key 2, with a capital. *)
Definition capitalise_bob : UpdateUserDto :=
  mkUpdateUserDto no_undeclared (Some "Bob@acme.test") None None None None
                  None None None None None None None None None.

Lemma update_own_email_in_other_case_conflicts_witness :
  fst (UsersService.update (bcryptjs := ref_bcrypt) Sample.as_admin
         Scenario.later 2 capitalise_bob Sample.world) =
    Throw (ConflictException "User with this email already exists") /\
  db (snd (UsersService.update (bcryptjs := ref_bcrypt) Sample.as_admin
             Scenario.later 2 capitalise_bob Sample.world)) =
  db Sample.world.
Proof.
  apply (update_own_email_in_other_case_conflicts (bcryptjs := ref_bcrypt)
           Sample.as_admin Scenario.later 2 capitalise_bob Sample.world
           (mkUser 2 (Sample.row 7 "bob@acme.test"
                        (Reference.ref_hash "B0b!passw" 12 "second-salt")
                        EMPLOYEE INACTIVE None))
           "Bob@acme.test").
  - vm_compute. reflexivity.
  - reflexivity.
  - intros Heq. discriminate Heq.
  - vm_compute. reflexivity.
Defined.

Lemma activate_then_findOne_witness :
  exists u' w',
    UsersService.activate (bcryptjs := ref_bcrypt) Sample.as_admin
      Scenario.later 2 Sample.world = (Ok u', w') /\
    id u' = 2 /\ status u' = ACTIVE /\
    updated_by u' =
    Some (default 0 (UsersService.getCurrentUserId Sample.as_admin)) /\
    fst (UsersService.findOne Sample.as_admin 2 w') = Ok u' /\
    (forall k', k' <> 2 -> db w' !! k' = db Sample.world !! k').
Proof.
  destruct (UsersService.activate (bcryptjs := ref_bcrypt) Sample.as_admin
              Scenario.later 2 Sample.world)
    as [[u'|ex] w'] eqn:Ha; [|vm_compute in Ha; discriminate Ha].
  exists u', w'. split; [reflexivity|].
  exact (activate_then_findOne (bcryptjs := ref_bcrypt) Sample.as_admin
           Scenario.later 2 Sample.world w' u' Ha).
Defined.

Lemma deactivate_then_findOne_witness :
  exists u' w',
    UsersService.deactivate (bcryptjs := ref_bcrypt) Sample.as_admin
      Scenario.later 2 Sample.world = (Ok u', w') /\
    UsersService.getCurrentUserId Sample.as_admin <> Some 2 /\
    id u' = 2 /\ status u' = INACTIVE /\ is_active u' = false /\
    fst (UsersService.findOne Sample.as_admin 2 w') = Ok u' /\
    (forall k', k' <> 2 -> db w' !! k' = db Sample.world !! k').
Proof.
  destruct (UsersService.deactivate (bcryptjs := ref_bcrypt) Sample.as_admin
              Scenario.later 2 Sample.world)
    as [[u'|ex] w'] eqn:Hd; [|vm_compute in Hd; discriminate Hd].
  exists u', w'. split; [reflexivity|].
  exact (deactivate_then_findOne (bcryptjs := ref_bcrypt) Sample.as_admin
           Scenario.later 2 Sample.world w' u' Hd).
Defined.

Lemma refresh_failure_writes_nothing_witness :
  exists ex w',
    AuthController.refreshTokens ref_bcrypt ref_jwt Sample.config
      Sample.anonymous Sample.env "not-a-token" Sample.world = (Throw ex, w') /\
    db w' = db Sample.world /\
    (ex = ReferenceError "UnauthorizedException is not defined" \/
     ex = UnauthorizedException "Access Denied" \/
     ex = Error "jwt sign failed") /\
    (ex = ReferenceError "UnauthorizedException is not defined" <->
     forall c, @jwt_decode ref_jwt "not-a-token" = Some c -> sub c = 0).
Proof.
  destruct (AuthController.refreshTokens ref_bcrypt ref_jwt Sample.config
              Sample.anonymous Sample.env "not-a-token" Sample.world)
    as [[resp|ex] w'] eqn:Hr; [vm_compute in Hr; discriminate Hr|].
  exists ex, w'. split; [reflexivity|].
  exact (refresh_failure_writes_nothing ref_bcrypt ref_jwt Sample.config
           Sample.anonymous Sample.env "not-a-token" Sample.world w' ex Hr).
Defined.


(** The first page of the sample tenant, one row a page. *)
Definition first_page_of_one : UserQueryDto :=
  mkUserQueryDto (Some 1) (Some 1) None None None None None None.

Lemma findAll_pagination_witness :
  exists res,
    fst (UsersService.findAll Sample.as_admin first_page_of_one Sample.world)
    = Ok res /\
    res_page res = 1 /\ res_limit res = 1 /\ 0 <= total res /\
    (exists tp, total_pages res = Js.Num tp /\
                (tp - 1) * 1 < total res <= tp * 1) /\
    Z.of_nat (length (data res)) =
    Z.min 1 (Z.max 0 (total res - (1 - 1) * 1)) /\
    has_next res = (1 * 1 <? total res) /\
    has_prev res = (1 <? 1).
Proof.
  destruct (fst (UsersService.findAll Sample.as_admin first_page_of_one
                   Sample.world)) as [res|ex] eqn:Hf;
    [|vm_compute in Hf; discriminate Hf].
  exists res. split; [reflexivity|].
  apply (findAll_pagination Sample.as_admin first_page_of_one Sample.world res);
    [vm_compute; discriminate|vm_compute; discriminate|exact Hf].
Defined.

Lemma valid_password_extends_witness :
  valid_password (String.append "Passw0rd!" " and then anything") = true.
Proof.
  apply (valid_password_extends "Passw0rd!" " and then anything").
  vm_compute. reflexivity.
Defined.

Lemma hashPassword_idempotent_witness :
  hashPassword (bcryptjs := ref_bcrypt) "another-salt"
    (hashPassword (bcryptjs := ref_bcrypt) "salt-of-the-password"
       (Sample.row 7 "zoe@acme.test" "Passw0rd!" EMPLOYEE PENDING None)) =
  hashPassword (bcryptjs := ref_bcrypt) "salt-of-the-password"
    (Sample.row 7 "zoe@acme.test" "Passw0rd!" EMPLOYEE PENDING None).
Proof.
  exact (hashPassword_idempotent (bcryptjs := ref_bcrypt)
           "salt-of-the-password" "another-salt"
           (Sample.row 7 "zoe@acme.test" "Passw0rd!" EMPLOYEE PENDING None)
           sample_emits_2a).
Defined.




(* ===================================================================== *)
(** * A removed principal *)
(* ===================================================================== *)


Section Gone.

Context {bcryptjs : BcryptLib}.
Variable request : Request.
Variable e : Env.


End Gone.


(** The body with the declared properties of [new_user] and no others. *)
Definition new_user_declared_only : Posted CreateUserDto :=
  mkPosted new_user no_undeclared.

Lemma create_without_tenant_id_stores_nothing_witness :
  UsersService.create (bcryptjs := ref_bcrypt) Sample.as_admin Sample.env
    new_user_declared_only Sample.world =
  (Throw Repository.not_null,
   after_email_lookup 7 "new@acme.test" Sample.world) /\
  db (after_email_lookup 7 "new@acme.test" Sample.world) = db Sample.world.
Proof.
  exact (create_without_tenant_id_stores_nothing (bcryptjs := ref_bcrypt)
           Sample.as_admin Sample.env new_user_declared_only Sample.world
           eq_refl ltac:(discriminate)).
Defined.

(** The body [{ first_name: "Robert" }]. *)
Definition first_name_only : UpdateUserDto :=
  mkUpdateUserDto no_undeclared None (Some "Robert") None None None
                  None None None None None None None None None.

Lemma update_returns_assigned_email_witness :
  exists res w',
    UsersService.update (bcryptjs := ref_bcrypt) Sample.as_admin
      Scenario.later 2 first_name_only Sample.world = (Ok res, w') /\
    UsersService.returned_email res = None /\
    exists r, db w' !! 2 = Some r /\ email r = "bob@acme.test" /\
              first_name r = "Robert".
Proof.
  destruct (UsersService.update (bcryptjs := ref_bcrypt) Sample.as_admin
              Scenario.later 2 first_name_only Sample.world)
    as [[res|ex] w'] eqn:Hu; [|vm_compute in Hu; discriminate Hu].
  exists res, w'. split; [reflexivity|].
  destruct (update_returns_assigned_email (bcryptjs := ref_bcrypt)
              Sample.as_admin Scenario.later 2 first_name_only Sample.world
              w' res Hu) as (Hem & _ & Hstored & _).
  split; [exact Hem|].
  vm_compute in Hu. injection Hu as <- <-.
  eexists. split; [vm_compute; reflexivity|]. split; reflexivity.
Defined.
